(** * US Census Bureau connector: catalog discovery, variable discovery,
      incremental fetcher and time-series fetchers

    A shallow embedding of the Python sources

      - [assets/catalog/catalog.py]
      - [assets/variables/variables.py]
      - [assets/data_fetcher/data_fetcher.py]
      - [assets/acs/acs.py], [assets/population/population.py],
        [assets/poverty/poverty.py]

    followed by the properties of them that the specification states.

    Conventions of the embedding.
      - A Python [str] that the code compares, searches or joins is a
        [string]: the bytes of its UTF-8 form (case folding is the ASCII
        one).  A [str] that the code cuts by position is the list of its
        code points ([Py.code_points]); like the UTF-8 form it stands for
        a text without lone surrogates.  A JSON cell that may be [null] is
        an [option string]; a JSON value that the code only tests for its
        truth is a [Catalog.json].
      - A [dict] whose iteration order is observed is an insertion-ordered
        association list ([Py.odict_set]); a [dict] that is only looked up
        is a [gmap]; a [set] is a [gset].
      - An exception is a value of [Py.res]; [try]/[except] is a match on it.
      - The builtins [int] and [float] on strings are parameters of the
        sections that use them ([None] stands for [ValueError]), so every
        statement holds whatever their grammar; a decimal reading of them
        is supplied for the worked examples.  The exception pyarrow raises
        for a value its column does not take is a parameter too.
      - The transport capability [get(...).json()] is a function from
        requests to results, a parameter as well. *)

From Stdlib Require Import ZArith List String Ascii Lia Permutation Sorted.
From Stdlib Require SpecFloat.
From stdpp Require Import base list gmap strings.

Open Scope string_scope.
Open Scope list_scope.
Open Scope Z_scope.

(** ** Python values and builtins *)

Module Py.

(** A JSON cell of a tabular response: a string, or [null]. *)
Abbreviation cell := (option string).

Inductive exn_kind : Type :=
  | IndexError
  | TypeError
  | ValueError
  | AttributeError
  | HTTPError
  | ArrowInvalid.

(** An exception: its class and the text [str(e)] gives. *)
Record exn : Type := Exn { kind : exn_kind; str : string }.

Inductive res (A : Type) : Type :=
  | Ok (a : A)
  | Raise (e : exn).

Arguments Ok {A} a.
Arguments Raise {A} e.

#[export] Instance exn_kind_eq_dec : EqDecision exn_kind.
Proof. solve_decision. Defined.

#[export] Instance exn_eq_dec : EqDecision exn.
Proof. solve_decision. Defined.

#[export] Instance res_eq_dec `{EqDecision A} : EqDecision (res A).
Proof. solve_decision. Defined.

#[export] Instance res_ret : MRet res := fun A a => Ok a.

#[export] Instance res_bind : MBind res := fun A B f m =>
  match m with
  | Ok a => f a
  | Raise e => Raise e
  end.

Definition index_error : exn := Exn IndexError "list index out of range".

(** [l[i]] for a non-negative [i]. *)
Definition index {A : Type} (l : list A) (i : nat) : res A :=
  match l !! i with
  | Some x => Ok x
  | None => Raise index_error
  end.

(** A [str] as the sequence of its code points: what [s[:n]] and
    [len(s)] count. *)
Abbreviation code_points := (list N).

(** The code points of a text written in ASCII. *)
Definition code_points_of (s : string) : code_points :=
  N_of_ascii <$> list_ascii_of_string s.

(** [bool(s)] for a string. *)
Definition truthy (s : string) : bool :=
  match s with
  | EmptyString => false
  | String _ _ => true
  end.

(** [bool(c)] for a cell: [None] and [""] are false. *)
Definition cell_truthy (c : cell) : bool :=
  match c with
  | Some s => truthy s
  | None => false
  end.

Definition lower_ascii (c : ascii) : ascii :=
  let n := nat_of_ascii c in
  if ((65 <=? n) && (n <=? 90))%nat then ascii_of_nat (n + 32) else c.

(** [s.lower()]. *)
Fixpoint lower (s : string) : string :=
  match s with
  | EmptyString => EmptyString
  | String c s' => String (lower_ascii c) (lower s')
  end.

(** [s.startswith(p)]. *)
Definition startswith (s p : string) : bool := String.prefix p s.

(** [s.endswith(p)]. *)
Definition endswith (s p : string) : bool :=
  let n := String.length s in
  let m := String.length p in
  ((m <=? n)%nat && String.eqb (String.substring (n - m) m s) p).

(** [p in s] for strings. *)
Fixpoint contains (p s : string) : bool :=
  String.prefix p s ||
  match s with
  | EmptyString => false
  | String _ s' => contains p s'
  end.

(** [x in l] for a list of strings. *)
Definition in_list (x : string) (l : list string) : bool :=
  existsb (String.eqb x) l.

(** [range(lo, hi)]. *)
Definition range (lo hi : Z) : list Z := seqZ lo (hi - lo).

(** [enumerate(l)]. *)
Definition enumerate {A : Type} (l : list A) : list (nat * A) :=
  imap (fun i x => (i, x)) l.

(** [dict(pairs)] and the dict comprehension [{k: v for ...}] when the
    result is only looked up: a later pair overrides an earlier one. *)
Definition dict_of `{Countable K} {V : Type} (pairs : list (K * V)) : gmap K V :=
  foldl (fun m kv => <[kv.1 := kv.2]> m) ∅ pairs.

(** Insertion-ordered dicts.  [d[k] = v] keeps the position of a key that
    is already there and appends a new key. *)
Fixpoint odict_set `{EqDecision K} {V : Type} (k : K) (v : V) (d : list (K * V))
  : list (K * V) :=
  match d with
  | [] => [(k, v)]
  | (k', v') :: d' =>
      if decide (k = k') then (k, v) :: d' else (k', v') :: odict_set k v d'
  end.

Definition odict_of `{EqDecision K} {V : Type} (pairs : list (K * V)) : list (K * V) :=
  foldl (fun d kv => odict_set kv.1 kv.2 d) [] pairs.

(** [d.get(k)]. *)
Fixpoint odict_get `{EqDecision K} {V : Type} (k : K) (d : list (K * V)) : option V :=
  match d with
  | [] => None
  | (k', v) :: d' => if decide (k = k') then Some v else odict_get k d'
  end.

(** Lexicographic order of the pairs of integers used as sort keys. *)
Definition key_lt (a b : Z * Z) : bool :=
  (a.1 <? b.1) || ((a.1 =? b.1) && (a.2 <? b.2)).

(** [list.sort(key=...)] is a stable sort, and a stable sort has one
    result; insertion from the right computes it: an element goes before
    the first element whose key is not smaller than its own. *)
Fixpoint insert_by {A : Type} (key : A -> Z * Z) (x : A) (l : list A) : list A :=
  match l with
  | [] => [x]
  | y :: l' =>
      if key_lt (key y) (key x) then y :: insert_by key x l' else x :: y :: l'
  end.

Definition sort_by {A : Type} (key : A -> Z * Z) (l : list A) : list A :=
  foldr (insert_by key) [] l.

End Py.

Import Py.

(** ** Catalog discovery: [assets/catalog/catalog.py] *)

Module Catalog.

(** The JSON values a catalog entry gives as [c_vintage]: nothing, an
    integer, or a string. *)
Inductive jval : Type :=
  | JNull
  | JInt (z : Z)
  | JStr (s : string).

(** [bool(v)]. *)
Definition jtruthy (v : jval) : bool :=
  match v with
  | JNull => false
  | JInt z => negb (z =? 0)
  | JStr s => truthy s
  end.

(** A decoded JSON value, as [response.json()] gives it: a number is an
    [int] or a [float]. *)
#[warnings="-register-all"] Inductive json : Type :=
  | JsonNull
  | JsonBool (b : bool)
  | JsonInt (z : Z)
  | JsonFloat (f : SpecFloat.spec_float)
  | JsonString (s : string)
  | JsonArray (items : list json)
  | JsonObject (members : list (string * json)).

(** [bool(v)] for a decoded JSON value: [None], [False], the integer 0, the
    floats 0.0 and -0.0, and the empty string, list and dict are false. *)
Definition json_truthy (v : json) : bool :=
  match v with
  | JsonNull => false
  | JsonBool b => b
  | JsonInt z => negb (z =? 0)
  | JsonFloat (SpecFloat.S754_zero _) => false
  | JsonFloat _ => true
  | JsonString s => truthy s
  | JsonArray [] => false
  | JsonArray (_ :: _) => true
  | JsonObject [] => false
  | JsonObject (_ :: _) => true
  end.

Record priority_info : Type := PriorityInfo {
  name : string;
  min_year : Z;
  priority : Z
}.

Definition PRIORITY_DATASETS : list (string * priority_info) :=
  [ ("acs", PriorityInfo "American Community Survey" 2010 1);
    ("cbp", PriorityInfo "County Business Patterns" 2010 1);
    ("pep", PriorityInfo "Population Estimates Program" 2010 1);
    ("zbp", PriorityInfo "ZIP Business Patterns" 2010 2);
    ("ase", PriorityInfo "Annual Survey of Entrepreneurs" 2014 2);
    ("abscs", PriorityInfo "Annual Business Survey" 2017 2);
    ("bdstimeseries", PriorityInfo "Business Dynamics Statistics" 2010 2);
    ("intltrade", PriorityInfo "International Trade" 2013 1);
    ("sahie", PriorityInfo "Small Area Health Insurance Estimates" 2010 2);
    ("saipe", PriorityInfo "Small Area Income and Poverty Estimates" 2010 1);
    ("ecnbasic", PriorityInfo "Economic Census" 2017 1);
    ("bps", PriorityInfo "Building Permits Survey" 2010 1) ].

Record distribution_item : Type := Distribution {
  format : option string;
  accessURL : option string
}.

(** A raw entry of the catalog document.  A field that is [None] is a key
    the entry does not have ([c_dataset]: absent, or not a list).
    [c_isAvailable], whose truth the code tests, holds any JSON value. *)
Record entry : Type := Entry {
  identifier : option string;
  c_dataset : option (list string);
  c_vintage : jval;
  title : option string;
  description : option code_points;
  distribution : option (list distribution_item);
  c_variablesLink : option string;
  c_geographyLink : option string;
  c_groupsLink : option string;
  c_examplesLink : option string;
  c_isMicrodata : option bool;
  c_isAggregate : option bool;
  c_isCube : option bool;
  c_isAvailable : option json;
  modified : option string
}.

(** The dict [parse_dataset_metadata] returns. *)
Record metadata : Type := Metadata {
  dataset_id : string;
  dataset_type : option string;
  dataset_path : option string;
  vintage : jval;
  m_title : string;
  m_description : code_points;
  api_endpoint : option string;
  variables_link : option string;
  geography_link : option string;
  groups_link : option string;
  examples_link : option string;
  is_microdata : bool;
  is_aggregate : bool;
  is_cube : bool;
  m_modified : string;
  m_priority : Z
}.

(** The first pattern of the table, in the table's order, that the
    lower-cased path contains. *)
Fixpoint first_pattern (table : list (string * priority_info)) (path : string)
  : option string :=
  match table with
  | [] => None
  | (pattern, _) :: table' =>
      if contains pattern (lower path) then Some pattern
      else first_pattern table' path
  end.

Definition extract_dataset_type (dataset : entry) : option string * option string :=
  match c_dataset dataset with
  | Some parts =>
      let dataset_path := String.concat "/" parts in
      match first_pattern PRIORITY_DATASETS dataset_path with
      | Some pattern => (Some pattern, Some dataset_path)
      | None => (None, None)
      end
  | None => (None, None)
  end.

(** [PRIORITY_DATASETS[dataset_type]['min_year']]; the key comes from the
    table, so the lookup finds it. *)
Definition min_year_of (dataset_type : string) : Z :=
  match odict_get dataset_type PRIORITY_DATASETS with
  | Some info => min_year info
  | None => 0
  end.

Section WithInt.

(** [int(s)] for a string: [None] is [ValueError]. *)
Variable py_int : string -> option Z.

(** [int(v)] for the value of [c_vintage]. *)
Definition int_of_jval (v : jval) : option Z :=
  match v with
  | JNull => None
  | JInt z => Some z
  | JStr s => py_int s
  end.

(** The vintage test of [should_include_dataset]: [false] is the early
    [return False]. *)
Definition vintage_check (dataset_type : string) (vintage : jval) : bool :=
  if jtruthy vintage then
    match int_of_jval vintage with
    | Some year => negb (year <? min_year_of dataset_type)
    | None => true
    end
  else true.

Definition should_include_dataset (dataset : entry) : bool :=
  match extract_dataset_type dataset with
  | (Some dataset_type, _) =>
      if negb (truthy dataset_type) then false
      else if negb (vintage_check dataset_type (c_vintage dataset)) then false
      else if negb (json_truthy (default (JsonBool true) (c_isAvailable dataset)))
      then false
      else true
  | (None, _) => false
  end.

End WithInt.

(** The [accessURL] of the first distribution whose format is ["API"]. *)
Fixpoint first_api (dists : list distribution_item) : option string :=
  match dists with
  | [] => None
  | dist :: dists' =>
      if decide (format dist = Some "API") then accessURL dist
      else first_api dists'
  end.

Definition priority_of (dataset_type : option string) : Z :=
  match dataset_type with
  | Some t =>
      match odict_get t PRIORITY_DATASETS with
      | Some info => priority info
      | None => 99
      end
  | None => 99
  end.

Definition parse_dataset_metadata (dataset : entry) : metadata :=
  let '(dataset_type, dataset_path) := extract_dataset_type dataset in
  {| dataset_id := default "" (identifier dataset);
     dataset_type := dataset_type;
     dataset_path := dataset_path;
     vintage := c_vintage dataset;
     m_title := default "" (title dataset);
     m_description :=
       match description dataset with
       | Some (c :: s) => take 500 (c :: s)
       | Some [] | None => []
       end;
     api_endpoint := first_api (default [] (distribution dataset));
     variables_link := c_variablesLink dataset;
     geography_link := c_geographyLink dataset;
     groups_link := c_groupsLink dataset;
     examples_link := c_examplesLink dataset;
     is_microdata := default false (c_isMicrodata dataset);
     is_aggregate := default false (c_isAggregate dataset);
     is_cube := default false (c_isCube dataset);
     m_modified := default "" (modified dataset);
     m_priority := priority_of dataset_type |}.

Definition neg_type_error : exn :=
  Exn TypeError "bad operand type for unary -: 'str'".

(** [-x.get('vintage', 0) if x.get('vintage') else 0]. *)
Definition neg_vintage_or_zero (v : jval) : res Z :=
  if jtruthy v then
    match v with
    | JInt z => Ok (- z)
    | JStr _ => Raise neg_type_error
    | JNull => Ok 0
    end
  else Ok 0.

(** The key of the sort: [(x['priority'], -vintage or 0)]. *)
Definition sort_key (x : metadata) : res (Z * Z) :=
  k ← neg_vintage_or_zero (vintage x); Ok (m_priority x, k).

(** [l.sort(key=sort_key)]: the keys are computed first, any exception
    among them leaves the call. *)
Definition sort_datasets (l : list metadata) : res (list metadata) :=
  decorated ← mapM (fun x => k ← sort_key x; Ok (k, x)) l;
  Ok (snd <$> sort_by fst decorated).

(** What [process_catalog] hands to [save_state("catalog", ...)]. *)
Record catalog_state : Type := CatalogState {
  total_datasets : nat;
  filtered_datasets : nat;
  dataset_counts : gmap (option string) nat
}.

Definition count_types (l : list metadata) : gmap (option string) nat :=
  foldl (fun counts m =>
           <[dataset_type m := (default 0 (counts !! dataset_type m) + 1)%nat]> counts)
        ∅ l.

(** The values an [int32] column of a table takes: null, and the integers
    of 32 bits. *)
Definition fits_int32 (v : jval) : bool :=
  match v with
  | JNull => true
  | JInt z => (-2147483648 <=? z) && (z <=? 2147483647)
  | JStr _ => false
  end.

Section Process.

Variable py_int : string -> option Z.
(** The exception that pyarrow raises for a value an [int32] column does
    not take ([ArrowInvalid] for a string and for 2 ^ 31). *)
Variable arrow_error : jval -> exn.

(** [pa.Table.from_pylist(rows, schema=schema)].  The [vintage] column is
    an [int32]: the first vintage that is no integer of 32 bits raises.
    The other columns take the strings, booleans and priorities the rows
    hold. *)
Definition from_pylist (rows : list metadata) : res (list metadata) :=
  mapM (fun row => if fits_int32 (vintage row) then Ok row
                   else Raise (arrow_error (vintage row))) rows.

(** [process_catalog], from the decoded catalog document on: the table
    returned, or the exception that leaves the function, and the state
    handed to [save_state] if the run gets there. *)
Definition process_catalog (catalog : list entry)
  : res (list metadata) * option catalog_state :=
  let filtered_datasets :=
    parse_dataset_metadata <$> filter (fun d => should_include_dataset py_int d = true) catalog in
  match sort_datasets filtered_datasets with
  | Raise e => (Raise e, None)
  | Ok sorted =>
      (from_pylist sorted,
       Some (CatalogState (length catalog) (length sorted)
               (count_types filtered_datasets)))
  end.

End Process.

End Catalog.

(** ** Variable discovery: [assets/variables/variables.py] *)

Module Variables.

Definition PRIORITY_VARIABLES : list (string * list (string * string)) :=
  [ ("acs",
      [ ("B01001", "Sex by Age");
        ("B02001", "Race");
        ("B03001", "Hispanic or Latino Origin");
        ("B19013", "Median Household Income");
        ("B19001", "Household Income");
        ("B17001", "Poverty Status");
        ("B22001", "SNAP/Food Stamps");
        ("B25001", "Housing Units");
        ("B25077", "Median Home Value");
        ("B25003", "Tenure (Owner/Renter)");
        ("B25061", "Rent Asked");
        ("B23025", "Employment Status");
        ("B24010", "Occupation by Sex");
        ("B08301", "Means of Transportation to Work");
        ("B08303", "Travel Time to Work");
        ("B15003", "Educational Attainment");
        ("B14001", "School Enrollment") ]);
    ("cbp",
      [ ("EMP", "Number of Employees");
        ("PAYANN", "Annual Payroll");
        ("ESTAB", "Number of Establishments");
        ("EMPSZES", "Employment Size of Establishments");
        ("PAYQTR1", "First Quarter Payroll") ]);
    ("pep",
      [ ("POP", "Total Population");
        ("DENSITY", "Population Density");
        ("BIRTHS", "Births");
        ("DEATHS", "Deaths");
        ("NATURALINC", "Natural Increase");
        ("INTERNATIONALMIG", "International Migration");
        ("DOMESTICMIG", "Domestic Migration") ]);
    ("saipe",
      [ ("SAEPOVRTALL_PT", "Poverty Rate All Ages");
        ("SAEPOVRT0_17_PT", "Poverty Rate Age 0-17");
        ("SAEMHI_PT", "Median Household Income") ]);
    ("sahie",
      [ ("NIC_PT", "Percent Uninsured");
        ("NIPR_PT", "Percent Uninsured MOE");
        ("NUI_PT", "Number Uninsured") ]);
    ("intltrade",
      [ ("IMPVAL", "Import Value");
        ("EXPVAL", "Export Value");
        ("BALANCE", "Trade Balance") ]) ].

(** The keys of a dict, in order. *)
Definition keys {V : Type} (d : list (string * V)) : list string := fst <$> d.

Definition is_priority_variable (dataset_type var_name : string) : bool :=
  match odict_get dataset_type PRIORITY_VARIABLES with
  | None => true
  | Some priorities =>
      if in_list var_name (keys priorities) then true
      else if existsb (fun priority_prefix => startswith var_name priority_prefix)
                      (keys priorities) then true
      else if in_list dataset_type ["cbp"; "pep"; "zbp"; "bps"] then
        negb (startswith var_name "NAME") && negb (in_list var_name ["for"; "in"; "ucgid"])
      else false
  end.

End Variables.

(** ** Incremental fetcher: [assets/data_fetcher/data_fetcher.py] *)

Module DataFetcher.

(** A row of the catalog table, with the columns the fetcher reads. *)
Record dataset : Type := Dataset {
  dataset_type : option string;
  dataset_path : option string;
  vintage : option Z;
  api_endpoint : option string;
  priority : Z
}.

(** A row of the variables table, with the columns the fetcher reads. *)
Record variable_row : Type := VariableRow {
  var_dataset_path : option string;
  var_vintage : option Z;
  variable_name : string;
  var_label : string
}.

Definition MAX_VARS_PER_REQUEST : nat := 50.

(** The body of the loop of [build_variable_groups], on the pair
    [(groups, current_group)]. *)
Definition group_step (st : list (list string) * list string) (var : variable_row)
  : list (list string) * list string :=
  let '(groups, current_group) := st in
  let current_group := current_group ++ [variable_name var] in
  if (MAX_VARS_PER_REQUEST <=? length current_group)%nat
  then (groups ++ [current_group], [])
  else (groups, current_group).

Definition build_variable_groups (variables : list variable_row) : list (list string) :=
  let '(groups, current_group) := foldl group_step ([], []) variables in
  match current_group with
  | [] => groups
  | _ :: _ => groups ++ [current_group]
  end.

Section WithFloat.

(** The type of Python floats, and [float(s)] for a string: [None] is
    [ValueError]. *)
Variable F : Type.
Variable py_float : string -> option F.

(** One long-format record.  The three identifier fields are [None] when
    the record has no such key. *)
Record observation : Type := Observation {
  obs_dataset_type : option string;
  obs_vintage : option Z;
  geography_name : cell;
  state_fips : option cell;
  county_fips : option cell;
  place_fips : option cell;
  variable : string;
  value : cell;
  label : string;
  value_numeric : option F
}.

(** [{h: i for i, h in enumerate(headers)}]. *)
Definition header_index (headers : list cell) : gmap cell nat :=
  dict_of ((fun ih => (ih.2, ih.1)) <$> enumerate headers).

(** The [try] block that fills [value_numeric]. *)
Definition numeric (value : cell) : option F :=
  match value with
  | Some s =>
      if truthy s && negb (in_list s ["null"; "N/A"; "-"]) then py_float s
      else None
  | None => None
  end.

(** [row[header_idx[name]]] under [if name in header_idx]. *)
Definition identifier_of (header_idx : gmap cell nat) (row : list cell) (name : string)
  : res (option cell) :=
  match header_idx !! Some name with
  | Some i => c ← index row i; Ok (Some c)
  | None => Ok None
  end.

(** The loop over [variable_map] for one row; [variable_map[var_name]] is
    the entry the key comes with. *)
Fixpoint variable_records (header_idx : gmap cell nat) (row : list cell)
    (base : string -> cell -> string -> option F -> observation)
    (variable_map : list (string * variable_row)) : res (list observation) :=
  match variable_map with
  | [] => Ok []
  | (var_name, info) :: variable_map' =>
      match header_idx !! Some var_name with
      | Some i =>
          value ← index row i;
          records ← variable_records header_idx row base variable_map';
          Ok (base var_name value (var_label info) (numeric value) :: records)
      | None => variable_records header_idx row base variable_map'
      end
  end.

(** The body of the loop over [data[1:]]. *)
Definition row_records (header_idx : gmap cell nat) (dataset_info : dataset)
    (variable_map : list (string * variable_row)) (row : list cell)
  : res (list observation) :=
  name ← index row (default 0%nat (header_idx !! Some "NAME"));
  state ← identifier_of header_idx row "state";
  county ← identifier_of header_idx row "county";
  place ← identifier_of header_idx row "place";
  variable_records header_idx row
    (Observation (dataset_type dataset_info) (vintage dataset_info)
                 name state county place)
    variable_map.

Definition parse_api_response (data : list (list cell)) (dataset_info : dataset)
    (variable_map : list (string * variable_row)) : res (list observation) :=
  match data with
  | [] | [_] => Ok []
  | headers :: rows =>
      let header_idx := header_index headers in
      records ← mapM (row_records header_idx dataset_info variable_map) rows;
      Ok (concat records)
  end.

End WithFloat.

(** [{v['variable_name']: v for v in variables}]. *)
Definition variable_map_of (variables : list variable_row) : list (string * variable_row) :=
  odict_of ((fun v => (variable_name v, v)) <$> variables).

(** [-x.get('vintage', 0) if x.get('vintage') else 0]. *)
Definition neg_vintage_or_zero (v : option Z) : Z :=
  match v with
  | Some z => if negb (z =? 0) then - z else 0
  | None => 0
  end.

Definition sort_key (x : dataset) : Z * Z :=
  (priority x, neg_vintage_or_zero (vintage x)).

(** The selection loop of [process_data_fetcher]; returning
    [datasets_to_process] at once is the [break]. *)
Fixpoint select_loop (datasets : list dataset) (processed_types : gset (option string))
    (datasets_to_process : list dataset) : list dataset :=
  match datasets with
  | [] => datasets_to_process
  | dataset :: datasets' =>
      let dtype := dataset_type dataset in
      if decide (dtype ∈ processed_types)
      then select_loop datasets' processed_types datasets_to_process
      else
        let datasets_to_process := datasets_to_process ++ [dataset] in
        let processed_types := processed_types ∪ {[dtype]} in
        if (10 <=? length datasets_to_process)%nat then datasets_to_process
        else select_loop datasets' processed_types datasets_to_process
  end.

(** The list [datasets_to_process] that [process_data_fetcher] builds from
    the catalog table: the sort, then the selection loop. *)
Definition datasets_to_process (catalog_data : list dataset) : list dataset :=
  let datasets := sort_by sort_key catalog_data in
  select_loop datasets ∅ [].

End DataFetcher.

(** ** Time-series fetchers: [assets/acs/acs.py],
       [assets/population/population.py], [assets/poverty/poverty.py] *)

Module TimeSeries.

(** The requests the three fetchers send, one constructor per endpoint
    and parameter set:
      - [AcsGroup y t]: [{API_BASE_URL}/{y}/acs/acs5],
        [get=NAME,group(t)], [for=state:*];
      - [PepPopulation y]: [{API_BASE_URL}/{y}/pep/population],
        [get=NAME,POP,DENSITY];
      - [PepCharAgeGroups y]: [{API_BASE_URL}/{y}/pep/charagegroups],
        [get=NAME,POP];
      - [SaipeTimeseries y]: [{API_BASE_URL}/timeseries/poverty/saipe],
        [get=NAME,SAEPOVRTALL_PT,SAEMHI_PT], [time=y];
      - [SaipeYear y]: [{API_BASE_URL}/{y}/poverty/saipe], same [get]. *)
Inductive request : Type :=
  | AcsGroup (year : Z) (table : string)
  | PepPopulation (year : Z)
  | PepCharAgeGroups (year : Z)
  | SaipeTimeseries (year : Z)
  | SaipeYear (year : Z).

(** A decoded body: the rows of the JSON array ([[]] also stands for a
    body that is [null]). *)
Definition body : Type := list (list cell).

(** What a run leaves behind: the requests sent, the years handed to
    [save_state] as [last_year_processed], and [all_records], each in
    order. *)
Record world (R : Type) : Type := World {
  requests : list request;
  saved : list Z;
  all_records : list R
}.

Arguments World {R} requests saved all_records.
Arguments requests {R} w.
Arguments saved {R} w.
Arguments all_records {R} w.

Definition start {R : Type} : world R := World [] [] [].

Definition send {R : Type} (reqs : list request) (w : world R) : world R :=
  World (requests w ++ reqs) (saved w) (all_records w).

Definition save_state {R : Type} (year : Z) (w : world R) : world R :=
  World (requests w) (saved w ++ [year]) (all_records w).

Definition with_records {R : Type} (records : list R) (w : world R) : world R :=
  World (requests w) (saved w) records.

(** [state.get("last_year_processed", 2018)] for the state a run loads. *)
Definition load_last_year (state : option Z) : Z := default 2018 state.

(** [last_year_processed] in the store once the run is over. *)
Definition last_year_processed {R : Type} (state : option Z) (w : world R) : option Z :=
  match last (saved w) with
  | Some year => Some year
  | None => state
  end.

(** A loop whose body may raise: the first exception leaves the loop with
    the state reached. *)
Fixpoint for_each {A S : Type} (body : A -> S -> res unit * S) (l : list A) (s : S)
  : res unit * S :=
  match l with
  | [] => (Ok tt, s)
  | x :: l' =>
      match body x s with
      | (Ok _, s') => for_each body l' s'
      | (Raise e, s') => (Raise e, s')
      end
  end.

(** [if data and len(data) > 1], with [headers = data[0]] and [data[1:]]. *)
Definition usable (data : body) : option (list cell * list (list cell)) :=
  match data with
  | headers :: row :: rows => Some (headers, row :: rows)
  | _ => None
  end.

Section WithFloat.

Variable F : Type.
(** [float(s)], and the text of the [ValueError] it raises. *)
Variable py_float : string -> option F.
Variable float_error : string -> string.

(** [float(v) if v and v != sentinel else None] for a cell [v]. *)
Definition measure (sentinel : string) (v : cell) : res (option F) :=
  match v with
  | Some s =>
      if truthy s && negb (String.eqb s sentinel) then
        match py_float s with
        | Some x => Ok (Some x)
        | None => Raise (Exn ValueError (float_error s))
        end
      else Ok None
  | None => Ok None
  end.

(** *** The loop shared by [process_population] and [process_poverty] *)

Section StateLevel.

Variable R : Type.
(** The fetch function: the body it returns ([None] after both endpoints
    failed) and the requests it sent. *)
Variable fetch : Z -> option body * list request.
(** The record literal built from [row_dict]. *)
Variable make_record : Z -> gmap cell cell -> res R.

(** [for row in data[1:]: if len(row) == len(headers): ...]. *)
Definition row_step (year : Z) (headers row : list cell) (records : list R)
  : res unit * list R :=
  if decide (length row = length headers) then
    let row_dict := dict_of (zip headers row) in
    match make_record year row_dict with
    | Ok record => (Ok tt, records ++ [record])
    | Raise e => (Raise e, records)
    end
  else (Ok tt, records).

(** One iteration of [for year in range(...)]: the [try] block, and
    [except Exception: continue]. *)
Definition year_step (w : world R) (year : Z) : world R :=
  let '(data, reqs) := fetch year in
  let w := send reqs w in
  match usable (default [] data) with
  | Some (headers, rows) =>
      match for_each (row_step year headers) rows (all_records w) with
      | (Ok _, records) => save_state year (with_records records w)
      | (Raise _, records) => with_records records w
      end
  | None => w
  end.

Definition state_level_run (state : option Z) (current_year : Z) : world R :=
  foldl year_step start (range (load_last_year state + 1) current_year).

End StateLevel.

Variable get : request -> res body.

(** *** [population.py] *)

Record population_record : Type := PopulationRecord {
  pop_year : Z;
  pop_dataset : string;
  pop_state_fips : cell;
  pop_state_name : cell;
  population : option F;
  population_density : option F
}.

Definition fetch_population_estimates (year : Z) : option body * list request :=
  match get (PepPopulation year) with
  | Ok data => (Some data, [PepPopulation year])
  | Raise _ =>
      match get (PepCharAgeGroups year) with
      | Ok data => (Some data, [PepPopulation year; PepCharAgeGroups year])
      | Raise _ => (None, [PepPopulation year; PepCharAgeGroups year])
      end
  end.

(** [row_dict.get(k)]: [None] for a missing key as for a null cell. *)
Definition dict_get (row_dict : gmap cell cell) (k : string) : cell :=
  mjoin (row_dict !! Some k).

Definition population_of_row (year : Z) (row_dict : gmap cell cell)
  : res population_record :=
  pop ← measure "-" (dict_get row_dict "POP");
  density ← measure "-" (dict_get row_dict "DENSITY");
  Ok {| pop_year := year;
        pop_dataset := "population_estimates";
        pop_state_fips := default (Some "") (row_dict !! Some "state");
        pop_state_name := default (Some "") (row_dict !! Some "NAME");
        population := pop;
        population_density := density |}.

Definition process_population (state : option Z) (current_year : Z)
  : world population_record :=
  state_level_run population_record fetch_population_estimates population_of_row
    state current_year.

(** *** [poverty.py] *)

Record poverty_record : Type := PovertyRecord {
  pov_year : Z;
  pov_dataset : string;
  pov_state_fips : cell;
  pov_state_name : cell;
  poverty_rate_all_ages : option F;
  median_household_income : option F
}.

Definition fetch_saipe_data (year : Z) : option body * list request :=
  match get (SaipeTimeseries year) with
  | Ok data => (Some data, [SaipeTimeseries year])
  | Raise _ =>
      match get (SaipeYear year) with
      | Ok data => (Some data, [SaipeTimeseries year; SaipeYear year])
      | Raise _ => (None, [SaipeTimeseries year; SaipeYear year])
      end
  end.

Definition poverty_of_row (year : Z) (row_dict : gmap cell cell)
  : res poverty_record :=
  rate ← measure "." (dict_get row_dict "SAEPOVRTALL_PT");
  income ← measure "." (dict_get row_dict "SAEMHI_PT");
  Ok {| pov_year := year;
        pov_dataset := "saipe";
        pov_state_fips := default (Some "") (row_dict !! Some "state");
        pov_state_name := default (Some "") (row_dict !! Some "NAME");
        poverty_rate_all_ages := rate;
        median_household_income := income |}.

Definition process_poverty (state : option Z) (current_year : Z)
  : world poverty_record :=
  state_level_run poverty_record fetch_saipe_data poverty_of_row state current_year.

(** *** [acs.py] *)

Definition ACS_TABLES : list (string * string) :=
  [ ("B01003", "Total Population");
    ("B25001", "Housing Units");
    ("B19013", "Median Household Income");
    ("B15003", "Educational Attainment");
    ("B08303", "Travel Time to Work") ].

Record acs_record : Type := AcsRecord {
  acs_year : Z;
  acs_dataset : string;
  table_id : string;
  table_name : string;
  acs_state_fips : cell;
  acs_state_name : cell;
  acs_variable : string;
  estimate : option F
}.

Definition no_startswith : exn :=
  Exn AttributeError "'NoneType' object has no attribute 'startswith'".

(** [row_dict.get(k, "")] on the ordered dict. *)
Definition odict_get_default (row_dict : list (cell * cell)) (k : string) : cell :=
  default (Some "") (odict_get (Some k) row_dict).

(** [for key, value in row_dict.items(): ...]. *)
Definition item_step (year : Z) (table : string * string) (row_dict : list (cell * cell))
    (kv : cell * cell) (records : list acs_record) : res unit * list acs_record :=
  match kv.1 with
  | None => (Raise no_startswith, records)
  | Some key =>
      if startswith key table.1 && endswith key "E" then
        match measure "-" kv.2 with
        | Ok est =>
            (Ok tt,
             records ++ [ {| acs_year := year;
                             acs_dataset := "acs5";
                             table_id := table.1;
                             table_name := table.2;
                             acs_state_fips := odict_get_default row_dict "state";
                             acs_state_name := odict_get_default row_dict "NAME";
                             acs_variable := key;
                             estimate := est |} ])
        | Raise e => (Raise e, records)
        end
      else (Ok tt, records)
  end.

Definition acs_row_step (year : Z) (table : string * string) (headers row : list cell)
    (records : list acs_record) : res unit * list acs_record :=
  if decide (length row = length headers) then
    let row_dict := odict_of (zip headers row) in
    for_each (item_step year table row_dict) row_dict records
  else (Ok tt, records).

Definition fetch_acs_data (year : Z) (table : string) : res body :=
  get (AcsGroup year table).

(** The [try] block of one table. *)
Definition table_body (year : Z) (table : string * string) (w : world acs_record)
  : res unit * world acs_record :=
  let w := send [AcsGroup year table.1] w in
  match fetch_acs_data year table.1 with
  | Raise e => (Raise e, w)
  | Ok data =>
      match usable data with
      | Some (headers, rows) =>
          let '(r, records) :=
            for_each (acs_row_step year table headers) rows (all_records w) in
          (r, with_records records w)
      | None => (Ok tt, w)
      end
  end.

(** [for table_id, table_name in ACS_TABLES.items()] with its [except]
    clause: [break] when the text of the exception contains ["404"],
    [continue] otherwise. *)
Fixpoint tables_loop (year : Z) (tables : list (string * string)) (w : world acs_record)
  : world acs_record :=
  match tables with
  | [] => w
  | table :: tables' =>
      match table_body year table w with
      | (Ok _, w') => tables_loop year tables' w'
      | (Raise e, w') =>
          if contains "404" (str e) then w' else tables_loop year tables' w'
      end
  end.

Definition acs_year_step (w : world acs_record) (year : Z) : world acs_record :=
  let w := tables_loop year ACS_TABLES w in
  match all_records w with
  | [] => w
  | _ :: _ => save_state year w
  end.

Definition process_acs (state : option Z) (current_year : Z) : world acs_record :=
  foldl acs_year_step start (range (load_last_year state + 1) (current_year - 1)).

End WithFloat.

End TimeSeries.

(** ** Formatted strings *)

From Stdlib Require DecimalString.

Module Format.

(** [str(z)] for an integer. *)
Definition str_of_int (z : Z) : string :=
  DecimalString.NilZero.string_of_int (Z.to_int z).

(** [f"{v}"] for a nullable integer column. *)
Definition str_of_opt_int (v : option Z) : string :=
  match v with
  | Some z => str_of_int z
  | None => "None"
  end.

(** [f"{s}"] for a nullable string column. *)
Definition str_of_opt_string (s : option string) : string := default "None" s.

(** [f"{a}{sep}{v}"], the shape of every key and name the pipeline
    formats. *)
Definition key (a : option string) (sep : string) (v : option Z) : string :=
  str_of_opt_string a +:+ sep +:+ str_of_opt_int v.

End Format.

(** ** Variable discovery: the requests of [assets/variables/variables.py] *)

Module VariableDiscovery.

(** A row of the catalog table, with the columns [variables.py] reads. *)
Record dataset_row : Type := DatasetRow {
  dataset_type : option string;
  dataset_path : option string;
  vintage : option Z;
  variables_link : option string
}.

(** [is_priority_variable] at the [dataset_type] of a row: a null is no
    key of [PRIORITY_VARIABLES]. *)
Definition is_priority_variable (dataset_type : option string) (var_name : string) : bool :=
  match dataset_type with
  | Some t => Variables.is_priority_variable t var_name
  | None => true
  end.

(** What the process does besides computing: a pause of one second, a
    request for a link. *)
Inductive event : Type :=
  | Sleep
  | Request (link : string).

#[global] Instance event_eq_dec : EqDecision event.
Proof. solve_decision. Defined.

(** The part of the state handed to [save_state] that is computed from
    the variables; [last_updated], the greatest [modified] of the catalog
    table, is left out. *)
Record variables_state : Type := VariablesState {
  total_variables : nat;
  dataset_variable_counts : gmap string nat
}.

Section WithJson.

(** The JSON values of a variable's description: the code copies them and
    never looks inside.  [text s] is the string [s], [boolean b] the
    boolean [b]. *)
Variable J : Type.
Variable text : string -> J.
Variable boolean : bool -> J.

(** The description of a variable: an object, or [None] for any other
    JSON value. *)
Definition var_info : Type := option (gmap string J).

(** The value under ["variables"]: an object, whose items come in the
    order of the document, or any other JSON value. *)
Inductive variables_value : Type :=
  | VariablesDict (items : list (string * var_info))
  | VariablesOther.

(** The body of a response: an object, with the value under
    ["variables"] if it has that key, or any other JSON value. *)
Inductive response : Type :=
  | ResponseDict (variables : option variables_value)
  | ResponseOther.

Record variable_metadata : Type := VariableMetadata {
  vm_dataset_type : option string;
  vm_dataset_path : option string;
  vm_vintage : option Z;
  variable_name : string;
  label : J;
  concept : J;
  predicateType : J;
  group : J;
  predicateOnly : J
}.

(** The [AttributeError] of a method call on a value that has no such
    method. *)
Definition no_attribute (name : string) : exn :=
  Exn AttributeError ("object has no attribute '" +:+ name +:+ "'").

Definition parse_variable_metadata (var_name : string) (info : var_info)
    (dataset_type dataset_path : option string) (vintage : option Z)
  : res variable_metadata :=
  match info with
  | Some info =>
      Ok {| vm_dataset_type := dataset_type;
            vm_dataset_path := dataset_path;
            vm_vintage := vintage;
            variable_name := var_name;
            label := default (text "") (info !! "label");
            concept := default (text "") (info !! "concept");
            predicateType := default (text "") (info !! "predicateType");
            group := default (text "") (info !! "group");
            predicateOnly := default (boolean false) (info !! "predicateOnly") |}
  | None => Raise (no_attribute "get")
  end.

(** [for var_name, var_info in variables_dict.items(): ...]. *)
Fixpoint variables_loop (row : dataset_row) (items : list (string * var_info))
    (variables : list variable_metadata) : res (list variable_metadata) :=
  match items with
  | [] => Ok variables
  | (var_name, info) :: items' =>
      if in_list var_name ["for"; "in"; "ucgid"] then variables_loop row items' variables
      else if is_priority_variable (dataset_type row) var_name then
        metadata ← parse_variable_metadata var_name info (dataset_type row)
                     (dataset_path row) (vintage row);
        variables_loop row items' (variables ++ [metadata])
      else variables_loop row items' variables
  end.

Variable get : string -> res response.

(** The [try] block of [fetch_dataset_variables]. *)
Definition fetch_body (row : dataset_row) (link : string) : res (list variable_metadata) :=
  data ← get link;
  variables_dict ← match data with
                   | ResponseDict None => Ok []
                   | ResponseDict (Some (VariablesDict items)) => Ok items
                   | ResponseDict (Some VariablesOther) => Raise (no_attribute "items")
                   | ResponseOther => Raise (no_attribute "get")
                   end;
  variables_loop row variables_dict [].

(** The list returned, and the links requested. *)
Definition fetch_dataset_variables (row : dataset_row)
  : list variable_metadata * list string :=
  if cell_truthy (variables_link row) then
    let link := default "" (variables_link row) in
    match fetch_body row link with
    | Ok variables => (variables, [link])
    | Raise _ => ([], [link])
    end
  else ([], []).

(** The body of the loop of [process_variables], on the events so far,
    [all_variables] and [dataset_variable_counts]. *)
Definition dataset_step
    (st : list event * list variable_metadata * gmap string nat)
    (id : nat * dataset_row)
  : list event * list variable_metadata * gmap string nat :=
  let '(events, all_variables, counts) := st in
  let '(i, dataset) := id in
  let events := if (0 <? i)%nat && (i mod 10 =? 0)%nat then events ++ [Sleep] else events in
  let '(dataset_vars, links) := fetch_dataset_variables dataset in
  let events := events ++ (Request <$> links) in
  match dataset_vars with
  | [] => (events, all_variables, counts)
  | _ :: _ =>
      (events, all_variables ++ dataset_vars,
       <[Format.key (dataset_type dataset) "/" (vintage dataset)
         := length dataset_vars]> counts)
  end.

(** The rows of the table returned, the state saved and the events, in
    order. *)
Definition process_variables (catalog_data : list dataset_row)
  : list variable_metadata * variables_state * list event :=
  let '(events, all_variables, counts) :=
    foldl dataset_step ([], [], ∅) (enumerate catalog_data) in
  (all_variables, VariablesState (length all_variables) counts, events).

End WithJson.

End VariableDiscovery.

(** ** Incremental fetcher: the requests of
       [assets/data_fetcher/data_fetcher.py] *)

Module DataFetcherRun.

Import DataFetcher.

Definition GEOGRAPHY_LEVELS : list (string * string) :=
  [ ("state", "state:*");
    ("county", "county:*") ].

(** A request of [fetch_census_data]: the endpoint and the two
    parameters. *)
Record request : Type := Request {
  endpoint : string;
  get_param : string;
  for_param : string
}.

#[global] Instance request_eq_dec : EqDecision request.
Proof. solve_decision. Defined.

Section WithFloat.

Variable F : Type.
Variable py_float : string -> option F.

(** What the process does besides computing: a pause of one second, a
    request, an upload of a table under a name, the state saved at the
    end (its two counters; [last_updated] is the time of the clock). *)
Inductive event : Type :=
  | Sleep
  | Send (r : request)
  | Upload (dataset_name : string) (table : list (observation F))
  | SaveState (datasets_processed total_records : nat).

Variable get : request -> res (list (list cell)).

(** The value returned, and the requests sent. *)
Definition fetch_census_data (api_endpoint : option string) (variables : list string)
    (geography : string) : option (list (list cell)) * list request :=
  match api_endpoint, variables with
  | Some url, _ :: _ =>
      if truthy url then
        let var_string := String.concat "," variables in
        let r := {| endpoint := url;
                    get_param := "NAME," +:+ var_string;
                    for_param := geography |} in
        match get r with
        | Ok data => if (1 <? length data)%nat then (Some data, [r]) else (None, [r])
        | Raise _ => (None, [r])
        end
      else (None, [])
  | _, _ => (None, [])
  end.

(** The body of [for i, var_group in enumerate(variable_groups)], on
    [all_records] and the events so far. *)
Definition group_step (dataset_info : dataset) (variable_map : list (string * variable_row))
    (geo_spec : string) (ig : nat * list string)
    (st : list (observation F) * list event)
  : res unit * (list (observation F) * list event) :=
  let '(i, var_group) := ig in
  let '(all_records, events) := st in
  let events := if (0 <? i)%nat && (i mod 5 =? 0)%nat then events ++ [Sleep] else events in
  let '(data, requests) := fetch_census_data (api_endpoint dataset_info) var_group geo_spec in
  let events := events ++ (Send <$> requests) in
  match data with
  | Some data =>
      match parse_api_response F py_float data dataset_info variable_map with
      | Ok records => (Ok tt, (all_records ++ records, events))
      | Raise e => (Raise e, (all_records, events))
      end
  | None => (Ok tt, (all_records, events))
  end.

(** The body of [for geo_name, geo_spec in GEOGRAPHY_LEVELS.items()]. *)
Definition geography_step (dataset_info : dataset)
    (variable_map : list (string * variable_row)) (variable_groups : list (list string))
    (geo : string * string) (st : list (observation F) * list event)
  : res unit * (list (observation F) * list event) :=
  TimeSeries.for_each (group_step dataset_info variable_map geo.2)
    (enumerate variable_groups) st.

(** The list returned, or the exception that leaves the function, and the
    events. *)
Definition process_dataset_data (dataset_info : dataset) (variables : list variable_row)
  : res (list (observation F)) * list event :=
  if cell_truthy (api_endpoint dataset_info) then
    let variable_map := variable_map_of variables in
    let variable_groups := build_variable_groups variables in
    let '(r, (all_records, events)) :=
      TimeSeries.for_each (geography_step dataset_info variable_map variable_groups)
        GEOGRAPHY_LEVELS ([], []) in
    (r ≫= (fun _ => Ok all_records), events)
  else (Ok [], []).

(** [f"{var['dataset_path']}_{var['vintage']}"]. *)
Definition variables_key (path : option string) (vintage : option Z) : string :=
  Format.key path "_" vintage.

(** The first loop of [process_data_fetcher]. *)
Definition variables_by_dataset (variables_data : list variable_row)
  : gmap string (list variable_row) :=
  foldl (fun m var =>
           let key := variables_key (var_dataset_path var) (var_vintage var) in
           <[key := default [] (m !! key) ++ [var]]> m)
        ∅ variables_data.

(** The body of [for dataset in datasets_to_process], on [all_records] and
    the events so far. *)
Definition dataset_step (by_dataset : gmap string (list variable_row)) (dataset : dataset)
    (st : list (observation F) * list event)
  : res unit * (list (observation F) * list event) :=
  let '(all_records, events) := st in
  let key := variables_key (dataset_path dataset) (vintage dataset) in
  match default [] (by_dataset !! key) with
  | [] => (Ok tt, (all_records, events))
  | (_ :: _) as dataset_variables =>
      let '(r, sent) := process_dataset_data dataset dataset_variables in
      let events := events ++ sent in
      match r with
      | Raise e => (Raise e, (all_records, events))
      | Ok [] => (Ok tt, (all_records, events))
      | Ok ((_ :: _) as records) =>
          let dataset_records :=
            filter (fun r => obs_dataset_type F r = dataset_type dataset) records in
          let events :=
            match dataset_records with
            | [] => events
            | _ :: _ =>
                events ++ [Upload (Format.key (dataset_type dataset) "_" (vintage dataset))
                                  dataset_records]
            end in
          (Ok tt, (all_records ++ records, events))
      end
  end.

(** The rows of the table returned, or the exception that ends the run,
    and the events; building a table, [upload_data] and [save_state] are
    taken to return. *)
Definition process_data_fetcher (catalog_data : list dataset)
    (variables_data : list variable_row)
  : res (list (observation F)) * list event :=
  let by_dataset := variables_by_dataset variables_data in
  let datasets_to_process := datasets_to_process catalog_data in
  match TimeSeries.for_each (dataset_step by_dataset) datasets_to_process ([], []) with
  | (Ok _, (all_records, events)) =>
      (Ok [],
       events ++ [SaveState (length datasets_to_process) (length all_records)])
  | (Raise e, (_, events)) => (Raise e, events)
  end.

End WithFloat.

End DataFetcherRun.

(** ** Decimal readings of [int] and [float], for the worked examples *)

Module Decimal.

Definition digit_of (c : ascii) : option Z :=
  let n := nat_of_ascii c in
  if ((48 <=? n) && (n <=? 57))%nat then Some (Z.of_nat (n - 48)) else None.

Fixpoint digits_acc (s : string) (acc : Z) : option Z :=
  match s with
  | EmptyString => Some acc
  | String c s' => d ← digit_of c; digits_acc s' (10 * acc + d)
  end.

(** A non-empty run of digits. *)
Definition unsigned (s : string) : option Z :=
  match s with
  | EmptyString => None
  | String _ _ => digits_acc s 0
  end.

(** [int(s)] on an optional sign followed by digits; every other string
    is refused. *)
Definition int_of_decimal (s : string) : option Z :=
  match s with
  | String "-" s' => Z.opp <$> unsigned s'
  | String "+" s' => unsigned s'
  | _ => unsigned s
  end.

(** The value of a decimal literal, exactly: [mantissa / 10 ^ scale]. *)
Record decimal : Type := Dec { mantissa : Z; scale : nat }.

(** The text before the first ["."], and the text after it if there is one. *)
Fixpoint split_dot (s : string) : string * option string :=
  match s with
  | EmptyString => (EmptyString, None)
  | String "." s' => (EmptyString, Some s')
  | String c s' => let '(a, b) := split_dot s' in (String c a, b)
  end.

Definition unsigned_decimal (s : string) : option decimal :=
  match split_dot s with
  | (ip, None) => m ← unsigned ip; Some (Dec m 0)
  | (ip, Some fp) =>
      m ← unsigned (ip +:+ fp); Some (Dec m (String.length fp))
  end.

(** [float(s)] on an optional sign, digits and an optional fraction; every
    other string is refused. *)
Definition float_of_decimal (s : string) : option decimal :=
  match s with
  | String "-" s' => d ← unsigned_decimal s'; Some (Dec (- mantissa d) (scale d))
  | String "+" s' => unsigned_decimal s'
  | _ => unsigned_decimal s
  end.

Definition float_error (s : string) : string :=
  "could not convert string to float: '" +:+ s +:+ "'".

(** The [ArrowInvalid] of a vintage that is no [int32]. *)
Definition arrow_error (v : Catalog.jval) : exn :=
  Exn ArrowInvalid
    match v with
    | Catalog.JStr s =>
        "Could not convert '" +:+ s +:+ "' with type str: tried to convert to int32"
    | _ => "Value too large to fit in C integer type"
    end.

End Decimal.

(** ** Inputs of the worked examples *)

Module Examples.

Import Decimal.

(** A catalog entry with a path, a vintage and an availability flag, and
    nothing else. *)
Definition entry_with (parts : list string) (vintage : Catalog.jval)
    (available : option Catalog.json) : Catalog.entry :=
  {| Catalog.identifier := None;
     Catalog.c_dataset := Some parts;
     Catalog.c_vintage := vintage;
     Catalog.title := None;
     Catalog.description := None;
     Catalog.distribution := None;
     Catalog.c_variablesLink := None;
     Catalog.c_geographyLink := None;
     Catalog.c_groupsLink := None;
     Catalog.c_examplesLink := None;
     Catalog.c_isMicrodata := None;
     Catalog.c_isAggregate := None;
     Catalog.c_isCube := None;
     Catalog.c_isAvailable := available;
     Catalog.modified := None |}.

(** The same, with a flag that is a boolean or absent. *)
Definition entry_of (parts : list string) (vintage : Catalog.jval)
    (available : option bool) : Catalog.entry :=
  entry_with parts vintage (Catalog.JsonBool <$> available).

Definition acs5_2021 : Catalog.entry := entry_of ["acs"; "acs5"] (Catalog.JInt 2021) None.
Definition zbp_2009 : Catalog.entry := entry_of ["zbp"] (Catalog.JInt 2009) None.
Definition upper_case_acs : Catalog.entry := entry_of ["ACS"; "ACS5"] (Catalog.JInt 2021) None.
Definition acs_vintage_zero : Catalog.entry := entry_of ["acs"; "acs5"] (Catalog.JInt 0) None.
Definition acs_no_vintage : Catalog.entry := entry_of ["acs"; "acs1"] Catalog.JNull None.
Definition acs_text_vintage : Catalog.entry := entry_of ["acs"; "acs5"] (Catalog.JStr "latest") None.
Definition acs_withdrawn : Catalog.entry := entry_of ["acs"; "acs5"] (Catalog.JInt 2021) (Some false).
Definition acs_null_flag : Catalog.entry :=
  entry_with ["acs"; "acs5"] (Catalog.JInt 2021) (Some Catalog.JsonNull).
Definition acs_vintage_too_large : Catalog.entry :=
  entry_of ["acs"; "acs5"] (Catalog.JInt 2147483648) None.
Definition acs_empty_vintage : Catalog.entry :=
  entry_of ["acs"; "acs5"] (Catalog.JStr "") None.
Definition sahie_2015 : Catalog.entry :=
  entry_of ["timeseries"; "healthins"; "sahie"] (Catalog.JInt 2015) None.

(** A catalog document in no particular order. *)
Definition catalog : list Catalog.entry :=
  [acs_no_vintage; zbp_2009; sahie_2015; acs5_2021; acs_withdrawn].

(** Rows of the catalog table. *)
Definition row_acs_null : DataFetcher.dataset :=
  DataFetcher.Dataset (Some "acs") (Some "acs/acs1") None (Some "https://api.census.gov/data/acs/acs1") 1.
Definition row_acs_zero : DataFetcher.dataset :=
  DataFetcher.Dataset (Some "acs") (Some "acs/acs5") (Some 0) (Some "https://api.census.gov/data/0/acs/acs5") 1.
Definition row_acs_2021 : DataFetcher.dataset :=
  DataFetcher.Dataset (Some "acs") (Some "acs/acs5") (Some 2021) (Some "https://api.census.gov/data/2021/acs/acs5") 1.
Definition row_acs_2019 : DataFetcher.dataset :=
  DataFetcher.Dataset (Some "acs") (Some "acs/acs5") (Some 2019) (Some "https://api.census.gov/data/2019/acs/acs5") 1.
Definition row_sahie_2015 : DataFetcher.dataset :=
  DataFetcher.Dataset (Some "sahie") (Some "timeseries/healthins/sahie") (Some 2015) None 2.
Definition row_cbp_2020 : DataFetcher.dataset :=
  DataFetcher.Dataset (Some "cbp") (Some "cbp") (Some 2020) None 1.

Definition catalog_table : list DataFetcher.dataset :=
  [row_sahie_2015; row_acs_2019; row_acs_null; row_cbp_2020; row_acs_2021].

(** A dataset, its variable map and responses of the API. *)
Definition acs_dataset : DataFetcher.dataset := row_acs_2021.

Definition acs_variable_map : list (string * DataFetcher.variable_row) :=
  DataFetcher.variable_map_of
    [DataFetcher.VariableRow (Some "acs/acs5") (Some 2021) "B01003_001E" "Total population"].

Definition response_states : list (list cell) :=
  [ [Some "NAME"; Some "state"; Some "B01003_001E"];
    [Some "Alabama"; Some "01"; Some "5030000"];
    [Some "Georgia"; Some "13"; Some "-"] ].

(** The two records of [response_states]. *)
Definition alabama_observation : DataFetcher.observation Decimal.decimal :=
  DataFetcher.Observation Decimal.decimal (Some "acs") (Some 2021)
    (Some "Alabama") (Some (Some "01")) None None "B01003_001E"
    (Some "5030000") "Total population" (Some (Decimal.Dec 5030000 0)).

Definition georgia_observation : DataFetcher.observation Decimal.decimal :=
  DataFetcher.Observation Decimal.decimal (Some "acs") (Some 2021)
    (Some "Georgia") (Some (Some "13")) None None "B01003_001E"
    (Some "-") "Total population" None.

Definition response_values : list (list cell) :=
  [ [Some "NAME"; Some "B01003_001E"];
    [Some "Alabama"; Some "42.5"];
    [Some "Alaska"; Some "-"];
    [Some "Arizona"; Some "."];
    [Some "Arkansas"; Some ""];
    [Some "California"; None] ].

Definition response_short_row : list (list cell) :=
  [ [Some "NAME"; Some "B01003_001E"];
    [Some "Alabama"] ].

Definition response_long_row : list (list cell) :=
  [ [Some "NAME"; Some "B01003_001E"];
    [Some "Alabama"; Some "5030000"; Some "01"] ].

Definition response_no_name : list (list cell) :=
  [ [Some "state"; Some "B01003_001E"];
    [Some "01"; Some "5030000"];
    [Some "13"; Some "10700000"] ].

(** Transports for the time-series fetchers. *)
Definition not_found : exn :=
  Exn HTTPError "404 Client Error: Not Found for url".

Definition population_body : TimeSeries.body :=
  [ [Some "NAME"; Some "POP"; Some "DENSITY"; Some "state"];
    [Some "Alabama"; Some "5030000"; Some "99.2"; Some "01"];
    [Some "Alaska"; Some "733000"; Some "1.3"; Some "02"] ].

Definition saipe_body : TimeSeries.body :=
  [ [Some "NAME"; Some "SAEPOVRTALL_PT"; Some "SAEMHI_PT"; Some "state"];
    [Some "Alabama"; Some "15.9"; Some "52000"; Some "01"];
    [Some "Alaska"; Some "10.1"; Some "77000"; Some "02"] ].

(** A response in which the second row carries ["-"], a text that is not
    the sentinel of [poverty.py]. *)
Definition saipe_body_dash : TimeSeries.body :=
  [ [Some "NAME"; Some "SAEPOVRTALL_PT"; Some "SAEMHI_PT"; Some "state"];
    [Some "Alabama"; Some "15.9"; Some "52000"; Some "01"];
    [Some "Alaska"; Some "-"; Some "77000"; Some "02"];
    [Some "Arizona"; Some "13.5"; Some "62000"; Some "04"] ].

Definition acs_body (table : string) : TimeSeries.body :=
  [ [Some "NAME"; Some (table +:+ "_001E"); Some "state"];
    [Some "Alabama"; Some "5030000"; Some "01"] ].

(** Every year is published. *)
Definition transport_all (req : TimeSeries.request) : res TimeSeries.body :=
  match req with
  | TimeSeries.AcsGroup _ table => Ok (acs_body table)
  | TimeSeries.PepPopulation _ | TimeSeries.PepCharAgeGroups _ => Ok population_body
  | TimeSeries.SaipeTimeseries _ | TimeSeries.SaipeYear _ => Ok saipe_body
  end.

(** The year 2020 is not published: every request for it is answered 404. *)
Definition transport_gap (req : TimeSeries.request) : res TimeSeries.body :=
  match req with
  | TimeSeries.AcsGroup year table =>
      if decide (year = 2020) then Raise not_found else Ok (acs_body table)
  | TimeSeries.PepPopulation year | TimeSeries.PepCharAgeGroups year =>
      if decide (year = 2020) then Raise not_found else Ok population_body
  | TimeSeries.SaipeTimeseries year | TimeSeries.SaipeYear year =>
      if decide (year = 2020) then Raise not_found else Ok saipe_body
  end.

Definition server_error : exn :=
  Exn HTTPError "500 Server Error: Internal Server Error for url".

(** The second table is answered 500 and the third 404, in every year. *)
Definition transport_third_table_missing (req : TimeSeries.request)
  : res TimeSeries.body :=
  match req with
  | TimeSeries.AcsGroup _ table =>
      if decide (table = "B25001") then Raise server_error
      else if decide (table = "B19013") then Raise not_found
      else Ok (acs_body table)
  | _ => Raise not_found
  end.

Definition transport_dash (req : TimeSeries.request) : res TimeSeries.body :=
  match req with
  | TimeSeries.SaipeTimeseries _ => Ok saipe_body_dash
  | _ => Raise not_found
  end.

End Examples.

(** ** Further inputs *)

Module Cases.

Import Decimal.

(** An entry whose path matches two patterns of the table. *)
Definition cbp_under_acs : Catalog.entry :=
  Examples.entry_of ["cbp"; "acs-linked"] (Catalog.JInt 2020) None.

(** An entry whose vintage is the text ["2021"]. *)
Definition acs_quoted_vintage : Catalog.entry :=
  Examples.entry_of ["acs"; "acs5"] (Catalog.JStr "2021") None.

(** An entry with a description and three distributions, the first API
    one without an address. *)
Definition described : Catalog.entry :=
  {| Catalog.identifier := Some "https://api.census.gov/data/id/ACSDT5Y2021";
     Catalog.c_dataset := Some ["acs"; "acs5"];
     Catalog.c_vintage := Catalog.JInt 2021;
     Catalog.title := Some "American Community Survey: 5-Year Estimates";
     Catalog.description :=
       Some (code_points_of "The American Community Survey (ACS) is an ongoing survey.");
     Catalog.distribution :=
       Some [ Catalog.Distribution (Some "CSV") (Some "https://example.org/acs5.csv");
              Catalog.Distribution (Some "API") None;
              Catalog.Distribution (Some "API") (Some "https://api.census.gov/data/2021/acs/acs5") ];
     Catalog.c_variablesLink := Some "https://api.census.gov/data/2021/acs/acs5/variables.json";
     Catalog.c_geographyLink := None;
     Catalog.c_groupsLink := None;
     Catalog.c_examplesLink := None;
     Catalog.c_isMicrodata := None;
     Catalog.c_isAggregate := Some true;
     Catalog.c_isCube := None;
     Catalog.c_isAvailable := Some (Catalog.JsonBool true);
     Catalog.modified := Some "2022-12-08" |}.

(** An entry of the five-year survey with a description. *)
Definition with_description (text : code_points) : Catalog.entry :=
  {| Catalog.identifier := None;
     Catalog.c_dataset := Some ["acs"; "acs5"];
     Catalog.c_vintage := Catalog.JInt 2021;
     Catalog.title := None;
     Catalog.description := Some text;
     Catalog.distribution := None;
     Catalog.c_variablesLink := None;
     Catalog.c_geographyLink := None;
     Catalog.c_groupsLink := None;
     Catalog.c_examplesLink := None;
     Catalog.c_isMicrodata := None;
     Catalog.c_isAggregate := None;
     Catalog.c_isCube := None;
     Catalog.c_isAvailable := None;
     Catalog.modified := None |}.

(** JSON values for the descriptions of variables. *)
Inductive json : Type :=
  | JText (s : string)
  | JBool (b : bool).

Definition acs_row : VariableDiscovery.dataset_row :=
  {| VariableDiscovery.dataset_type := Some "acs";
     VariableDiscovery.dataset_path := Some "acs/acs5";
     VariableDiscovery.vintage := Some 2021;
     VariableDiscovery.variables_link :=
       Some "https://api.census.gov/data/2021/acs/acs5/variables.json" |}.

Definition no_link_row : VariableDiscovery.dataset_row :=
  {| VariableDiscovery.dataset_type := Some "acs";
     VariableDiscovery.dataset_path := Some "acs/acs1";
     VariableDiscovery.vintage := Some 2021;
     VariableDiscovery.variables_link := None |}.

Definition described_as (label : string) : VariableDiscovery.var_info json :=
  Some {[ "label" := JText label ]}.

(** The variables of a response: a reserved token, a variable of a
    priority table, and a variable of another table. *)
Definition acs_items : list (string * VariableDiscovery.var_info json) :=
  [ ("for", described_as "Census API FIPS 'for' clause");
    ("B01001_001E", described_as "Estimate!!Total:");
    ("B99999_001E", described_as "Estimate!!Other");
    ("B19013_001E", described_as "Estimate!!Median household income") ].

(** The same response, with a description that is no object. *)
Definition acs_items_broken : list (string * VariableDiscovery.var_info json) :=
  [ ("B01001_001E", described_as "Estimate!!Total:");
    ("B19013_001E", None) ].

Definition links_all (link : string)
  : res (VariableDiscovery.response json) :=
  Ok (VariableDiscovery.ResponseDict json
        (Some (VariableDiscovery.VariablesDict json acs_items))).

Definition links_broken (link : string)
  : res (VariableDiscovery.response json) :=
  Ok (VariableDiscovery.ResponseDict json
        (Some (VariableDiscovery.VariablesDict json acs_items_broken))).

Definition acs1_row : VariableDiscovery.dataset_row :=
  {| VariableDiscovery.dataset_type := Some "acs";
     VariableDiscovery.dataset_path := Some "acs/acs1";
     VariableDiscovery.vintage := Some 2021;
     VariableDiscovery.variables_link :=
       Some "https://api.census.gov/data/2021/acs/acs1/variables.json" |}.

(** The five-year dataset answers with [acs_items], every other one with
    a single variable. *)
Definition links_two (link : string)
  : res (VariableDiscovery.response json) :=
  if String.eqb link "https://api.census.gov/data/2021/acs/acs5/variables.json"
  then links_all link
  else Ok (VariableDiscovery.ResponseDict json
             (Some (VariableDiscovery.VariablesDict json
                      [("B01001_001E", described_as "Estimate!!Total:")]))).

(** A transport of the data API: the states for [state:*], a header row
    alone for [county:*]. *)
Definition data_states (r : DataFetcherRun.request) : res (list (list cell)) :=
  if String.eqb (DataFetcherRun.for_param r) "state:*"
  then Ok Examples.response_states
  else Ok [[Some "NAME"; Some "state"; Some "county"; Some "B01003_001E"]].

Definition acs_variables : list DataFetcher.variable_row :=
  [DataFetcher.VariableRow (Some "acs/acs5") (Some 2021) "B01003_001E" "Total population"].

End Cases.

(** ** Vocabulary of the statements *)

(** [a] is placed before [b] in [l]: every occurrence of [a] comes before
    every occurrence of [b]. *)
Definition before {A : Type} (l : list A) (a b : A) : Prop :=
  forall i j : nat, l !! i = Some a -> l !! j = Some b -> (i < j)%nat.

(** The order of the sort keys, on the elements. *)
Definition key_le {A : Type} (key : A -> Z * Z) (a b : A) : Prop :=
  key_lt (key b) (key a) = false.

(** A batch that is full. *)
Definition full (g : list string) : Prop :=
  length g = DataFetcher.MAX_VARS_PER_REQUEST.

(** The sizes of the batches of [n] variables. *)
Definition batch_sizes (n : nat) : list nat :=
  replicate (n / DataFetcher.MAX_VARS_PER_REQUEST) DataFetcher.MAX_VARS_PER_REQUEST
  ++ match (n mod DataFetcher.MAX_VARS_PER_REQUEST)%nat with
     | O => []
     | S r => [S r]
     end.

(** The variables of the variable map that are headers of a response, in
    the order of the map: each gives one record per data row. *)
Definition present_variables (headers : list cell)
    (variable_map : list (string * DataFetcher.variable_row))
  : list (string * DataFetcher.variable_row) :=
  filter (fun kv => Some kv.1 ∈ headers) variable_map.

(** The cell of a row in a column; the code reads it only from rows that
    have the column. *)
Definition cell_at (row : list cell) (column : nat) : cell :=
  default None (row !! column).

(** The key of a descriptor whose key can be computed. *)
Definition key_of (x : Catalog.metadata) : Z * Z :=
  match Catalog.sort_key x with
  | Ok k => k
  | Raise _ => (0, 0)
  end.

(** The descriptors the filter of [process_catalog] lets through, in
    catalog order. *)
Definition included (py_int : string -> option Z) (catalog : list Catalog.entry)
  : list Catalog.metadata :=
  Catalog.parse_dataset_metadata
    <$> filter (fun d => Catalog.should_include_dataset py_int d = true) catalog.

(** The vintage of a catalog row, a null vintage counted as 0. *)
Definition vintage_or_zero (d : DataFetcher.dataset) : Z :=
  default 0 (DataFetcher.vintage d).

(** The first dataset of each type, in the order of the list: a dataset
    stays when no dataset before it has its type. *)
Fixpoint first_of_each_type (l : list DataFetcher.dataset) : list DataFetcher.dataset :=
  match l with
  | [] => []
  | d :: l' =>
      d :: filter (fun d' => DataFetcher.dataset_type d' <> DataFetcher.dataset_type d)
                  (first_of_each_type l')
  end.

(** *** The years of a state-level fetcher *)

Section YearVocabulary.

Context {R : Type}.
Variable fetch : Z -> option TimeSeries.body * list TimeSeries.request.
Variable make_record : Z -> gmap cell cell -> res R.

(** The record of a row, when the row is as long as the header row. *)
Definition record_of_row (year : Z) (headers row : list cell) : option (res R) :=
  if decide (length row = length headers)
  then Some (make_record year (dict_of (zip headers row)))
  else None.

(** Every row as long as the header row gives a record. *)
Definition normalizes (year : Z) (headers : list cell) (rows : list (list cell)) : bool :=
  forallb (fun row => match record_of_row year headers row with
                      | Some (Raise _) => false
                      | _ => true
                      end) rows.

(** The records of the rows before the first row that raises. *)
Fixpoint normalized (year : Z) (headers : list cell) (rows : list (list cell)) : list R :=
  match rows with
  | [] => []
  | row :: rows' =>
      match record_of_row year headers row with
      | Some (Ok record) => record :: normalized year headers rows'
      | Some (Raise _) => []
      | None => normalized year headers rows'
      end
  end.

(** A year is processed successfully: the fetch gives a header row and at
    least one more row, and the rows normalize. *)
Definition year_succeeds (year : Z) : bool :=
  match TimeSeries.usable (default [] (fetch year).1) with
  | Some (headers, rows) => normalizes year headers rows
  | None => false
  end.

(** The records a year adds to the table. *)
Definition year_records (year : Z) : list R :=
  match TimeSeries.usable (default [] (fetch year).1) with
  | Some (headers, rows) => normalized year headers rows
  | None => []
  end.

End YearVocabulary.

(** The worlds of two pieces of a run, one after the other. *)
Definition world_app {R : Type} (w w' : TimeSeries.world R) : TimeSeries.world R :=
  TimeSeries.World (TimeSeries.requests w ++ TimeSeries.requests w')
                   (TimeSeries.saved w ++ TimeSeries.saved w')
                   (TimeSeries.all_records w ++ TimeSeries.all_records w').

(** What one year of [process_acs] does on its own: the loop over the
    tables, from an empty world. *)
Definition acs_year_run {F : Type} (py_float : string -> option F)
    (float_error : string -> string)
    (get : TimeSeries.request -> res TimeSeries.body) (year : Z)
  : TimeSeries.world (TimeSeries.acs_record F) :=
  TimeSeries.tables_loop F py_float float_error get year TimeSeries.ACS_TABLES
    TimeSeries.start.

(** The [try] block of a table ends the tables of its year: it raises,
    in the request or in the rows, an exception whose text contains
    ["404"]. *)
Definition table_breaks {F : Type} (py_float : string -> option F)
    (float_error : string -> string)
    (get : TimeSeries.request -> res TimeSeries.body) (year : Z)
    (table : string * string) : bool :=
  match (TimeSeries.table_body F py_float float_error get year table TimeSeries.start).1 with
  | Raise e => contains "404" (str e)
  | Ok _ => false
  end.

(** The items of a list up to the first one that stops, that one
    included; the whole list when none stops. *)
Fixpoint through_first {A : Type} (stops : A -> bool) (l : list A) : list A :=
  match l with
  | [] => []
  | x :: l' => x :: (if stops x then [] else through_first stops l')
  end.

(** *** Further vocabulary *)

(** The identifier field a record gets from a row: the cell under the
    header [name] when the header row has it, no field when it has not. *)
Definition identifier_from (headers row : list cell) (name : string)
    (field : option cell) : Prop :=
  match DataFetcher.header_index headers !! Some name with
  | Some i => exists c, row !! i = Some c /\ field = Some c
  | None => field = None
  end.

(** The same as a value: the cell of the row in the last column headed
    [name], nothing when no column is. *)
Definition identifier_cell (headers row : list cell) (name : string) : option cell :=
  cell_at row <$> (DataFetcher.header_index headers !! Some name).

(** The number of descriptors of a type. *)
Definition count_of_type (t : option string) (l : list Catalog.metadata) : nat :=
  length (filter (fun m => Catalog.dataset_type m = t) l).

(** The year a request is for. *)
Definition request_year (r : TimeSeries.request) : Z :=
  match r with
  | TimeSeries.AcsGroup year _ => year
  | TimeSeries.PepPopulation year => year
  | TimeSeries.PepCharAgeGroups year => year
  | TimeSeries.SaipeTimeseries year => year
  | TimeSeries.SaipeYear year => year
  end.

(** Every request of a run is for a year from [lo] up to, not including,
    [hi]. *)
Definition requests_within {R : Type} (lo hi : Z) (w : TimeSeries.world R) : Prop :=
  forall r, r ∈ TimeSeries.requests w -> lo <= request_year r < hi.

(** The years saved by a run that loaded [state] are years of its range,
    in increasing order, and the watermark the run leaves is not below the
    one it loaded. *)
Definition saved_in_order {R : Type} (state : option Z) (upper : Z)
    (w : TimeSeries.world R) : Prop :=
  TimeSeries.saved w `sublist_of` range (TimeSeries.load_last_year state + 1) upper
  /\ forall s, state = Some s ->
               exists y, TimeSeries.last_year_processed state w = Some y /\ s <= y.

(** A cell that [float] is asked to read and refuses: a non-empty text
    other than the sentinel. *)
Definition refused {F : Type} (py_float : string -> option F) (sentinel : string)
    (c : cell) : Prop :=
  exists s, c = Some s /\ s <> "" /\ s <> sentinel /\ py_float s = None.

(** A record of [process_acs] made for [year] from a column of [table]. *)
Definition acs_record_of {F : Type} (year : Z) (table : string * string)
    (r : TimeSeries.acs_record F) : Prop :=
  TimeSeries.acs_year F r = year
  /\ TimeSeries.acs_dataset F r = "acs5"
  /\ TimeSeries.table_id F r = table.1
  /\ TimeSeries.table_name F r = table.2
  /\ startswith (TimeSeries.acs_variable F r) table.1 = true
  /\ endswith (TimeSeries.acs_variable F r) "E" = true.

(** A variable of a response that [fetch_dataset_variables] keeps for a
    row: no reserved token, and a priority variable of the row's type. *)
Definition selected (row : VariableDiscovery.dataset_row) (var_name : string) : bool :=
  negb (in_list var_name ["for"; "in"; "ucgid"])
  && VariableDiscovery.is_priority_variable (VariableDiscovery.dataset_type row) var_name.

(** The items of a response that are selected for a row. *)
Definition selected_items {J : Type} (row : VariableDiscovery.dataset_row)
    (items : list (string * VariableDiscovery.var_info J))
  : list (string * VariableDiscovery.var_info J) :=
  filter (fun kv => selected row kv.1 = true) items.

(** A pause comes before the item at position [i] of a loop that pauses
    every [n] items. *)
Definition pause_before (n i : nat) : bool := (0 <? i)%nat && (i mod n =? 0)%nat.

(** What [process_variables] does for the dataset at position [i]: the
    pause, if one is due, then the requests of the fetch. *)
Definition discovery_events {J : Type} (text : string -> J) (boolean : bool -> J)
    (get : string -> res (VariableDiscovery.response J))
    (i : nat) (d : VariableDiscovery.dataset_row) : list VariableDiscovery.event :=
  (if pause_before 10 i then [VariableDiscovery.Sleep] else [])
  ++ (VariableDiscovery.Request
      <$> (VariableDiscovery.fetch_dataset_variables J text boolean get d).2).

(** The entry of [dataset_variable_counts] a dataset writes. *)
Definition counted {J : Type} (text : string -> J) (boolean : bool -> J)
    (get : string -> res (VariableDiscovery.response J))
    (d : VariableDiscovery.dataset_row) : string * nat :=
  (Format.key (VariableDiscovery.dataset_type d) "/" (VariableDiscovery.vintage d),
   length (VariableDiscovery.fetch_dataset_variables J text boolean get d).1).

(** The request for a group of variables at a geography. *)
Definition request_for (url geography : string) (group : list string)
  : DataFetcherRun.request :=
  {| DataFetcherRun.endpoint := url;
     DataFetcherRun.get_param := "NAME," +:+ String.concat "," group;
     DataFetcherRun.for_param := geography |}.

(** What [process_dataset_data] does for the group at position [i] at a
    geography: the pause, if one is due, then the request. *)
Definition group_events (F : Type) (url geography : string) (ig : nat * list string)
  : list (DataFetcherRun.event F) :=
  (if pause_before 5 ig.1 then [DataFetcherRun.Sleep F] else [])
  ++ [DataFetcherRun.Send F (request_for url geography ig.2)].

(** The events of a complete run of [process_dataset_data]: every
    geography in turn, and at each one every group in turn. *)
Definition planned_events (F : Type) (url : string) (groups : list (list string))
  : list (DataFetcherRun.event F) :=
  concat ((fun geo => concat (group_events F url geo.2 <$> enumerate groups))
          <$> DataFetcherRun.GEOGRAPHY_LEVELS).

(** The tables uploaded, with their names, in order. *)
Definition uploads {F : Type} (events : list (DataFetcherRun.event F))
  : list (string * list (DataFetcher.observation F)) :=
  omap (fun e => match e with
                 | DataFetcherRun.Upload _ name table => Some (name, table)
                 | _ => None
                 end) events.

(** The states saved, in order. *)
Definition states_saved {F : Type} (events : list (DataFetcherRun.event F))
  : list (nat * nat) :=
  omap (fun e => match e with
                 | DataFetcherRun.SaveState _ n t => Some (n, t)
                 | _ => None
                 end) events.

(** The variables [process_data_fetcher] finds for a dataset. *)
Definition variables_of (variables_data : list DataFetcher.variable_row)
    (d : DataFetcher.dataset) : list DataFetcher.variable_row :=
  default []
    (DataFetcherRun.variables_by_dataset variables_data
     !! DataFetcherRun.variables_key (DataFetcher.dataset_path d) (DataFetcher.vintage d)).

(** An event of [process_dataset_data]: a pause or a request. *)
Definition paused {F : Type} (e : DataFetcherRun.event F) : Prop :=
  match e with
  | DataFetcherRun.Sleep _ => True
  | _ => False
  end.

#[global] Instance paused_dec {F : Type} (e : DataFetcherRun.event F) : Decision (paused e).
Proof. destruct e; simpl; apply _. Defined.

(** The requests sent, in order. *)
Definition requests_sent {F : Type} (events : list (DataFetcherRun.event F))
  : list DataFetcherRun.request :=
  omap (fun e => match e with
                 | DataFetcherRun.Send _ r => Some r
                 | _ => None
                 end) events.

(** A record made for a dataset from its variables: it carries the type
    and the vintage of the dataset, and the name and the label of one of
    the variables. *)
Definition observation_of {F : Type} (dataset_info : DataFetcher.dataset)
    (variables : list DataFetcher.variable_row) (r : DataFetcher.observation F) : Prop :=
  DataFetcher.obs_dataset_type F r = DataFetcher.dataset_type dataset_info
  /\ DataFetcher.obs_vintage F r = DataFetcher.vintage dataset_info
  /\ exists v, v ∈ variables
               /\ DataFetcher.variable F r = DataFetcher.variable_name v
               /\ DataFetcher.label F r = DataFetcher.var_label v.

(** The upload of the records of a dataset: its name and its table. *)
Definition upload_of {F : Type} (du : DataFetcher.dataset * list (DataFetcher.observation F))
  : string * list (DataFetcher.observation F) :=
  (Format.key (DataFetcher.dataset_type du.1) "_" (DataFetcher.vintage du.1), du.2).

(** * Properties *)

(** ** Facts about the Python builtins of the embedding *)

Section ResFacts.

Context {A B : Type}.

Lemma mapM_res_Ok (f : A -> res B) (l : list A) (k : list B) :
  mapM f l = Ok k <-> Forall2 (fun x y => f x = Ok y) l k.
Proof.
  revert k. induction l as [|x l IH]; intros k; simpl.
  - split.
    + intros [= <-]. constructor.
    + intros H. inversion H. reflexivity.
  - unfold mbind, res_bind, mret, res_ret. split.
    + destruct (f x) as [y|e] eqn:Hx; [|discriminate].
      destruct (mapM f l) as [k'|e] eqn:Hl; [|discriminate].
      intros [= <-]. constructor; [assumption|]. by apply IH.
    + intros H. inversion H as [|? y ? k' Hx Hl]; subst.
      rewrite Hx. apply IH in Hl.
      unfold mbind, res_bind, mret, res_ret in Hl. by rewrite Hl.
Qed.

Lemma mapM_res_total (f : A -> res B) (l : list A) :
  Forall (fun x => exists y, f x = Ok y) l -> exists k, mapM f l = Ok k.
Proof.
  induction 1 as [|x l [y Hy] _ [k Hk]].
  - by exists [].
  - exists (y :: k). apply mapM_res_Ok. constructor; [done|].
    by apply mapM_res_Ok.
Qed.

Lemma mapM_res_Raise (f : A -> res B) (l : list A) (e : exn) :
  mapM f l = Raise e -> exists x, x ∈ l /\ f x = Raise e.
Proof.
  induction l as [|x l IH]; simpl; [discriminate|].
  unfold mbind, res_bind, mret, res_ret.
  destruct (f x) as [y|e'] eqn:Hx.
  - destruct (mapM f l) as [k|e'']; [discriminate|].
    intros [= <-]. destruct IH as (x' & Hin & Hx'); [done|].
    exists x'. split; [by right|done].
  - intros [= <-]. exists x. split; [by left|done].
Qed.

End ResFacts.

(** ** The stable sort *)

Section Sorting.

Context {A : Type} (key : A -> Z * Z).

Lemma key_lt_spec (a b : Z * Z) :
  key_lt a b = true <-> a.1 < b.1 \/ (a.1 = b.1 /\ a.2 < b.2).
Proof.
  unfold key_lt.
  rewrite orb_true_iff, andb_true_iff, !Z.ltb_lt, Z.eqb_eq. tauto.
Qed.

Lemma key_lt_false (a b : Z * Z) :
  key_lt a b = false <-> b.1 < a.1 \/ (a.1 = b.1 /\ b.2 <= a.2).
Proof.
  rewrite <- not_true_iff_false, key_lt_spec. lia.
Qed.

Lemma key_lt_ne (a b : Z * Z) : key_lt a b = true -> a <> b.
Proof. intros H%key_lt_spec ->. lia. Qed.

Lemma insert_by_perm (x : A) (l : list A) : insert_by key x l ≡ₚ x :: l.
Proof.
  induction l as [|y l IH]; simpl; [done|].
  destruct (key_lt (key y) (key x)); [|done].
  rewrite IH. apply Permutation_swap.
Qed.

Lemma sort_by_perm (l : list A) : sort_by key l ≡ₚ l.
Proof.
  induction l as [|x l IH]; simpl; [done|].
  unfold sort_by in *. simpl. by rewrite insert_by_perm, IH.
Qed.

Lemma insert_by_sorted (x : A) (l : list A) :
  StronglySorted (key_le key) l -> StronglySorted (key_le key) (insert_by key x l).
Proof.
  induction 1 as [|y l Hl IH Hy]; simpl.
  - repeat constructor.
  - destruct (key_lt (key y) (key x)) eqn:E.
    + constructor; [assumption|].
      rewrite insert_by_perm. constructor.
      * unfold key_le. apply key_lt_false. apply key_lt_spec in E. lia.
      * assumption.
    + constructor; [by constructor|]. constructor; [exact E|].
      eapply Forall_impl; [exact Hy|].
      intros z Hz. unfold key_le in *.
      apply key_lt_false in E, Hz. apply key_lt_false. lia.
Qed.

Lemma sort_by_sorted (l : list A) : StronglySorted (key_le key) (sort_by key l).
Proof.
  induction l as [|x l IH]; [constructor|].
  unfold sort_by in *. simpl. by apply insert_by_sorted.
Qed.

(** Stability: the elements of one key keep the order they came in. *)
Lemma insert_by_filter (k : Z * Z) (x : A) (l : list A) :
  filter (fun y => key y = k) (insert_by key x l) =
  filter (fun y => key y = k) (x :: l).
Proof.
  induction l as [|y l IH]; simpl; [done|].
  destruct (key_lt (key y) (key x)) eqn:E; [|done].
  apply key_lt_ne in E.
  rewrite !filter_cons in *.
  destruct (decide (key y = k)), (decide (key x = k)); congruence.
Qed.

Lemma sort_by_stable (k : Z * Z) (l : list A) :
  filter (fun y => key y = k) (sort_by key l) = filter (fun y => key y = k) l.
Proof.
  induction l as [|x l IH]; [done|].
  unfold sort_by in *. simpl.
  rewrite insert_by_filter, !filter_cons. by rewrite IH.
Qed.

Lemma sorted_lookup_le (l : list A) (i j : nat) (a b : A) :
  StronglySorted (key_le key) l ->
  l !! i = Some a -> l !! j = Some b -> (i < j)%nat -> key_le key a b.
Proof.
  intros Hs. revert i j. induction Hs as [|x l _ IH Hx]; intros i j Hi Hj Hij.
  - by rewrite lookup_nil in Hi.
  - destruct j as [|j]; [lia|]. destruct i as [|i]; simpl in *.
    + injection Hi as ->. rewrite Forall_forall in Hx. apply Hx.
      by eapply list_elem_of_lookup_2.
    + eapply IH; eauto. lia.
Qed.

(** In the sorted list a smaller key is placed before a larger one. *)
Lemma sort_by_before (l : list A) (a b : A) :
  key_lt (key a) (key b) = true -> before (sort_by key l) a b.
Proof.
  intros Hlt i j Hi Hj.
  destruct (decide (i < j)%nat) as [|Hge]; [done|].
  destruct (decide (i = j)) as [->|Hne].
  - rewrite Hi in Hj. injection Hj as ->. by apply key_lt_ne in Hlt.
  - assert (key_le key b a) as Hle.
    { eapply (sorted_lookup_le _ j i); eauto using sort_by_sorted. lia. }
    unfold key_le in Hle. congruence.
Qed.

(** A stable sort has one result: two sorted lists in which the elements
    of every key come in the same order are equal.  So [sort_by] is what
    any stable sort returns. *)
Lemma sorted_stable_eq (s1 : list A) :
  forall s2 : list A,
    StronglySorted (key_le key) s1 -> StronglySorted (key_le key) s2 ->
    (forall k, filter (fun y => key y = k) s1 = filter (fun y => key y = k) s2) ->
    s1 = s2.
Proof.
  induction s1 as [|x s1 IH]; intros s2 Hs1 Hs2 Hf.
  - destruct s2 as [|y s2]; [done|].
    specialize (Hf (key y)). rewrite filter_cons, decide_True in Hf by done.
    discriminate.
  - destruct s2 as [|y s2].
    { specialize (Hf (key x)). rewrite filter_cons, decide_True in Hf by done.
      discriminate. }
    apply StronglySorted_inv in Hs1 as [Hs1 Hx], Hs2 as [Hs2 Hy].
    rewrite Forall_forall in Hx, Hy.
    assert (key x = key y) as Hk.
    { assert (key_le key x y) as Hxy.
      { assert (y ∈ x :: s1) as [->|Hin]%elem_of_cons.
        { pose proof (Hf (key y)) as Hfy.
          rewrite (filter_cons _ y), decide_True in Hfy by done.
          assert (y ∈ filter (fun z => key z = key y) (x :: s1)) as Hin
            by (rewrite Hfy; left).
          by apply list_elem_of_filter in Hin as [_ Hin]. }
        - apply key_lt_false. lia.
        - by apply Hx. }
      assert (key_le key y x) as Hyx.
      { assert (x ∈ y :: s2) as [->|Hin]%elem_of_cons.
        { pose proof (Hf (key x)) as Hfx.
          rewrite (filter_cons _ x), decide_True in Hfx by done.
          assert (x ∈ filter (fun z => key z = key x) (y :: s2)) as Hin
            by (rewrite <- Hfx; left).
          by apply list_elem_of_filter in Hin as [_ Hin]. }
        - apply key_lt_false. lia.
        - by apply Hy. }
      unfold key_le in Hxy, Hyx. apply key_lt_false in Hxy, Hyx.
      destruct (key x), (key y). simpl in *. f_equal; lia. }
    assert (x = y /\ forall k, filter (fun z => key z = k) s1
                               = filter (fun z => key z = k) s2) as [-> Htail].
    { pose proof (Hf (key x)) as Hfx.
      rewrite !filter_cons, decide_True in Hfx by done.
      rewrite decide_True in Hfx by done.
      injection Hfx as -> Hfx. split; [done|].
      intros k. destruct (decide (key y = k)) as [<-|Hne]; [done|].
      specialize (Hf k). by rewrite !filter_cons, !decide_False in Hf by done. }
    f_equal. by apply IH.
Qed.

Lemma stable_sort_unique (l s : list A) :
  StronglySorted (key_le key) s ->
  (forall k, filter (fun y => key y = k) s = filter (fun y => key y = k) l) ->
  s = sort_by key l.
Proof.
  intros Hs Hf. apply sorted_stable_eq; [done|apply sort_by_sorted|].
  intros k. by rewrite Hf, sort_by_stable.
Qed.

(** Sorting decorated pairs by their first component and dropping the
    keys is sorting by the key. *)
Lemma insert_by_decorated (x : A) (l : list A) :
  insert_by fst (key x, x) ((fun y => (key y, y)) <$> l)
  = (fun y => (key y, y)) <$> insert_by key x l.
Proof.
  induction l as [|y l IH]; [done|].
  rewrite fmap_cons. cbn [insert_by fst].
  destruct (key_lt (key y) (key x)); [|done].
  by rewrite IH, !fmap_cons.
Qed.

Lemma sort_by_decorated (l : list A) :
  sort_by fst ((fun y => (key y, y)) <$> l) = (fun y => (key y, y)) <$> sort_by key l.
Proof.
  induction l as [|x l IH]; [done|].
  rewrite fmap_cons. unfold sort_by in *. cbn [foldr].
  rewrite IH. apply insert_by_decorated.
Qed.

End Sorting.

(** ** Batches of variables: [build_variable_groups] *)

Section Groups.

Import DataFetcher.

(** The invariant of the loop: the groups closed so far are full, the open
    group is not, and nothing is lost or reordered. *)
Lemma group_loop_spec (variables : list variable_row) :
  forall (groups : list (list string)) (current_group : list string),
    (length current_group < MAX_VARS_PER_REQUEST)%nat ->
    Forall full groups ->
    exists groups' current',
      foldl group_step (groups, current_group) variables = (groups', current')
      /\ concat groups' ++ current'
         = concat groups ++ current_group ++ (variable_name <$> variables)
      /\ Forall full groups'
      /\ length groups'
         = (length groups
            + (length current_group + length variables) / MAX_VARS_PER_REQUEST)%nat
      /\ length current'
         = ((length current_group + length variables) mod MAX_VARS_PER_REQUEST)%nat.
Proof.
  unfold full, MAX_VARS_PER_REQUEST.
  induction variables as [|var variables IH]; intros groups current Hlt Hfull.
  - exists groups, current. cbn [foldl fmap list_fmap length].
    rewrite app_nil_r, Nat.add_0_r.
    rewrite Nat.div_small, Nat.mod_small by lia.
    repeat split; auto with lia.
  - cbn [foldl]. unfold group_step at 2. unfold MAX_VARS_PER_REQUEST.
    destruct (50 <=? length (current ++ [variable_name var]))%nat eqn:E.
    + apply Nat.leb_le in E. rewrite length_app in E. simpl in E.
      destruct (IH (groups ++ [current ++ [variable_name var]]) [])
        as (g' & c' & Hrun & Hcat & Hf & Hlen & Hcur).
      { simpl. lia. }
      { apply Forall_app. split; [done|]. constructor; [|done].
        rewrite length_app. simpl. lia. }
      exists g', c'. rewrite Hrun. split; [done|].
      rewrite Hcat, Hlen, Hcur, length_app, concat_app.
      cbn [length concat fmap list_fmap app].
      rewrite app_nil_r, <- !app_assoc. cbn [app].
      repeat split; [done| |].
      * assert (length current = 49%nat) as -> by lia.
        replace (49 + S (length variables))%nat
          with (0 + length variables + 1 * 50)%nat by lia.
        rewrite Nat.div_add by lia. lia.
      * assert (length current = 49%nat) as -> by lia.
        replace (49 + S (length variables))%nat
          with (0 + length variables + 1 * 50)%nat by lia.
        by rewrite Nat.Div0.mod_add.
    + apply Nat.leb_gt in E. rewrite length_app in E. simpl in E.
      destruct (IH groups (current ++ [variable_name var]))
        as (g' & c' & Hrun & Hcat & Hf & Hlen & Hcur).
      { rewrite length_app. simpl. lia. }
      { done. }
      exists g', c'. rewrite Hrun. split; [done|].
      rewrite Hcat, Hlen, Hcur, length_app, <- !app_assoc.
      cbn [length app].
      replace (length current + 1 + length variables)%nat
        with (length current + S (length variables))%nat by lia.
      done.
Qed.

Lemma full_lengths (groups : list (list string)) :
  Forall full groups ->
  length <$> groups = replicate (length groups) MAX_VARS_PER_REQUEST.
Proof.
  induction 1 as [|g groups Hg _ IH]; [done|].
  rewrite fmap_cons. cbn [length replicate]. unfold full in Hg.
  by rewrite Hg, IH.
Qed.

Lemma build_variable_groups_spec (variables : list variable_row) :
  concat (build_variable_groups variables) = variable_name <$> variables
  /\ length <$> build_variable_groups variables = batch_sizes (length variables).
Proof.
  destruct (group_loop_spec variables [] [])
    as (g' & c' & Hrun & Hcat & Hf & Hlen & Hcur).
  { unfold MAX_VARS_PER_REQUEST. simpl. lia. }
  { constructor. }
  unfold build_variable_groups, batch_sizes. rewrite Hrun.
  cbn [length concat app Nat.add] in Hcat, Hlen, Hcur.
  rewrite <- Hcur, <- Hlen.
  destruct c' as [|x c'].
  - rewrite app_nil_r in Hcat. cbn [length]. rewrite app_nil_r.
    split; [done|]. by apply full_lengths.
  - rewrite concat_app, fmap_app. cbn [length concat fmap list_fmap].
    rewrite app_nil_r.
    split; [done|]. by rewrite full_lengths.
Qed.

End Groups.

(** C7.  [build_variable_groups] cuts the list of variables, in order,
    into consecutive batches of at most 50 names each: the concatenation
    of the batches is the sequence of the variables' names, no batch is
    empty or longer than 50, 120 variables give three batches of sizes
    50, 50 and 20, and no variable gives no batch. *)
Theorem build_variable_groups_partition :
  forall variables : list DataFetcher.variable_row,
    let groups := DataFetcher.build_variable_groups variables in
    concat groups = DataFetcher.variable_name <$> variables
    /\ Forall (fun g => (0 < length g <= DataFetcher.MAX_VARS_PER_REQUEST)%nat) groups
    /\ (length variables = 120%nat -> length <$> groups = [50; 50; 20]%nat)
    /\ (variables = [] -> groups = []).
Proof.
  intros variables groups.
  destruct (build_variable_groups_spec variables) as [Hcat Hlen].
  fold groups in Hcat, Hlen.
  split; [exact Hcat|]. split; [|split].
  - assert (Forall (fun n => (0 < n <= 50)%nat) (length <$> groups)) as H.
    { rewrite Hlen. unfold batch_sizes, DataFetcher.MAX_VARS_PER_REQUEST.
      apply Forall_app. split.
      - apply Forall_replicate. lia.
      - pose proof (Nat.mod_upper_bound (length variables) 50 ltac:(lia)).
        destruct (length variables mod 50)%nat; [constructor|].
        constructor; [lia | constructor]. }
    by rewrite Forall_fmap in H.
  - intros H120. rewrite Hlen, H120. reflexivity.
  - intros ->. reflexivity.
Qed.

Lemma build_variable_groups_partition_witness :
  let variables :=
    replicate 120 (DataFetcher.VariableRow (Some "acs/acs5") (Some 2021) "B01001_001E" "Total") in
  length <$> DataFetcher.build_variable_groups variables = [50; 50; 20]%nat
  /\ (([] : list DataFetcher.variable_row) = [] -> DataFetcher.build_variable_groups [] = []).
Proof.
  split.
  - apply (build_variable_groups_partition
             (replicate 120 (DataFetcher.VariableRow (Some "acs/acs5") (Some 2021)
                                                     "B01001_001E" "Total"))).
    reflexivity.
  - apply (build_variable_groups_partition []).
Defined.

(** ** Priority variables: [is_priority_variable] *)

Section PriorityVariables.

Import Variables.

Lemma in_list_In (x : string) (l : list string) : in_list x l = true <-> In x l.
Proof.
  unfold in_list. rewrite existsb_exists. split.
  - intros (y & Hy & ->%String.eqb_eq). exact Hy.
  - intros H. exists x. split; [exact H|apply String.eqb_refl].
Qed.

Lemma in_list_not_In (x : string) (l : list string) : in_list x l = false <-> ~ In x l.
Proof. rewrite <- in_list_In. destruct (in_list x l); intuition congruence. Qed.

(** The dataset types that have a table. *)
Lemma configured_types (dataset_type : string) (priorities : list (string * string)) :
  odict_get dataset_type PRIORITY_VARIABLES = Some priorities ->
  In dataset_type ["acs"; "cbp"; "pep"; "saipe"; "sahie"; "intltrade"].
Proof.
  unfold PRIORITY_VARIABLES. cbn [odict_get].
  repeat (case_decide; [subst; cbn; tauto|]). discriminate.
Qed.

End PriorityVariables.

(** C2 (amended).  For a dataset type that has a priority-variable table,
    [is_priority_variable] includes a variable name if and only if the name
    is an entry of the table, or starts with one of the table's codes, or
    the type is one of the broad-inclusion types that have a table
    ([cbp], [pep]) and the name neither starts with [NAME] nor is one of
    [for], [in], [ucgid].  For [acs], [saipe], [sahie] and [intltrade]
    this is the equivalence with the first two cases alone. *)
Theorem is_priority_variable_table :
  forall (dataset_type var_name : string) (priorities : list (string * string)),
    odict_get dataset_type Variables.PRIORITY_VARIABLES = Some priorities ->
    let listed :=
      In var_name (Variables.keys priorities)
      \/ exists code, In code (Variables.keys priorities)
                      /\ startswith var_name code = true in
    let broad := dataset_type = "cbp" \/ dataset_type = "pep" in
    (Variables.is_priority_variable dataset_type var_name = true
     <-> listed \/ (broad /\ startswith var_name "NAME" = false
                    /\ ~ In var_name ["for"; "in"; "ucgid"]))
    /\ (~ broad ->
        (Variables.is_priority_variable dataset_type var_name = true <-> listed)).
Proof.
  intros dataset_type var_name priorities Htable listed broad.
  assert (Variables.is_priority_variable dataset_type var_name = true
          <-> listed \/ (broad /\ startswith var_name "NAME" = false
                         /\ ~ In var_name ["for"; "in"; "ucgid"])) as Hmain.
  { unfold Variables.is_priority_variable. rewrite Htable.
    destruct (in_list var_name (Variables.keys priorities)) eqn:Hexact.
    { apply in_list_In in Hexact. unfold listed. tauto. }
    apply in_list_not_In in Hexact.
    destruct (existsb _ (Variables.keys priorities)) eqn:Hprefix.
    { apply existsb_exists in Hprefix. unfold listed. tauto. }
    assert (~ exists code, In code (Variables.keys priorities)
                           /\ startswith var_name code = true) as Hno.
    { intros Hex. apply not_true_iff_false in Hprefix. apply Hprefix.
      apply existsb_exists. exact Hex. }
    assert (in_list dataset_type ["cbp"; "pep"; "zbp"; "bps"] = true <-> broad)
      as Hbroad.
    { rewrite in_list_In. unfold broad.
      apply configured_types in Htable. cbn in *.
      intuition (subst; try discriminate; auto). }
    destruct (in_list dataset_type ["cbp"; "pep"; "zbp"; "bps"]).
    - rewrite andb_true_iff, !negb_true_iff, in_list_not_In.
      unfold listed. intuition auto.
    - unfold listed. intuition discriminate. }
  split; [exact Hmain|]. intros Hnarrow. rewrite Hmain. tauto.
Qed.

Lemma is_priority_variable_table_witness :
  Variables.is_priority_variable "acs" "B01001_001E" = true
  <-> (In "B01001_001E" (Variables.keys (default [] (odict_get "acs" Variables.PRIORITY_VARIABLES)))
       \/ exists code,
            In code (Variables.keys (default [] (odict_get "acs" Variables.PRIORITY_VARIABLES)))
            /\ startswith "B01001_001E" code = true).
Proof.
  apply (is_priority_variable_table "acs" "B01001_001E"
           (default [] (odict_get "acs" Variables.PRIORITY_VARIABLES))).
  - reflexivity.
  - intros [H|H]; discriminate H.
Defined.

(** C2, as stated, fails for [cbp]: the type has a table, ["FOO"] is no
    entry of it and starts with none of its codes, and the variable is
    included all the same. *)
Lemma is_priority_variable_broad_inclusion :
  exists priorities,
    odict_get "cbp" Variables.PRIORITY_VARIABLES = Some priorities
    /\ ~ In "FOO" (Variables.keys priorities)
    /\ (forall code, In code (Variables.keys priorities) -> startswith "FOO" code = false)
    /\ Variables.is_priority_variable "cbp" "FOO" = true.
Proof.
  eexists. split; [reflexivity|]. cbn. split; [|split].
  - intros H. repeat (destruct H as [H|H]; [discriminate H|]). exact H.
  - intros code H.
    repeat (destruct H as [<-|H]; [reflexivity|]). destruct H.
  - reflexivity.
Qed.

(** ** Catalog discovery: types, inclusion and order *)

Section CatalogFacts.

Import Catalog.

Lemma first_pattern_Some (table : list (string * priority_info)) (path pattern : string) :
  first_pattern table path = Some pattern ->
  In pattern (fst <$> table) /\ contains pattern (lower path) = true.
Proof.
  induction table as [|[p info] table IH]; simpl; [discriminate|].
  destruct (contains p (lower path)) eqn:E.
  - intros [= <-]. auto.
  - intros H. destruct (IH H). auto.
Qed.

Lemma first_pattern_None (table : list (string * priority_info)) (path : string) :
  first_pattern table path = None ->
  forall pattern, In pattern (fst <$> table) -> contains pattern (lower path) = false.
Proof.
  induction table as [|[p info] table IH]; simpl; [tauto|].
  destruct (contains p (lower path)) eqn:E; [discriminate|].
  intros H pattern [<-|Hin]; auto.
Qed.

Lemma dataset_type_metadata (e : entry) :
  dataset_type (parse_dataset_metadata e) = (extract_dataset_type e).1.
Proof. unfold parse_dataset_metadata. by destruct (extract_dataset_type e). Qed.

Lemma vintage_metadata (e : entry) : vintage (parse_dataset_metadata e) = c_vintage e.
Proof. unfold parse_dataset_metadata. by destruct (extract_dataset_type e). Qed.

Lemma priority_metadata (e : entry) :
  m_priority (parse_dataset_metadata e) = priority_of (extract_dataset_type e).1.
Proof. unfold parse_dataset_metadata. by destruct (extract_dataset_type e). Qed.

Lemma extract_dataset_type_Some (e : entry) (t : string) :
  (extract_dataset_type e).1 = Some t ->
  exists parts, c_dataset e = Some parts
                /\ first_pattern PRIORITY_DATASETS (String.concat "/" parts) = Some t.
Proof.
  unfold extract_dataset_type.
  destruct (c_dataset e) as [parts|]; [|discriminate].
  destruct (first_pattern _ _) as [p|] eqn:E; [|discriminate].
  intros [= <-]. eauto.
Qed.

(** Every pattern of the table is a non-empty string, and its minimum
    vintage is 2010 or later. *)
Lemma table_patterns (t : string) :
  In t (fst <$> PRIORITY_DATASETS) -> truthy t = true /\ 2010 <= min_year_of t.
Proof.
  cbn. intros H.
  repeat (destruct H as [<-|H]; [split; [reflexivity|by vm_compute]|]).
  destruct H.
Qed.

Variable py_int : string -> option Z.

(** [should_include_dataset], case by case. *)
Lemma should_include_dataset_spec (e : entry) (t : string) :
  (extract_dataset_type e).1 = Some t ->
  should_include_dataset py_int e
  = vintage_check py_int t (c_vintage e)
    && json_truthy (default (JsonBool true) (c_isAvailable e)).
Proof.
  intros Ht. destruct (extract_dataset_type_Some e t Ht) as (parts & Hparts & Hfirst).
  apply first_pattern_Some in Hfirst as [Hin _].
  apply table_patterns in Hin as [Htruthy _].
  unfold should_include_dataset.
  destruct (extract_dataset_type e) as [[t'|] path]; simpl in Ht; [|discriminate].
  injection Ht as ->. rewrite Htruthy. simpl.
  by destruct (vintage_check py_int t (c_vintage e)),
       (json_truthy (default (JsonBool true) (c_isAvailable e))).
Qed.

Lemma should_include_dataset_None (e : entry) :
  (extract_dataset_type e).1 = None -> should_include_dataset py_int e = false.
Proof.
  unfold should_include_dataset.
  by destruct (extract_dataset_type e) as [[t'|] path].
Qed.

Lemma vintage_check_false (t : string) (v : jval) :
  vintage_check py_int t v = false
  <-> jtruthy v = true
      /\ exists year, int_of_jval py_int v = Some year /\ year < min_year_of t.
Proof.
  unfold vintage_check. destruct (jtruthy v).
  - destruct (int_of_jval py_int v) as [year|].
    + rewrite negb_false_iff, Z.ltb_lt. split.
      * intros H. split; [done|]. by exists year.
      * intros [_ (y & [= <-] & H)]. exact H.
    + split; [discriminate|]. intros [_ (y & H & _)]. discriminate.
  - split; [discriminate|]. intros [H _]. discriminate.
Qed.

End CatalogFacts.

(** C4 (amended).  For every raw catalog entry, the descriptor's
    [dataset_type] is non-null if and only if [c_dataset] is a list and the
    lower-cased slash-joined path contains one of the keys of the pattern
    table.  An entry that matches a pattern is excluded exactly when its
    vintage is truthy (not null, not 0, not the empty string), parses as
    an integer and is below the pattern's [min_year], or when its
    availability flag is present and falsy ([false], but also [null], zero
    or an empty string, array or object; an absent flag counts as true);
    so a vintage that fails integer parsing passes the vintage check.  An
    entry that matches no pattern is excluded. *)
Theorem dataset_type_and_inclusion :
  forall (py_int : string -> option Z) (e : Catalog.entry),
    (Catalog.dataset_type (Catalog.parse_dataset_metadata e) <> None
     <-> exists parts pattern,
           Catalog.c_dataset e = Some parts
           /\ In pattern (fst <$> Catalog.PRIORITY_DATASETS)
           /\ contains pattern (lower (String.concat "/" parts)) = true)
    /\ (forall t,
          Catalog.dataset_type (Catalog.parse_dataset_metadata e) = Some t ->
          (Catalog.should_include_dataset py_int e = false
           <-> (Catalog.jtruthy (Catalog.c_vintage e) = true
                /\ exists year,
                     Catalog.int_of_jval py_int (Catalog.c_vintage e) = Some year
                     /\ year < Catalog.min_year_of t)
               \/ exists flag, Catalog.c_isAvailable e = Some flag
                               /\ Catalog.json_truthy flag = false)
          /\ (Catalog.int_of_jval py_int (Catalog.c_vintage e) = None ->
              Catalog.vintage_check py_int t (Catalog.c_vintage e) = true))
    /\ (Catalog.dataset_type (Catalog.parse_dataset_metadata e) = None ->
        Catalog.should_include_dataset py_int e = false).
Proof.
  intros py_int e. rewrite dataset_type_metadata. split; [|split].
  - split.
    + destruct ((Catalog.extract_dataset_type e).1) as [t|] eqn:Ht; [|done].
      intros _. destruct (extract_dataset_type_Some e t Ht) as (parts & Hparts & Hfirst).
      apply first_pattern_Some in Hfirst as [Hin Hc]. by exists parts, t.
    + intros (parts & pattern & Hparts & Hin & Hc).
      unfold Catalog.extract_dataset_type. rewrite Hparts.
      destruct (Catalog.first_pattern _ _) as [p|] eqn:E; [done|].
      pose proof (first_pattern_None _ _ E pattern Hin). congruence.
  - intros t Ht. split.
    + rewrite (should_include_dataset_spec py_int e t Ht).
      rewrite andb_false_iff, vintage_check_false.
      destruct (Catalog.c_isAvailable e) as [flag|]; simpl.
      * destruct (Catalog.json_truthy flag) eqn:Hflag.
        -- split; [intros [H|H]; [by left|discriminate]|].
           intros [H|(flag' & [= <-] & H)]; [by left|congruence].
        -- split; [intros _; right; by exists flag|]. by right.
      * split; [intros [H|H]; [by left|discriminate]|].
        intros [H|(flag' & [=] & _)]. by left.
    + intros Hnone. unfold Catalog.vintage_check. rewrite Hnone.
      by destruct (Catalog.jtruthy _).
  - apply should_include_dataset_None.
Qed.

Lemma dataset_type_and_inclusion_witness :
  Catalog.should_include_dataset Decimal.int_of_decimal Examples.zbp_2009 = false
  /\ Catalog.should_include_dataset Decimal.int_of_decimal Examples.acs_null_flag = false
  /\ Catalog.should_include_dataset Decimal.int_of_decimal Examples.acs_withdrawn = false
  /\ Catalog.vintage_check Decimal.int_of_decimal "acs"
       (Catalog.c_vintage Examples.acs_text_vintage) = true.
Proof.
  split; [|split; [|split]].
  - destruct (dataset_type_and_inclusion Decimal.int_of_decimal Examples.zbp_2009)
      as (_ & H & _).
    apply (H "zbp"); [reflexivity|].
    left. split; [reflexivity|]. exists 2009. split; [reflexivity|by vm_compute].
  - destruct (dataset_type_and_inclusion Decimal.int_of_decimal Examples.acs_null_flag)
      as (_ & H & _).
    apply (H "acs"); [reflexivity|].
    right. exists Catalog.JsonNull. split; reflexivity.
  - destruct (dataset_type_and_inclusion Decimal.int_of_decimal Examples.acs_withdrawn)
      as (_ & H & _).
    apply (H "acs"); [reflexivity|].
    right. exists (Catalog.JsonBool false). split; reflexivity.
  - destruct (dataset_type_and_inclusion Decimal.int_of_decimal Examples.acs_text_vintage)
      as (_ & H & _).
    apply (H "acs"); reflexivity.
Defined.

(** C4, as stated, fails twice.  The path ["ACS/ACS5"] contains no key of
    the table, yet the descriptor's type is ["acs"]: the match is made on
    the lower-cased path.  And an entry of vintage 0, a parseable year
    below the minimum 2010 of its pattern, is included: the vintage test
    runs on truthy vintages only. *)
Lemma dataset_type_case_and_zero_vintage :
  (Catalog.dataset_type (Catalog.parse_dataset_metadata Examples.upper_case_acs)
   = Some "acs"
   /\ forall pattern, In pattern (fst <$> Catalog.PRIORITY_DATASETS) ->
                      contains pattern "ACS/ACS5" = false)
  /\ (Catalog.dataset_type (Catalog.parse_dataset_metadata Examples.acs_vintage_zero)
      = Some "acs"
      /\ Catalog.int_of_jval Decimal.int_of_decimal
           (Catalog.c_vintage Examples.acs_vintage_zero) = Some 0
      /\ 0 < Catalog.min_year_of "acs"
      /\ Catalog.should_include_dataset Decimal.int_of_decimal Examples.acs_vintage_zero
         = true).
Proof.
  split; [split; [reflexivity|]|].
  - cbn. intros pattern H.
    repeat (destruct H as [<-|H]; [reflexivity|]). destruct H.
  - repeat split; reflexivity.
Qed.

(** ** Catalog discovery: the sort *)

Section FilterFacts.

Context {A : Type} (P Q : A -> Prop) `{!forall x, Decision (P x), !forall x, Decision (Q x)}.

Lemma filter_ext_elem (l : list A) :
  (forall x, x ∈ l -> P x <-> Q x) -> filter P l = filter Q l.
Proof.
  induction l as [|x l IH]; intros Hext; [done|].
  rewrite !filter_cons.
  assert (P x <-> Q x) as Hx by (apply Hext; left).
  rewrite IH by (intros y Hy; apply Hext; by right).
  destruct (decide (P x)), (decide (Q x)); tauto.
Qed.

Lemma filter_all (l : list A) : (forall x, x ∈ l -> P x) -> filter P l = l.
Proof.
  induction l as [|x l IH]; intros Hall; [done|].
  rewrite filter_cons, decide_True by (apply Hall; left).
  f_equal. apply IH. intros y Hy. apply Hall. by right.
Qed.

End FilterFacts.

Section CatalogSort.

Import Catalog.

Lemma sort_key_Ok (x : metadata) (k : Z * Z) :
  sort_key x = Ok k ->
  k.1 = m_priority x
  /\ k.2 = match vintage x with JInt z => - z | _ => 0 end.
Proof.
  unfold sort_key, neg_vintage_or_zero.
  destruct (vintage x) as [|z|s]; simpl.
  - intros [= <-]. done.
  - destruct (z =? 0) eqn:E; simpl; intros [= <-]; simpl; [|done].
    apply Z.eqb_eq in E. subst. done.
  - destruct (truthy s); simpl; [discriminate|]. intros [= <-]. done.
Qed.

Lemma sort_datasets_Ok (l sorted : list metadata) :
  sort_datasets l = Ok sorted ->
  sorted = sort_by key_of l /\ Forall (fun x => sort_key x = Ok (key_of x)) l.
Proof.
  unfold sort_datasets.
  destruct (mapM _ l) as [decorated|e] eqn:E; simpl; [|discriminate].
  intros [= <-]. apply mapM_res_Ok in E.
  assert (Forall (fun x => sort_key x = Ok (key_of x)) l
          /\ decorated = (fun x => (key_of x, x)) <$> l) as [Hkeys ->].
  { induction E as [|x y l k Hxy _ [IH1 IH2]]; [done|].
    destruct (sort_key x) as [kx|] eqn:Hx; simpl in Hxy; [|discriminate].
    injection Hxy as <-.
    assert (key_of x = kx) as Hkx by (unfold key_of; by rewrite Hx).
    split.
    - constructor; [congruence|exact IH1].
    - rewrite fmap_cons, Hkx. by f_equal. }
  split; [|exact Hkeys].
  rewrite sort_by_decorated, <- list_fmap_compose.
  apply list_fmap_id.
Qed.

Lemma sort_datasets_total (l : list metadata) :
  Forall (fun x => match vintage x with JStr s => s = "" | _ => True end) l ->
  exists sorted, sort_datasets l = Ok sorted.
Proof.
  intros H. unfold sort_datasets.
  destruct (mapM_res_total (fun x => k ← sort_key x; Ok (k, x)) l) as [d ->].
  - eapply Forall_impl; [exact H|]. intros x Hx. simpl in Hx.
    unfold sort_key, neg_vintage_or_zero.
    destruct (vintage x) as [|z|s]; simpl; eauto.
    + destruct (z =? 0); simpl; eauto.
    + subst. simpl. eauto.
  - simpl. eauto.
Qed.

Variable py_int : string -> option Z.

(** An included descriptor with an integer vintage other than 0 has a
    vintage of 2010 or later. *)
Lemma included_vintage (catalog : list entry) (x : metadata) (v : Z) :
  x ∈ included py_int catalog -> vintage x = JInt v -> v <> 0 -> 2010 <= v.
Proof.
  unfold included. intros (e & -> & He)%list_elem_of_fmap Hv Hnz.
  apply list_elem_of_filter in He as [Hinc _].
  rewrite vintage_metadata in Hv.
  destruct ((extract_dataset_type e).1) as [t|] eqn:Ht.
  - rewrite (should_include_dataset_spec py_int e t Ht) in Hinc.
    apply andb_true_iff in Hinc as [Hcheck _].
    destruct (extract_dataset_type_Some e t Ht) as (parts & _ & Hfirst).
    apply first_pattern_Some in Hfirst as [Hin _].
    apply table_patterns in Hin as [_ Hmin].
    unfold vintage_check in Hcheck. rewrite Hv in Hcheck. simpl in Hcheck.
    destruct (v =? 0) eqn:E; [apply Z.eqb_eq in E; lia|].
    simpl in Hcheck. apply negb_true_iff, Z.ltb_ge in Hcheck. lia.
  - rewrite should_include_dataset_None in Hinc by done. discriminate.
Qed.

Variable arrow_error : jval -> exn.

(** A table that is built holds the rows it was built from, and their
    vintages are null or integers of 32 bits. *)
Lemma from_pylist_Ok (rows table : list metadata) :
  from_pylist arrow_error rows = Ok table
  <-> table = rows /\ Forall (fun x => fits_int32 (vintage x) = true) rows.
Proof.
  unfold from_pylist. rewrite mapM_res_Ok. split.
  - intros H. induction H as [|x y rows table Hxy _ [-> IH]]; [done|].
    destruct (fits_int32 (vintage x)) eqn:Hx; [|discriminate].
    injection Hxy as <-. split; [done|]. by constructor.
  - intros [-> H]. induction H as [|x rows Hx _ IH]; constructor; [|done].
    by rewrite Hx.
Qed.

Lemma from_pylist_Raise (rows : list metadata) (e : exn) :
  from_pylist arrow_error rows = Raise e ->
  exists x, x ∈ rows /\ fits_int32 (vintage x) = false
            /\ e = arrow_error (vintage x).
Proof.
  unfold from_pylist. intros (x & Hx & He)%mapM_res_Raise.
  exists x. split; [done|].
  destruct (fits_int32 (vintage x)); [discriminate|]. by injection He as <-.
Qed.

(** The state is saved exactly when the sort returns. *)
Lemma process_catalog_saved (catalog : list entry) :
  process_catalog py_int arrow_error catalog
  = match sort_datasets (included py_int catalog) with
    | Ok sorted =>
        (from_pylist arrow_error sorted,
         Some (CatalogState (length catalog) (length sorted)
                 (count_types (included py_int catalog))))
    | Raise e => (Raise e, None)
    end.
Proof. reflexivity. Qed.

Lemma process_catalog_Ok (catalog : list entry) (table : list metadata) (st : catalog_state) :
  process_catalog py_int arrow_error catalog = (Ok table, Some st) ->
  table = sort_by key_of (included py_int catalog)
  /\ Forall (fun x => sort_key x = Ok (key_of x)) (included py_int catalog).
Proof.
  rewrite process_catalog_saved.
  destruct (sort_datasets (included py_int catalog)) as [sorted|] eqn:E; [|discriminate].
  intros [= Htable _]. apply from_pylist_Ok in Htable as [-> _].
  by apply sort_datasets_Ok.
Qed.

End CatalogSort.

(** C5 (amended).  The sort of [process_catalog] is stable: the table is a
    permutation of the included descriptors in which the descriptors of
    one key keep their catalog order.  A descriptor of smaller priority
    number is placed before one of larger; within one priority the higher
    integer vintage is placed first, and a descriptor with an integer
    vintage other than 0 is placed before one with a null vintage.  (A
    null vintage is ordered as vintage 0: it ties with a vintage of 0.)
    The sort succeeds, and the state is saved after it, when every vintage
    is null or an integer; the table is returned when every vintage is
    null or an integer of 32 bits, the values its vintage column takes. *)
Theorem catalog_sort_order :
  forall (py_int : string -> option Z) (arrow_error : Catalog.jval -> exn)
         (catalog : list Catalog.entry),
    (forall table st,
       Catalog.process_catalog py_int arrow_error catalog = (Ok table, Some st) ->
       table ≡ₚ included py_int catalog
       /\ (forall k,
             filter (fun x => Catalog.sort_key x = Ok k) table
             = filter (fun x => Catalog.sort_key x = Ok k) (included py_int catalog))
       /\ (forall a b,
             Catalog.m_priority a < Catalog.m_priority b -> before table a b)
       /\ (forall a b va vb,
             Catalog.m_priority a = Catalog.m_priority b ->
             Catalog.vintage a = Catalog.JInt va ->
             Catalog.vintage b = Catalog.JInt vb ->
             vb < va -> before table a b)
       /\ (forall a b va,
             Catalog.m_priority a = Catalog.m_priority b ->
             Catalog.vintage a = Catalog.JInt va -> va <> 0 ->
             Catalog.vintage b = Catalog.JNull -> before table a b))
    /\ (Forall (fun e => match Catalog.c_vintage e with
                         | Catalog.JStr _ => False
                         | _ => True
                         end) catalog ->
        exists sorted st,
          Catalog.sort_datasets (included py_int catalog) = Ok sorted
          /\ (Catalog.process_catalog py_int arrow_error catalog).2 = Some st)
    /\ (Forall (fun e => Catalog.fits_int32 (Catalog.c_vintage e) = true) catalog ->
        exists table st,
          Catalog.process_catalog py_int arrow_error catalog = (Ok table, Some st)).
Proof.
  intros py_int arrow_error catalog.
  assert (forall P : Catalog.jval -> Prop,
             Forall (fun e => P (Catalog.c_vintage e)) catalog ->
             Forall (fun x => P (Catalog.vintage x)) (included py_int catalog)) as Hinc.
  { intros P HP. unfold included. apply Forall_fmap, Forall_forall.
    intros e [_ He]%list_elem_of_filter. simpl. rewrite vintage_metadata.
    rewrite Forall_forall in HP. by apply HP. }
  split; [|split].
  - intros table st Hrun.
    destruct (process_catalog_Ok py_int arrow_error catalog table st Hrun) as [-> Hkeys].
    rewrite Forall_forall in Hkeys.
    assert (forall x, x ∈ sort_by key_of (included py_int catalog) ->
                      x ∈ included py_int catalog) as Hback.
    { intros x. by rewrite sort_by_perm. }
    assert (forall a b i j,
              sort_by key_of (included py_int catalog) !! i = Some a ->
              sort_by key_of (included py_int catalog) !! j = Some b ->
              exists ka kb, Catalog.sort_key a = Ok ka /\ Catalog.sort_key b = Ok kb
                            /\ key_of a = ka /\ key_of b = kb
                            /\ a ∈ included py_int catalog) as Hk.
    { intros a b i j Hi Hj.
      apply list_elem_of_lookup_2, Hback in Hi, Hj.
      exists (key_of a), (key_of b). auto 10. }
    split; [apply sort_by_perm|]. split; [|split; [|split]].
    + intros k.
      assert (forall l : list Catalog.metadata,
                (forall x, x ∈ l -> x ∈ included py_int catalog) ->
                filter (fun x => Catalog.sort_key x = Ok k) l
                = filter (fun x => key_of x = k) l) as Hsame.
      { intros l Hl. apply filter_ext_elem. intros x Hx%Hl%Hkeys.
        rewrite Hx. split; congruence. }
      rewrite !Hsame by auto. apply sort_by_stable.
    + intros a b Hlt i j Hi Hj.
      destruct (Hk a b i j Hi Hj) as (ka & kb & Ha & Hb & Hka & Hkb & _).
      apply sort_key_Ok in Ha as [Ha1 _], Hb as [Hb1 _].
      eapply (sort_by_before key_of); eauto.
      apply key_lt_spec. left. rewrite Hka, Hkb. lia.
    + intros a b va vb Hp Hva Hvb Hlt i j Hi Hj.
      destruct (Hk a b i j Hi Hj) as (ka & kb & Ha & Hb & Hka & Hkb & _).
      apply sort_key_Ok in Ha as [Ha1 Ha2], Hb as [Hb1 Hb2].
      rewrite Hva in Ha2. rewrite Hvb in Hb2.
      eapply (sort_by_before key_of); eauto.
      apply key_lt_spec. right. rewrite Hka, Hkb. lia.
    + intros a b va Hp Hva Hnz Hvb i j Hi Hj.
      destruct (Hk a b i j Hi Hj) as (ka & kb & Ha & Hb & Hka & Hkb & Hin).
      pose proof (included_vintage py_int catalog a va Hin Hva Hnz).
      apply sort_key_Ok in Ha as [Ha1 Ha2], Hb as [Hb1 Hb2].
      rewrite Hva in Ha2. rewrite Hvb in Hb2.
      eapply (sort_by_before key_of); eauto.
      apply key_lt_spec. right. rewrite Hka, Hkb. lia.
  - intros Htyped. rewrite process_catalog_saved.
    destruct (sort_datasets_total (included py_int catalog)) as [sorted ->].
    + eapply Forall_impl;
        [apply (Hinc (fun v => match v with Catalog.JStr _ => False | _ => True end)
                  Htyped)|].
      intros x Hx. simpl in Hx. by destruct (Catalog.vintage x).
    + simpl. eauto.
  - intros Hfits. rewrite process_catalog_saved.
    destruct (sort_datasets_total (included py_int catalog)) as [sorted Hsorted].
    + eapply Forall_impl;
        [apply (Hinc (fun v => Catalog.fits_int32 v = true) Hfits)|].
      intros x Hx. simpl in Hx. by destruct (Catalog.vintage x).
    + rewrite Hsorted.
      assert (Catalog.from_pylist arrow_error sorted = Ok sorted) as ->.
      { apply from_pylist_Ok. split; [done|].
        apply sort_datasets_Ok in Hsorted as [-> _].
        apply Forall_forall. intros x Hx. rewrite sort_by_perm in Hx.
        pose proof (Hinc (fun v => Catalog.fits_int32 v = true) Hfits) as Hall.
        rewrite Forall_forall in Hall.
        by apply Hall. }
      eauto.
Qed.

Lemma catalog_sort_order_witness :
  exists table st,
    Catalog.process_catalog Decimal.int_of_decimal Decimal.arrow_error Examples.catalog
    = (Ok table, Some st)
    /\ before table (Catalog.parse_dataset_metadata Examples.acs5_2021)
                    (Catalog.parse_dataset_metadata Examples.sahie_2015)
    /\ before table (Catalog.parse_dataset_metadata Examples.acs5_2021)
                    (Catalog.parse_dataset_metadata Examples.acs_no_vintage).
Proof.
  destruct (catalog_sort_order Decimal.int_of_decimal Decimal.arrow_error Examples.catalog)
    as (Horder & _ & Htable).
  destruct Htable as (table & st & Hrun).
  { repeat constructor. }
  exists table, st. split; [exact Hrun|].
  destruct (Horder table st Hrun) as (_ & _ & Hpriority & _ & Hnull).
  split.
  - apply Hpriority. by vm_compute.
  - apply (Hnull _ _ 2021); [reflexivity|reflexivity|lia|reflexivity].
Defined.

(** C5, as stated, fails on a tie: of two included descriptors of one
    priority, the one with a null vintage is placed before the one whose
    vintage is 0 when the catalog lists it first. *)
Lemma catalog_sort_null_before_zero :
  let a := Catalog.parse_dataset_metadata Examples.acs_no_vintage in
  let b := Catalog.parse_dataset_metadata Examples.acs_vintage_zero in
  Catalog.vintage a = Catalog.JNull
  /\ Catalog.vintage b = Catalog.JInt 0
  /\ Catalog.m_priority a = Catalog.m_priority b
  /\ (exists st,
        Catalog.process_catalog Decimal.int_of_decimal Decimal.arrow_error
          [Examples.acs_no_vintage; Examples.acs_vintage_zero] = (Ok [a; b], Some st))
  /\ ~ before [a; b] b a.
Proof.
  repeat split.
  - eexists. vm_compute. reflexivity.
  - intros H. specialize (H 1%nat 0%nat eq_refl eq_refl). lia.
Qed.

(** The catalog of the specification's example: ["acs/acs5"] of vintage
    2021 and ["zbp"] of vintage 2009, below its minimum 2010.  Discovery
    keeps the first only, with type ["acs"]. *)
Example discovery_keeps_acs_only :
  exists table st,
    Catalog.process_catalog Decimal.int_of_decimal Decimal.arrow_error
      [Examples.acs5_2021; Examples.zbp_2009]
    = (Ok table, Some st)
    /\ table = [Catalog.parse_dataset_metadata Examples.acs5_2021]
    /\ Catalog.dataset_type <$> table = [Some "acs"].
Proof. eexists _, _. repeat split. Qed.

(** A vintage of 2 ^ 31 passes the filter and the sort, and the state is
    saved; building the table then raises. *)
Example vintage_outside_the_column :
  exists e st,
    Catalog.process_catalog Decimal.int_of_decimal Decimal.arrow_error
      [Examples.acs_vintage_too_large]
    = (Raise e, Some st)
    /\ kind e = ArrowInvalid
    /\ Catalog.filtered_datasets st = 1%nat.
Proof. eexists _, _. repeat split. Qed.

(** ** Incremental fetcher: the selection of datasets *)

Section Selection.

Import DataFetcher.

Lemma sort_key_lt (a b : dataset) :
  key_lt (sort_key a) (sort_key b) = true
  <-> priority a < priority b
      \/ (priority a = priority b /\ vintage_or_zero b < vintage_or_zero a).
Proof.
  rewrite key_lt_spec. unfold sort_key, vintage_or_zero, neg_vintage_or_zero. simpl.
  destruct (vintage a) as [va|], (vintage b) as [vb|]; simpl;
    repeat match goal with
           | |- context [?z =? 0] => destruct (Z.eqb_spec z 0); subst; simpl
           end; lia.
Qed.

Lemma filter_type_comm (P Q : dataset -> Prop)
    `{!forall x, Decision (P x), !forall x, Decision (Q x)} (l : list dataset) :
  filter P (filter Q l) = filter Q (filter P l).
Proof.
  rewrite !list_filter_filter. apply list_filter_iff. tauto.
Qed.

(** Dropping a type commutes with keeping the first of each type. *)
Lemma first_of_each_type_filter (t : option string) (l : list dataset) :
  filter (fun d => dataset_type d <> t) (first_of_each_type l)
  = first_of_each_type (filter (fun d => dataset_type d <> t) l).
Proof.
  induction l as [|d l IH]; [done|].
  cbn [first_of_each_type]. rewrite !filter_cons.
  destruct (decide (dataset_type d <> t)) as [Hd|Hd].
  - cbn [first_of_each_type]. f_equal.
    rewrite filter_type_comm. by rewrite IH.
  - rewrite <- IH, list_filter_filter.
    apply list_filter_iff. intros x. split; [tauto|].
    intros Hx. split; [done|]. intros Heq. apply Hd. congruence.
Qed.

Lemma select_loop_spec (l : list dataset) :
  forall (seen : gset (option string)) (acc : list dataset),
    (length acc < 10)%nat ->
    select_loop l seen acc
    = take 10 (acc ++ first_of_each_type (filter (fun d => dataset_type d ∉ seen) l)).
Proof.
  induction l as [|d l IH]; intros seen acc Hacc.
  - simpl. rewrite app_nil_r. by rewrite take_ge by lia.
  - cbn [select_loop]. rewrite filter_cons.
    destruct (decide (dataset_type d ∈ seen)) as [Hin|Hout].
    + rewrite decide_False by tauto. by apply IH.
    + rewrite decide_True by done. cbn [first_of_each_type].
      destruct (10 <=? length (acc ++ [d]))%nat eqn:E.
      * apply Nat.leb_le in E. rewrite length_app in E. simpl in E.
        symmetry.
        match goal with
        | |- take 10 (acc ++ d :: ?r) = _ =>
            replace (acc ++ d :: r) with ((acc ++ [d]) ++ r)
              by (by rewrite <- app_assoc)
        end.
        apply take_app_length'. rewrite length_app. simpl. lia.
      * apply Nat.leb_gt in E. rewrite IH by done.
        rewrite <- app_assoc. cbn [app]. do 3 f_equal.
        rewrite first_of_each_type_filter.
        f_equal. rewrite list_filter_filter.
        apply list_filter_iff. intros x.
        rewrite not_elem_of_union, not_elem_of_singleton. tauto.
Qed.

Lemma first_of_each_type_sublist (l : list dataset) : sublist (first_of_each_type l) l.
Proof.
  induction l as [|d l IH]; [done|].
  cbn [first_of_each_type]. apply sublist_skip.
  etrans; [apply sublist_filter|exact IH].
Qed.

Lemma first_of_each_type_NoDup (l : list dataset) :
  NoDup (dataset_type <$> first_of_each_type l).
Proof.
  induction l as [|d l IH]; [constructor|].
  cbn [first_of_each_type]. rewrite fmap_cons. constructor.
  - intros (x & Hx & Hin)%list_elem_of_fmap.
    apply list_elem_of_filter in Hin as [Hne _]. congruence.
  - eapply sublist_NoDup; [exact IH|apply fmap_sublist, sublist_filter].
Qed.

(** A dataset kept is the first of its type. *)
Lemma first_of_each_type_first (l : list dataset) (d : dataset) :
  d ∈ first_of_each_type l ->
  exists i : nat,
    l !! i = Some d
    /\ forall (j : nat) (d' : dataset),
         (j < i)%nat -> l !! j = Some d' -> dataset_type d' <> dataset_type d.
Proof.
  induction l as [|x l IH]; [by intros ?%elem_of_nil|].
  cbn [first_of_each_type]. intros [->|Hin]%elem_of_cons.
  - exists 0%nat. split; [done|]. intros j d' Hj. lia.
  - apply list_elem_of_filter in Hin as [Hne Hin].
    destruct (IH Hin) as (i & Hi & Hfirst).
    exists (S i). split; [done|].
    intros [|j] d' Hj Hd'; simpl in Hd'.
    + injection Hd' as <-. congruence.
    + apply (Hfirst j); [lia|done].
Qed.

End Selection.

(** C8 (amended).  [process_data_fetcher] traverses the catalog in the
    order of a stable sort by priority ascending, then by vintage
    descending with a null vintage counted as 0 (so a null vintage comes
    after every positive vintage of its priority and ties with a vintage
    of 0); it keeps the first dataset met of each distinct
    [dataset_type] and stops at 10 datasets.  So at most 10 datasets are
    selected, no two of them have the same [dataset_type], and each is the
    first of its type in the traversal. *)
Theorem datasets_to_process_selection :
  forall catalog_data : list DataFetcher.dataset,
    let traversal := sort_by DataFetcher.sort_key catalog_data in
    let selected := DataFetcher.datasets_to_process catalog_data in
    (traversal ≡ₚ catalog_data
     /\ (forall k,
           filter (fun d => DataFetcher.sort_key d = k) traversal
           = filter (fun d => DataFetcher.sort_key d = k) catalog_data)
     /\ (forall a b,
           DataFetcher.priority a < DataFetcher.priority b -> before traversal a b)
     /\ (forall a b,
           DataFetcher.priority a = DataFetcher.priority b ->
           vintage_or_zero b < vintage_or_zero a -> before traversal a b))
    /\ selected = take 10 (first_of_each_type traversal)
    /\ (length selected <= 10)%nat
    /\ NoDup (DataFetcher.dataset_type <$> selected)
    /\ (forall d,
          d ∈ selected ->
          exists i : nat,
            traversal !! i = Some d
            /\ forall (j : nat) (d' : DataFetcher.dataset),
                 (j < i)%nat -> traversal !! j = Some d' ->
                 DataFetcher.dataset_type d' <> DataFetcher.dataset_type d).
Proof.
  intros catalog_data traversal selected.
  assert (selected = take 10 (first_of_each_type traversal)) as Hsel.
  { unfold selected, DataFetcher.datasets_to_process. fold traversal.
    rewrite select_loop_spec by (simpl; lia). simpl. do 2 f_equal.
    apply filter_all. intros d _. apply not_elem_of_empty. }
  split; [|split; [exact Hsel|split; [|split]]].
  - split; [apply sort_by_perm|]. split; [|split].
    + intros k. apply sort_by_stable.
    + intros a b Hlt. apply sort_by_before, sort_key_lt. by left.
    + intros a b Hp Hv. apply sort_by_before, sort_key_lt. by right.
  - rewrite Hsel, length_take. lia.
  - rewrite Hsel.
    eapply sublist_NoDup; [apply first_of_each_type_NoDup|].
    apply fmap_sublist, sublist_take.
  - intros d Hd. rewrite Hsel in Hd.
    apply first_of_each_type_first.
    apply elem_of_take in Hd as (i & Hi & _).
    by eapply list_elem_of_lookup_2.
Qed.

Lemma datasets_to_process_selection_witness :
  before (sort_by DataFetcher.sort_key Examples.catalog_table)
         Examples.row_acs_2021 Examples.row_acs_null
  /\ before (sort_by DataFetcher.sort_key Examples.catalog_table)
            Examples.row_cbp_2020 Examples.row_sahie_2015
  /\ DataFetcher.datasets_to_process Examples.catalog_table
     = [Examples.row_acs_2021; Examples.row_cbp_2020; Examples.row_sahie_2015].
Proof.
  destruct (datasets_to_process_selection Examples.catalog_table)
    as ((_ & _ & Hpriority & Hvintage) & Hsel & _).
  split; [|split].
  - apply Hvintage; [reflexivity|by vm_compute].
  - apply Hpriority. by vm_compute.
  - rewrite Hsel. reflexivity.
Defined.

(** C8, as stated, fails on a tie: of two rows of one type and priority,
    the one with a null vintage is traversed first, and selected, though
    the other has a vintage (0), when the table lists it first. *)
Lemma datasets_to_process_null_before_zero :
  DataFetcher.vintage Examples.row_acs_null = None
  /\ DataFetcher.vintage Examples.row_acs_zero = Some 0
  /\ DataFetcher.priority Examples.row_acs_null = DataFetcher.priority Examples.row_acs_zero
  /\ sort_by DataFetcher.sort_key [Examples.row_acs_null; Examples.row_acs_zero]
     = [Examples.row_acs_null; Examples.row_acs_zero]
  /\ DataFetcher.datasets_to_process [Examples.row_acs_null; Examples.row_acs_zero]
     = [Examples.row_acs_null].
Proof. repeat split. Qed.

(** ** Incremental fetcher: [parse_api_response] *)

Section HeaderIndex.

Import DataFetcher.

Lemma header_index_snoc (headers : list cell) (h : cell) :
  header_index (headers ++ [h]) = <[h := length headers]> (header_index headers).
Proof.
  unfold header_index, enumerate, dict_of.
  rewrite imap_app, fmap_app, foldl_app. simpl.
  by rewrite Nat.add_0_r.
Qed.

(** The index map sends a header to a column that carries it, and knows
    every header of the row. *)
Lemma header_index_lookup (headers : list cell) (h : cell) :
  (forall i, header_index headers !! h = Some i -> headers !! i = Some h)
  /\ (header_index headers !! h = None <-> h ∉ headers).
Proof.
  induction headers as [|x headers [IH1 IH2]] using rev_ind.
  - split; [done|]. split; [intros _; apply not_elem_of_nil|done].
  - rewrite header_index_snoc. destruct (decide (x = h)) as [->|Hne].
    + rewrite lookup_insert_eq. split.
      * intros i [= <-]. rewrite lookup_app_r by done.
        by rewrite Nat.sub_diag.
      * split; [discriminate|]. intros Hout. exfalso. apply Hout.
        apply elem_of_app. right. by left.
    + rewrite lookup_insert_ne by done. split.
      * intros i Hi. apply IH1 in Hi.
        rewrite lookup_app_l; [done|]. by eapply lookup_lt_Some.
      * rewrite IH2, not_elem_of_app, not_elem_of_cons. split; [|tauto].
        intros Hout. split; [done|]. split; [congruence|apply not_elem_of_nil].
Qed.

Lemma header_index_bound (headers : list cell) (h : cell) (i : nat) :
  header_index headers !! h = Some i -> (i < length headers)%nat.
Proof.
  intros Hi. apply header_index_lookup in Hi. by eapply lookup_lt_Some.
Qed.

End HeaderIndex.

Section ParseFacts.

Import DataFetcher.

Context {F : Type} (py_float : string -> option F).

Lemma index_Ok {A : Type} (l : list A) (i : nat) (x : A) :
  index l i = Ok x <-> l !! i = Some x.
Proof. unfold index. destruct (l !! i); split; congruence. Qed.

Lemma index_total {A : Type} (l : list A) (i : nat) :
  (i < length l)%nat -> exists x, index l i = Ok x.
Proof.
  intros [x Hx]%lookup_lt_is_Some_2. exists x. by apply index_Ok.
Qed.

(** What the [try] block stores: nothing for a cell that is null, empty,
    one of the literals, or that [float] refuses; the float otherwise. *)
Lemma numeric_spec (value : cell) :
  (value = None \/ value = Some "" \/ value = Some "null" \/ value = Some "N/A"
   \/ value = Some "-" \/ (exists s, value = Some s /\ py_float s = None) ->
   numeric F py_float value = None)
  /\ (forall s, value = Some s -> s <> "" -> ~ In s ["null"; "N/A"; "-"] ->
      numeric F py_float value = py_float s).
Proof.
  split.
  - intros [->|[->|[->|[->|[->|(s & -> & Hs)]]]]]; try reflexivity.
    unfold numeric. rewrite Hs. by destruct (_ && _).
  - intros s -> Hne Hout. unfold numeric.
    apply in_list_not_In in Hout. rewrite Hout.
    destruct s; [done|reflexivity].
Qed.

(** The records of one row: one per variable of the map that is a header,
    each carrying the cell under that header. *)
Lemma variable_records_spec (header_idx : gmap cell nat) (row : list cell)
    (base : string -> cell -> string -> option F -> observation F)
    (variable_map : list (string * variable_row)) (records : list (observation F)) :
  variable_records F py_float header_idx row base variable_map = Ok records ->
  Forall (fun r => exists var_name info i value,
                     (var_name, info) ∈ variable_map
                     /\ header_idx !! Some var_name = Some i
                     /\ row !! i = Some value
                     /\ r = base var_name value (var_label info) (numeric F py_float value))
         records.
Proof.
  revert records. induction variable_map as [|[var_name info] variable_map IH];
    intros records; simpl.
  - intros [= <-]. constructor.
  - destruct (header_idx !! Some var_name) as [i|] eqn:Hi.
    + destruct (index row i) as [value|] eqn:Hv; simpl; [|discriminate].
      destruct (variable_records _ _ _ _ _ variable_map) as [rest|]; simpl; [|discriminate].
      intros [= <-]. apply index_Ok in Hv. constructor.
      * exists var_name, info, i, value. repeat split; try done. by left.
      * eapply Forall_impl; [by apply IH|].
        intros r (n & inf & j & v & Hin & ?). exists n, inf, j, v.
        split; [by right|done].
    + intros H. eapply Forall_impl; [by apply IH|].
      intros r (n & inf & j & v & Hin & ?). exists n, inf, j, v.
      split; [by right|done].
Qed.

Lemma variable_records_total (headers : list cell) (row : list cell)
    (base : string -> cell -> string -> option F -> observation F)
    (variable_map : list (string * variable_row)) :
  (length headers <= length row)%nat ->
  exists records,
    variable_records F py_float (header_index headers) row base variable_map = Ok records.
Proof.
  intros Hlen. induction variable_map as [|[var_name info] variable_map [rest IH]]; simpl.
  - eauto.
  - destruct (header_index headers !! Some var_name) as [i|] eqn:Hi; [|eauto].
    apply header_index_bound in Hi.
    destruct (index_total row i) as [value ->]; [lia|]. simpl.
    rewrite IH. simpl. eauto.
Qed.

Lemma identifier_of_total (headers : list cell) (row : list cell) (name : string) :
  (length headers <= length row)%nat ->
  exists c, identifier_of (header_index headers) row name = Ok c.
Proof.
  intros Hlen. unfold identifier_of.
  destruct (header_index headers !! Some name) as [i|] eqn:Hi; [|eauto].
  apply header_index_bound in Hi.
  destruct (index_total row i) as [value ->]; [lia|]. simpl. eauto.
Qed.

Lemma row_records_spec (header_idx : gmap cell nat) (dataset_info : dataset)
    (variable_map : list (string * variable_row)) (row : list cell)
    (records : list (observation F)) :
  row_records F py_float header_idx dataset_info variable_map row = Ok records ->
  Forall (fun r =>
            row !! default 0%nat (header_idx !! Some "NAME") = Some (geography_name F r)
            /\ (exists i, header_idx !! Some (variable F r) = Some i
                          /\ row !! i = Some (value F r))
            /\ value_numeric F r = numeric F py_float (value F r))
         records.
Proof.
  unfold row_records.
  destruct (index row _) as [name|] eqn:Hname; simpl; [|discriminate].
  destruct (identifier_of _ _ "state") as [state|]; simpl; [|discriminate].
  destruct (identifier_of _ _ "county") as [county|]; simpl; [|discriminate].
  destruct (identifier_of _ _ "place") as [place|]; simpl; [|discriminate].
  intros H%variable_records_spec. apply index_Ok in Hname.
  eapply Forall_impl; [exact H|].
  intros r (n & inf & i & v & _ & Hi & Hv & ->). simpl. eauto.
Qed.

Lemma row_records_total (headers : list cell) (dataset_info : dataset)
    (variable_map : list (string * variable_row)) (row : list cell) :
  (length headers <= length row)%nat -> row <> [] ->
  exists records,
    row_records F py_float (header_index headers) dataset_info variable_map row = Ok records.
Proof.
  intros Hlen Hne. unfold row_records.
  destruct (index_total row (default 0%nat (header_index headers !! Some "NAME")))
    as [name ->].
  { destruct (header_index headers !! Some "NAME") as [i|] eqn:Hi; simpl.
    - apply header_index_bound in Hi. lia.
    - destruct row; [done|simpl; lia]. }
  destruct (identifier_of_total headers row "state" Hlen) as [state ->].
  destruct (identifier_of_total headers row "county" Hlen) as [county ->].
  destruct (identifier_of_total headers row "place" Hlen) as [place ->].
  simpl. by apply variable_records_total.
Qed.

Lemma variable_records_length (header_idx : gmap cell nat) (row : list cell)
    (base : string -> cell -> string -> option F -> observation F)
    (variable_map : list (string * variable_row)) (records : list (observation F)) :
  variable_records F py_float header_idx row base variable_map = Ok records ->
  length records
  = length (filter (fun kv => is_Some (header_idx !! Some kv.1)) variable_map).
Proof.
  revert records. induction variable_map as [|[var_name info] variable_map IH];
    intros records; simpl.
  - by intros [= <-].
  - rewrite filter_cons. simpl.
    destruct (header_idx !! Some var_name) as [i|] eqn:Hi.
    + destruct (index row i) as [value|]; simpl; [|discriminate].
      destruct (variable_records _ _ _ _ _ variable_map) as [rest|]; simpl; [|discriminate].
      intros [= <-]. simpl. f_equal. by apply IH.
    + intros H. by apply IH.
Qed.

(** The map variables that are headers are those the index has. *)
Lemma present_variables_index (headers : list cell)
    (variable_map : list (string * variable_row)) :
  present_variables headers variable_map
  = filter (fun kv => is_Some (header_index headers !! Some kv.1)) variable_map.
Proof.
  unfold present_variables. apply list_filter_iff. intros kv.
  destruct (header_index_lookup headers (Some kv.1)) as [_ Hnone].
  destruct (header_index headers !! Some kv.1) as [i|] eqn:Hi.
  - split; [eauto|]. intros _.
    destruct (decide (Some kv.1 ∈ headers)) as [|Hout]; [done|].
    apply Hnone in Hout. discriminate.
  - split; [|by intros [? ?]]. intros Hin. by apply Hnone in Hin.
Qed.

Lemma fmap_constant {A B : Type} (f : A -> B) (c : B) (l : list A) :
  Forall (fun x => f x = c) l -> f <$> l = replicate (length l) c.
Proof. induction 1 as [|x l Hx _ IH]; [done|]. by rewrite fmap_cons, Hx, IH. Qed.

(** The records of a row carry the cell of that row in the name column,
    one record for each map variable that is a header. *)
Lemma row_records_names (headers : list cell) (dataset_info : dataset)
    (variable_map : list (string * variable_row)) (row : list cell)
    (records : list (observation F)) :
  row_records F py_float (header_index headers) dataset_info variable_map row = Ok records ->
  is_Some (row !! default 0%nat (header_index headers !! Some "NAME"))
  /\ geography_name F <$> records
     = replicate (length (present_variables headers variable_map))
         (cell_at row (default 0%nat (header_index headers !! Some "NAME"))).
Proof.
  unfold row_records, cell_at.
  destruct (index row _) as [name|] eqn:Hname; simpl; [|discriminate].
  apply index_Ok in Hname. rewrite Hname. simpl.
  destruct (identifier_of _ _ "state") as [state|]; simpl; [|discriminate].
  destruct (identifier_of _ _ "county") as [county|]; simpl; [|discriminate].
  destruct (identifier_of _ _ "place") as [place|]; simpl; [|discriminate].
  intros Hrun. split; [by eexists|].
  rewrite present_variables_index, <- (variable_records_length _ _ _ _ _ Hrun).
  apply fmap_constant. apply variable_records_spec in Hrun.
  eapply Forall_impl; [exact Hrun|].
  by intros r (n & inf & i & v & _ & _ & _ & ->).
Qed.

Lemma fmap_concat_replicate {A B C : Type} (f : B -> C) (g : A -> C) (n : nat)
    (l : list A) (k : list (list B)) :
  Forall2 (fun x ys => f <$> ys = replicate n (g x)) l k ->
  f <$> concat k = concat ((fun x => replicate n (g x)) <$> l).
Proof.
  induction 1 as [|x ys l k Hx _ IH]; [done|].
  rewrite fmap_cons. cbn [concat]. by rewrite fmap_app, Hx, IH.
Qed.

(** The records of a response are those of its rows, in order. *)
Lemma parse_api_response_rows (headers : list cell) (rows : list (list cell))
    (dataset_info : dataset) (variable_map : list (string * variable_row))
    (records : list (observation F)) :
  parse_api_response F py_float (headers :: rows) dataset_info variable_map = Ok records ->
  exists per_row,
    records = concat per_row
    /\ Forall2 (fun row rs =>
                  row_records F py_float (header_index headers) dataset_info
                    variable_map row = Ok rs) rows per_row.
Proof.
  unfold parse_api_response. destruct rows as [|row rows].
  - intros [= <-]. exists []. split; [done|constructor].
  - destruct (mapM _ (row :: rows)) as [per_row|] eqn:E; simpl; [|discriminate].
    intros [= <-]. exists per_row. split; [done|]. by apply mapM_res_Ok.
Qed.

End ParseFacts.

Section ConcatFacts.

Context {A B : Type} (P : A -> list B -> Prop).

Lemma Forall2_concat_elem (l : list A) (k : list (list B)) (y : B) :
  Forall2 P l k -> y ∈ concat k ->
  exists x ys, x ∈ l /\ P x ys /\ y ∈ ys.
Proof.
  induction 1 as [|x ys l k Hx _ IH]; simpl.
  - by intros ?%elem_of_nil.
  - intros [Hy|Hy]%elem_of_app.
    + exists x, ys. split; [by left|done].
    + destruct (IH Hy) as (x' & ys' & Hin & HP & Hy').
      exists x', ys'. split; [by right|done].
Qed.

End ConcatFacts.

(** C3.  [parse_api_response] does not compare the length of a row with
    the length of the header row.  A row shorter than the header row is
    read out of range: the call raises [IndexError].  A row longer than
    the header row is kept and gives a record.  This holds whatever
    [float] is. *)
Theorem parse_api_response_row_length :
  forall (F : Type) (py_float : string -> option F),
    DataFetcher.parse_api_response F py_float Examples.response_short_row
      Examples.acs_dataset Examples.acs_variable_map
    = Raise index_error
    /\ DataFetcher.parse_api_response F py_float Examples.response_long_row
         Examples.acs_dataset Examples.acs_variable_map
       = Ok [ DataFetcher.Observation F (Some "acs") (Some 2021) (Some "Alabama")
                None None None "B01003_001E" (Some "5030000") "Total population"
                (py_float "5030000") ].
Proof. intros F py_float. split; reflexivity. Qed.

(** C6.  Every record that [parse_api_response] emits carries in [value]
    the cell of its row under the header of its variable, as it came;
    [value_numeric] is null when that cell is null, empty, one of
    ["null"], ["N/A"], ["-"], or a text that [float] refuses (as it does
    ["."]), and is the float of the cell otherwise: ["42.5"] gives 42.5. *)
Theorem observation_value_and_numeric :
  (forall (F : Type) (py_float : string -> option F) (data : list (list cell))
          (dataset_info : DataFetcher.dataset)
          (variable_map : list (string * DataFetcher.variable_row))
          (records : list (DataFetcher.observation F)) (r : DataFetcher.observation F),
     DataFetcher.parse_api_response F py_float data dataset_info variable_map = Ok records ->
     r ∈ records ->
     (exists headers rows row i,
        data = headers :: rows /\ row ∈ rows
        /\ headers !! i = Some (Some (DataFetcher.variable F r))
        /\ row !! i = Some (DataFetcher.value F r))
     /\ (DataFetcher.value F r = None \/ DataFetcher.value F r = Some ""
         \/ DataFetcher.value F r = Some "null" \/ DataFetcher.value F r = Some "N/A"
         \/ DataFetcher.value F r = Some "-"
         \/ (exists s, DataFetcher.value F r = Some s /\ py_float s = None) ->
         DataFetcher.value_numeric F r = None)
     /\ (forall s, DataFetcher.value F r = Some s -> s <> "" ->
                   ~ In s ["null"; "N/A"; "-"] ->
                   DataFetcher.value_numeric F r = py_float s))
  /\ (exists records,
        DataFetcher.parse_api_response Decimal.decimal Decimal.float_of_decimal
          Examples.response_values Examples.acs_dataset Examples.acs_variable_map
        = Ok records
        /\ (fun r => (DataFetcher.value _ r, DataFetcher.value_numeric _ r)) <$> records
           = [ (Some "42.5", Some (Decimal.Dec 425 1));
               (Some "-", None);
               (Some ".", None);
               (Some "", None);
               (None, None) ]).
Proof.
  split.
  - intros F py_float data dataset_info variable_map records r Hrun Hr.
    destruct data as [|headers rows].
    { injection Hrun as <-. by apply elem_of_nil in Hr. }
    destruct (parse_api_response_rows py_float _ _ _ _ _ Hrun) as (per_row & -> & Hrows).
    destruct (Forall2_concat_elem _ _ _ _ Hrows Hr) as (row & rs & Hrow & Hrs & Hin).
    apply row_records_spec in Hrs. rewrite Forall_forall in Hrs.
    destruct (Hrs r Hin) as (_ & (i & Hi & Hcell) & Hnum).
    apply header_index_lookup in Hi.
    split; [by exists headers, rows, row, i|].
    rewrite Hnum. apply numeric_spec.
  - eexists. split; reflexivity.
Qed.

Lemma observation_value_and_numeric_witness :
  (exists headers rows row i,
     Examples.response_states = headers :: rows /\ row ∈ rows
     /\ headers !! i = Some (Some "B01003_001E")
     /\ row !! i = Some (Some "-"))
  /\ DataFetcher.value_numeric _ Examples.georgia_observation = None
  /\ DataFetcher.value_numeric _ Examples.alabama_observation
     = Decimal.float_of_decimal "5030000".
Proof.
  destruct observation_value_and_numeric as [Hgeneral _].
  destruct (Hgeneral Decimal.decimal Decimal.float_of_decimal Examples.response_states
              Examples.acs_dataset Examples.acs_variable_map
              [Examples.alabama_observation; Examples.georgia_observation]
              Examples.georgia_observation) as (Hcell & Hnull & _);
    [reflexivity|right; left|].
  destruct (Hgeneral Decimal.decimal Decimal.float_of_decimal Examples.response_states
              Examples.acs_dataset Examples.acs_variable_map
              [Examples.alabama_observation; Examples.georgia_observation]
              Examples.alabama_observation) as (_ & _ & Hfloat);
    [reflexivity|left|].
  split; [exact Hcell|]. split.
  - apply Hnull. do 4 right. left. reflexivity.
  - apply Hfloat; [reflexivity|discriminate|].
    intros H. repeat (destruct H as [H|H]; [discriminate H|]). exact H.
Defined.

(** C9.  The geography name of every record is the cell of its own row
    in the name column: the column of the header ["NAME"] when the header
    row has one, the first column (index 0) when it has none.  Row by
    row, in the order of the response, the records of a row (one for each
    variable of the map that is a header) all carry that row's cell.  A
    header row without ["NAME"] makes no call fail: a response whose rows
    are not empty and not shorter than the header row is parsed. *)
Theorem geography_name_column :
  forall (F : Type) (py_float : string -> option F) (headers : list cell)
         (rows : list (list cell)) (dataset_info : DataFetcher.dataset)
         (variable_map : list (string * DataFetcher.variable_row)),
    let name_column :=
      default 0%nat (DataFetcher.header_index headers !! Some "NAME") in
    (Some "NAME" ∉ headers -> name_column = 0%nat)
    /\ (Some "NAME" ∈ headers -> headers !! name_column = Some (Some "NAME"))
    /\ (forall records,
          DataFetcher.parse_api_response F py_float (headers :: rows) dataset_info
            variable_map = Ok records ->
          Forall (fun row => is_Some (row !! name_column)) rows
          /\ DataFetcher.geography_name F <$> records
             = concat ((fun row =>
                          replicate (length (present_variables headers variable_map))
                            (cell_at row name_column)) <$> rows))
    /\ (Forall (fun row => (length headers <= length row)%nat /\ row <> []) rows ->
        exists records,
          DataFetcher.parse_api_response F py_float (headers :: rows) dataset_info
            variable_map = Ok records).
Proof.
  intros F py_float headers rows dataset_info variable_map name_column.
  subst name_column.
  destruct (header_index_lookup headers (Some "NAME")) as [Hsome Hnone].
  split; [|split; [|split]].
  - intros Hout. apply Hnone in Hout. by rewrite Hout.
  - intros Hin.
    destruct (DataFetcher.header_index headers !! Some "NAME") as [i|] eqn:Hi.
    + by apply Hsome.
    + exfalso. by apply (proj1 Hnone).
  - intros records Hrun.
    destruct (parse_api_response_rows py_float _ _ _ _ _ Hrun) as (per_row & -> & Hrows).
    assert (Forall2 (fun row rs =>
                       is_Some (row !! default 0%nat
                                         (DataFetcher.header_index headers !! Some "NAME"))
                       /\ DataFetcher.geography_name F <$> rs
                          = replicate (length (present_variables headers variable_map))
                              (cell_at row
                                 (default 0%nat
                                    (DataFetcher.header_index headers !! Some "NAME"))))
                    rows per_row) as Hnames.
    { eapply Forall2_impl; [exact Hrows|].
      intros row rs Hrs. by apply (row_records_names py_float) in Hrs. }
    split.
    + eapply Forall2_Forall_l; [exact Hnames|].
      apply Forall_forall. by intros rs _ row [Hcell _].
    + apply (fmap_concat_replicate (DataFetcher.geography_name F)
               (fun row => cell_at row
                             (default 0%nat
                                (DataFetcher.header_index headers !! Some "NAME")))).
      eapply Forall2_impl; [exact Hnames|]. by intros row rs [_ Heq].
  - intros Hrows. unfold DataFetcher.parse_api_response.
    destruct rows as [|row rows]; [eauto|].
    destruct (mapM_res_total
                (DataFetcher.row_records F py_float (DataFetcher.header_index headers)
                   dataset_info variable_map) (row :: rows)) as [per_row ->].
    + eapply Forall_impl; [exact Hrows|].
      intros x [Hlen Hne]. by apply row_records_total.
    + simpl. eauto.
Qed.

Lemma geography_name_column_witness :
  exists records,
    DataFetcher.parse_api_response Decimal.decimal Decimal.float_of_decimal
      Examples.response_no_name Examples.acs_dataset Examples.acs_variable_map
    = Ok records
    /\ DataFetcher.geography_name _ <$> records = [Some "01"; Some "13"].
Proof.
  destruct (geography_name_column Decimal.decimal Decimal.float_of_decimal
              [Some "state"; Some "B01003_001E"]
              [ [Some "01"; Some "5030000"]; [Some "13"; Some "10700000"] ]
              Examples.acs_dataset Examples.acs_variable_map)
    as (_ & _ & Hrecords & Htotal).
  destruct Htotal as [records Hrun].
  { repeat constructor; simpl; (lia || discriminate). }
  exists records. split; [exact Hrun|].
  destruct (Hrecords records Hrun) as [_ ->]. reflexivity.
Defined.

(** The response of the specification's example gives two records of the
    variable, one with the number and one, for ["-"], without. *)
Example response_states_records :
  DataFetcher.parse_api_response Decimal.decimal Decimal.float_of_decimal
    Examples.response_states Examples.acs_dataset Examples.acs_variable_map
  = Ok [Examples.alabama_observation; Examples.georgia_observation].
Proof. reflexivity. Qed.

(** ** Time-series fetchers: the loop over the years *)

Section StateLevelFacts.

Import TimeSeries.

Context {R : Type}.
Variable fetch : Z -> option body * list request.
Variable make_record : Z -> gmap cell cell -> res R.

(** The loop over the rows adds the records of the rows before the first
    failure, and ends well exactly when the rows normalize. *)
Lemma rows_loop_spec (year : Z) (headers : list cell) (rows : list (list cell)) :
  forall records : list R,
    exists r,
      for_each (row_step R make_record year headers) rows records
      = (r, records ++ normalized make_record year headers rows)
      /\ (normalizes make_record year headers rows = true <-> exists u, r = Ok u).
Proof.
  induction rows as [|row rows IH]; intros records.
  - exists (Ok tt). simpl. rewrite app_nil_r. split; [done|]. split; eauto.
  - cbn [for_each normalized normalizes forallb].
    unfold row_step at 1, record_of_row.
    destruct (decide (length row = length headers)) as [Hlen|Hlen].
    + destruct (make_record year _) as [record|e].
      * destruct (IH (records ++ [record])) as (r & -> & Hr).
        exists r. rewrite <- app_assoc. split; [done|].
        fold (normalizes make_record year headers rows). by rewrite andb_true_l.
      * exists (Raise e). rewrite app_nil_r. split; [done|].
        split; [discriminate|]. intros [u Hu]. discriminate.
    + destruct (IH records) as (r & -> & Hr).
      exists r. split; [done|].
      fold (normalizes make_record year headers rows). by rewrite andb_true_l.
Qed.

Lemma year_step_spec (w : world R) (year : Z) :
  year_step R fetch make_record w year
  = world_app w (World (fetch year).2
                       (if year_succeeds fetch make_record year then [year] else [])
                       (year_records fetch make_record year)).
Proof.
  unfold year_step, year_succeeds, year_records, world_app.
  destruct (fetch year) as [data reqs]. simpl.
  destruct (usable (default [] data)) as [[headers rows]|].
  - destruct (rows_loop_spec year headers rows (all_records w)) as (r & Hrun & Hr).
    rewrite Hrun.
    destruct r as [u|e].
    + rewrite (proj2 Hr) by eauto. done.
    + destruct (normalizes make_record year headers rows).
      * destruct (proj1 Hr eq_refl). discriminate.
      * unfold with_records, send. simpl. by rewrite app_nil_r.
  - unfold send. simpl. by rewrite !app_nil_r.
Qed.

(** A run of the loop over the years. *)
Lemma years_loop_spec (years : list Z) :
  forall w : world R,
    foldl (year_step R fetch make_record) w years
    = world_app w
        (World (concat ((fun y => (fetch y).2) <$> years))
               (filter (fun y => year_succeeds fetch make_record y = true) years)
               (concat (year_records fetch make_record <$> years))).
Proof.
  induction years as [|y years IH]; intros w.
  - unfold world_app. simpl. rewrite !app_nil_r. by destruct w.
  - cbn [foldl]. rewrite IH, year_step_spec. unfold world_app. simpl.
    rewrite filter_cons, <- !app_assoc.
    by destruct (year_succeeds fetch make_record y).
Qed.

Lemma state_level_run_spec (state : option Z) (current_year : Z) :
  let years := range (load_last_year state + 1) current_year in
  state_level_run R fetch make_record state current_year
  = World (concat ((fun y => (fetch y).2) <$> years))
          (filter (fun y => year_succeeds fetch make_record y = true) years)
          (concat (year_records fetch make_record <$> years)).
Proof.
  intros years. unfold state_level_run. fold years.
  by rewrite years_loop_spec.
Qed.

End StateLevelFacts.

(** ** [process_acs]: a year adds to the world it finds *)

Section WorldFacts.

Import TimeSeries.

Context {R : Type}.

Lemma world_app_start_r (w : world R) : world_app w start = w.
Proof. unfold world_app. simpl. rewrite !app_nil_r. by destruct w. Qed.

Lemma world_app_start_l (w : world R) : world_app start w = w.
Proof. unfold world_app. simpl. by destruct w. Qed.

Lemma world_app_assoc (a b c : world R) :
  world_app (world_app a b) c = world_app a (world_app b c).
Proof. unfold world_app. simpl. by rewrite <- !app_assoc. Qed.

(** A loop whose body only appends, only appends. *)
Lemma for_each_appends {A B : Type} (body : A -> list B -> res unit * list B) (l : list A) :
  (forall x s, body x s = ((body x []).1, s ++ (body x []).2)) ->
  forall s, for_each body l s = ((for_each body l []).1, s ++ (for_each body l []).2).
Proof.
  intros Hbody. induction l as [|x l IH]; intros s.
  - simpl. by rewrite app_nil_r.
  - cbn [for_each]. rewrite (Hbody x s).
    destruct (body x []) as [[u|e] new]; simpl.
    + rewrite (IH (s ++ new)), (IH new). simpl. by rewrite app_assoc.
    + done.
Qed.

End WorldFacts.

Section ThroughFirst.

Context {A : Type} (stops : A -> bool).

Lemma through_first_app (before : list A) (x : A) (after : list A) :
  Forall (fun y => stops y = false) before -> stops x = true ->
  through_first stops (before ++ x :: after) = before ++ [x].
Proof.
  intros Hbefore Hx. induction Hbefore as [|y before Hy _ IH]; simpl.
  - by rewrite Hx.
  - by rewrite Hy, IH.
Qed.

Lemma through_first_all (l : list A) :
  Forall (fun y => stops y = false) l -> through_first stops l = l.
Proof.
  induction 1 as [|y l Hy _ IH]; simpl; [done|]. by rewrite Hy, IH.
Qed.

End ThroughFirst.

Section AcsFacts.

Import TimeSeries.

Context {F : Type}.
Variable py_float : string -> option F.
Variable float_error : string -> string.
Variable get : request -> res body.

#[local] Abbreviation loop := (tables_loop F py_float float_error get).
#[local] Abbreviation one_table := (table_body F py_float float_error get).
#[local] Abbreviation step := (acs_year_step F py_float float_error get).
#[local] Abbreviation alone := (acs_year_run py_float float_error get).

Lemma item_step_appends (year : Z) (table : string * string)
    (row_dict : list (cell * cell)) (kv : cell * cell) (records : list (acs_record F)) :
  item_step F py_float float_error year table row_dict kv records
  = ((item_step F py_float float_error year table row_dict kv []).1,
     records ++ (item_step F py_float float_error year table row_dict kv []).2).
Proof.
  unfold item_step. destruct kv.1 as [key|]; [|by rewrite app_nil_r].
  destruct (startswith key table.1 && endswith key "E"); [|by rewrite app_nil_r].
  destruct (measure F py_float float_error "-" kv.2); simpl; [done|by rewrite app_nil_r].
Qed.

Lemma acs_row_step_appends (year : Z) (table : string * string) (headers row : list cell)
    (records : list (acs_record F)) :
  acs_row_step F py_float float_error year table headers row records
  = ((acs_row_step F py_float float_error year table headers row []).1,
     records ++ (acs_row_step F py_float float_error year table headers row []).2).
Proof.
  unfold acs_row_step.
  destruct (decide (length row = length headers)); [|by rewrite app_nil_r].
  apply for_each_appends. intros kv s. apply item_step_appends.
Qed.

Lemma table_body_appends (year : Z) (table : string * string) (w : world (acs_record F)) :
  one_table year table w
  = ((one_table year table start).1, world_app w (one_table year table start).2).
Proof.
  unfold TimeSeries.table_body, fetch_acs_data, world_app, send, with_records. simpl.
  destruct (get (AcsGroup year table.1)) as [data|e]; simpl; [|by rewrite !app_nil_r].
  destruct (usable data) as [[headers rows]|]; simpl; [|by rewrite !app_nil_r].
  rewrite (for_each_appends _ rows (acs_row_step_appends year table headers) (all_records w)).
  destruct (for_each _ rows []) as [r records]. simpl. by rewrite !app_nil_r.
Qed.

Lemma tables_loop_appends (year : Z) (tables : list (string * string)) :
  forall w : world (acs_record F),
    loop year tables w = world_app w (loop year tables start).
Proof.
  induction tables as [|table tables IH]; intros w.
  - simpl. by rewrite world_app_start_r.
  - cbn [TimeSeries.tables_loop]. rewrite (table_body_appends year table w).
    destruct (one_table year table start) as [[u|e] w1]; simpl.
    + rewrite (IH (world_app w w1)), (IH w1). by rewrite world_app_assoc.
    + destruct (contains "404" (str e)); [done|].
      rewrite (IH (world_app w w1)), (IH w1). by rewrite world_app_assoc.
Qed.

(** The tables of a year hand nothing to [save_state]. *)
Lemma table_body_saved (year : Z) (table : string * string) (w : world (acs_record F)) :
  saved (one_table year table w).2 = saved w
  /\ requests (one_table year table w).2 = requests w ++ [AcsGroup year table.1].
Proof.
  unfold TimeSeries.table_body, fetch_acs_data.
  destruct (get (AcsGroup year table.1)) as [data|e]; simpl; [|done].
  destruct (usable data) as [[headers rows]|]; simpl; [|done].
  by destruct (for_each _ rows _).
Qed.

Lemma tables_loop_saved (year : Z) (tables : list (string * string)) :
  forall w : world (acs_record F), saved (loop year tables w) = saved w.
Proof.
  induction tables as [|table tables IH]; intros w; [done|].
  cbn [TimeSeries.tables_loop].
  pose proof (table_body_saved year table w) as [Hs _].
  destruct (one_table year table w) as [[u|e] w1]; simpl in *.
  - by rewrite IH.
  - destruct (contains "404" (str e)); [done|]. by rewrite IH.
Qed.

(** The first table of a year is always requested. *)
Lemma tables_loop_first_request (year : Z) (first : string * string)
    (tables : list (string * string)) :
  AcsGroup year first.1 ∈ requests (loop year (first :: tables) start).
Proof.
  cbn [TimeSeries.tables_loop].
  pose proof (table_body_saved year first start) as [_ Hr].
  destruct (one_table year first start) as [[u|e] w1]; simpl in Hr.
  - rewrite tables_loop_appends. unfold world_app. simpl. rewrite Hr.
    apply elem_of_app. left. by left.
  - destruct (contains "404" (str e)).
    + rewrite Hr. by left.
    + rewrite tables_loop_appends. unfold world_app. simpl. rewrite Hr.
      apply elem_of_app. left. by left.
Qed.

Lemma acs_year_first_request (year : Z) :
  AcsGroup year "B01003" ∈ requests (alone year).
Proof.
  unfold acs_year_run, ACS_TABLES.
  apply (tables_loop_first_request year ("B01003", "Total Population")).
Qed.

(** A 404 on the first table ends the tables of the year. *)
Lemma acs_year_404 (year : Z) (e : exn) :
  get (AcsGroup year "B01003") = Raise e -> contains "404" (str e) = true ->
  alone year = World [AcsGroup year "B01003"] [] [].
Proof.
  intros Hget H404. unfold acs_year_run.
  unfold ACS_TABLES. cbn [TimeSeries.tables_loop].
  unfold TimeSeries.table_body, fetch_acs_data. simpl. rewrite Hget, H404. done.
Qed.

(** A request that raises ends the tables of the year exactly when the
    text of its exception contains ["404"]. *)
Lemma table_breaks_raise (year : Z) (table : string * string) (e : exn) :
  get (AcsGroup year table.1) = Raise e ->
  table_breaks py_float float_error get year table = contains "404" (str e).
Proof.
  intros Hget. unfold table_breaks, TimeSeries.table_body, fetch_acs_data.
  by rewrite Hget.
Qed.

(** The tables requested in a year are the tables up to the first one
    that breaks, that one included. *)
Lemma tables_loop_through (year : Z) (tables : list (string * string)) :
  forall w : world (acs_record F),
    requests (loop year tables w)
    = requests w
      ++ (AcsGroup year
          <$> (through_first (table_breaks py_float float_error get year) tables).*1).
Proof.
  induction tables as [|table tables IH]; intros w.
  - simpl. by rewrite app_nil_r.
  - cbn [TimeSeries.tables_loop through_first].
    rewrite (table_body_appends year table w). unfold table_breaks at 1.
    pose proof (table_body_saved year table start) as [_ Hr].
    destruct (one_table year table start) as [[u|e] w1]; simpl in Hr; simpl.
    + rewrite IH. simpl. rewrite Hr. simpl. by rewrite <- app_assoc.
    + destruct (contains "404" (str e)); simpl.
      * by rewrite Hr.
      * rewrite IH. simpl. rewrite Hr. simpl. by rewrite <- app_assoc.
Qed.

Lemma acs_year_through (year : Z) :
  requests (alone year)
  = AcsGroup year
    <$> (through_first (table_breaks py_float float_error get year) ACS_TABLES).*1.
Proof. unfold acs_year_run. by rewrite tables_loop_through. Qed.

Lemma acs_year_step_spec (w : world (acs_record F)) (year : Z) :
  step w year
  = world_app w (World (requests (alone year))
                       (match all_records w ++ all_records (alone year) with
                        | [] => []
                        | _ :: _ => [year]
                        end)
                       (all_records (alone year))).
Proof.
  unfold TimeSeries.acs_year_step. rewrite tables_loop_appends.
  fold (alone year).
  pose proof (tables_loop_saved year ACS_TABLES start) as Hs.
  fold (alone year) in Hs. simpl in Hs.
  unfold world_app, save_state. simpl. rewrite Hs, app_nil_r.
  destruct (all_records w ++ all_records (alone year)); simpl; [|done].
  by rewrite app_nil_r.
Qed.

(** The requests and the records of a run are those of its years; a year
    is saved when the table is not empty once the year is over. *)
Lemma acs_years_loop_spec (years : list Z) :
  forall w : world (acs_record F),
    requests (foldl step w years)
    = requests w ++ concat ((fun y => requests (alone y)) <$> years)
    /\ all_records (foldl step w years)
       = all_records w ++ concat ((fun y => all_records (alone y)) <$> years)
    /\ (Forall (fun y => all_records (alone y) <> []) years ->
        saved (foldl step w years) = saved w ++ years).
Proof.
  induction years as [|y years IH]; intros w.
  - simpl. rewrite !app_nil_r. done.
  - cbn [foldl]. destruct (IH (step w y)) as (Hr & Ha & Hs).
    split; [|split].
    + rewrite Hr, acs_year_step_spec. unfold world_app. simpl.
      by rewrite <- app_assoc.
    + rewrite Ha, acs_year_step_spec. unfold world_app. simpl.
      by rewrite <- app_assoc.
    + intros Hall. inversion Hall as [|? ? Hy Hrest]; subst.
      rewrite Hs by done. rewrite acs_year_step_spec. unfold world_app. simpl.
      destruct (all_records w ++ all_records (alone y)) eqn:E.
      * apply app_eq_nil in E as [_ E]. done.
      * by rewrite <- app_assoc.
Qed.

End AcsFacts.

(** ** Time-series fetchers: the watermark *)

Section RunFacts.

Import TimeSeries.

Lemma range_last (lo hi : Z) : lo < hi -> last (range lo hi) = Some (hi - 1).
Proof.
  intros Hlt. unfold range. rewrite last_lookup, length_seqZ.
  rewrite lookup_seqZ_lt by lia. f_equal. lia.
Qed.

Lemma elem_of_range (lo hi y : Z) : y ∈ range lo hi <-> lo <= y < hi.
Proof. unfold range. rewrite elem_of_seqZ. lia. Qed.

Lemma elem_of_concat_fmap {A B : Type} (f : A -> list B) (l : list A) (x : A) (y : B) :
  x ∈ l -> y ∈ f x -> y ∈ concat (f <$> l).
Proof.
  induction l as [|a l IH]; [by intros ?%elem_of_nil|].
  rewrite fmap_cons. simpl. intros [->|Hin]%elem_of_cons Hy; apply elem_of_app; auto.
Qed.

Context {R : Type}.
Variable fetch : Z -> option body * list request.
Variable make_record : Z -> gmap cell cell -> res R.

Lemma normalizes_app (year : Z) (headers : list cell) (rows rows' : list (list cell)) :
  normalizes make_record year headers (rows ++ rows')
  = normalizes make_record year headers rows && normalizes make_record year headers rows'.
Proof. unfold normalizes. apply forallb_app. Qed.

(** The rows before the first failure all leave their record. *)
Lemma normalized_prefix (year : Z) (headers : list cell) (rows rest : list (list cell))
    (row : list cell) (r : R) :
  normalizes make_record year headers rows = true ->
  row ∈ rows -> length row = length headers ->
  make_record year (dict_of (zip headers row)) = Ok r ->
  r ∈ normalized make_record year headers (rows ++ rest).
Proof.
  induction rows as [|x rows IH]; [by intros _ ?%elem_of_nil|].
  cbn [normalizes forallb normalized app]. intros [Hx Hrows]%andb_true_iff Hin Hlen Hr.
  apply elem_of_cons in Hin as [->|Hin].
  - unfold record_of_row. rewrite decide_True by done. rewrite Hr. by left.
  - destruct (record_of_row make_record year headers x) as [[rx|e]|]; [|done|].
    + right. by apply IH.
    + by apply IH.
Qed.

Variable first_request : Z -> request.
Hypothesis fetch_first : forall y, first_request y ∈ (fetch y).2.

(** The run of a state-level fetcher: every year is requested, the years
    handed to [save_state] are those that succeed, and the records are
    those of the years. *)
Lemma state_level_watermark (state : option Z) (current_year : Z) :
  let years := range (load_last_year state + 1) current_year in
  let w := state_level_run R fetch make_record state current_year in
  (forall y, y ∈ years -> first_request y ∈ requests w)
  /\ saved w = filter (fun y => year_succeeds fetch make_record y = true) years
  /\ ((forall y, y ∈ years -> year_succeeds fetch make_record y = true) ->
      load_last_year state + 1 < current_year ->
      last_year_processed state w = Some (current_year - 1)).
Proof.
  intros years w. unfold w. rewrite state_level_run_spec. fold years. simpl.
  split; [|split; [done|]].
  - intros y Hy. by eapply elem_of_concat_fmap.
  - intros Hall Hlt. unfold last_year_processed. simpl.
    rewrite filter_all by done. unfold years. by rewrite range_last.
Qed.

End RunFacts.

Section FetchFacts.

Import TimeSeries.

Variable get : request -> res body.

Lemma fetch_population_first (y : Z) :
  PepPopulation y ∈ (fetch_population_estimates get y).2.
Proof.
  unfold fetch_population_estimates.
  destruct (get (PepPopulation y)); [by left|].
  destruct (get (PepCharAgeGroups y)); by left.
Qed.

Lemma fetch_saipe_first (y : Z) :
  SaipeTimeseries y ∈ (fetch_saipe_data get y).2.
Proof.
  unfold fetch_saipe_data.
  destruct (get (SaipeTimeseries y)); [by left|].
  destruct (get (SaipeYear y)); by left.
Qed.

End FetchFacts.

(** C1 (amended).  A run of [process_population] or [process_poverty]
    requests every year of its range, whatever happened to the years
    before; [save_state] receives exactly the years that are processed
    successfully (the fetch gives a header row and at least one more row,
    and the rows normalize), in order, so the persisted
    [last_year_processed] is the last such year, and it is Yn when all the
    years Y1 < ... < Yn of the range succeed.  A year whose two endpoints
    both fail, with a 404 or anything else, is not saved, and the run goes
    on to the next year.  A run of [process_acs] requests every year of
    its range too, one year after the other.  In a year the tables
    requested are the tables of [ACS_TABLES] up to the first one whose
    [try] block raises an exception whose text contains ["404"], that one
    included: such a failure, at the first table or at a later one, ends
    that year's remaining tables and nothing else, and a request that
    fails in another way ends nothing.  When every year of the range
    gives at least one record the persisted [last_year_processed] is
    Yn. *)
Theorem watermark_after_run :
  forall (F : Type) (py_float : string -> option F) (float_error : string -> string)
         (get : TimeSeries.request -> res TimeSeries.body)
         (state : option Z) (current_year : Z),
    let first_year := TimeSeries.load_last_year state + 1 in
    (let years := range first_year current_year in
     let w := TimeSeries.process_population F py_float float_error get state current_year in
     let ok := year_succeeds (TimeSeries.fetch_population_estimates get)
                             (TimeSeries.population_of_row F py_float float_error) in
     (forall y, y ∈ years -> TimeSeries.PepPopulation y ∈ TimeSeries.requests w)
     /\ TimeSeries.saved w = filter (fun y => ok y = true) years
     /\ (forall y e e',
           get (TimeSeries.PepPopulation y) = Raise e ->
           get (TimeSeries.PepCharAgeGroups y) = Raise e' -> ok y = false)
     /\ ((forall y, y ∈ years -> ok y = true) -> first_year < current_year ->
         TimeSeries.last_year_processed state w = Some (current_year - 1)))
    /\ (let years := range first_year current_year in
        let w := TimeSeries.process_poverty F py_float float_error get state current_year in
        let ok := year_succeeds (TimeSeries.fetch_saipe_data get)
                                (TimeSeries.poverty_of_row F py_float float_error) in
        (forall y, y ∈ years -> TimeSeries.SaipeTimeseries y ∈ TimeSeries.requests w)
        /\ TimeSeries.saved w = filter (fun y => ok y = true) years
        /\ (forall y e e',
              get (TimeSeries.SaipeTimeseries y) = Raise e ->
              get (TimeSeries.SaipeYear y) = Raise e' -> ok y = false)
        /\ ((forall y, y ∈ years -> ok y = true) -> first_year < current_year ->
            TimeSeries.last_year_processed state w = Some (current_year - 1)))
    /\ (let years := range first_year (current_year - 1) in
        let w := TimeSeries.process_acs F py_float float_error get state current_year in
        (forall y, y ∈ years -> TimeSeries.AcsGroup y "B01003" ∈ TimeSeries.requests w)
        /\ (forall y e,
              get (TimeSeries.AcsGroup y "B01003") = Raise e ->
              contains "404" (str e) = true ->
              TimeSeries.requests (acs_year_run py_float float_error get y)
              = [TimeSeries.AcsGroup y "B01003"])
        /\ TimeSeries.requests w
           = concat ((fun y => TimeSeries.requests (acs_year_run py_float float_error get y))
                     <$> years)
        /\ (forall y,
              TimeSeries.requests (acs_year_run py_float float_error get y)
              = TimeSeries.AcsGroup y
                <$> (through_first (table_breaks py_float float_error get y)
                       TimeSeries.ACS_TABLES).*1)
        /\ (forall y before table after e,
              TimeSeries.ACS_TABLES = before ++ table :: after ->
              Forall (fun t => table_breaks py_float float_error get y t = false) before ->
              get (TimeSeries.AcsGroup y table.1) = Raise e ->
              contains "404" (str e) = true ->
              TimeSeries.requests (acs_year_run py_float float_error get y)
              = TimeSeries.AcsGroup y <$> (before ++ [table]).*1)
        /\ (forall y table e,
              get (TimeSeries.AcsGroup y table.1) = Raise e ->
              table_breaks py_float float_error get y table = contains "404" (str e))
        /\ ((forall y, y ∈ years ->
                       TimeSeries.all_records (acs_year_run py_float float_error get y) <> []) ->
            first_year < current_year - 1 ->
            TimeSeries.last_year_processed state w = Some (current_year - 2))).
Proof.
  intros F py_float float_error get state current_year first_year.
  split; [|split].
  - destruct (state_level_watermark (TimeSeries.fetch_population_estimates get)
                (TimeSeries.population_of_row F py_float float_error)
                TimeSeries.PepPopulation (fetch_population_first get)
                state current_year) as (Hreq & Hsaved & Hall).
    split; [exact Hreq|]. split; [exact Hsaved|]. split; [|exact Hall].
    intros y e e' He He'.
    unfold year_succeeds, TimeSeries.fetch_population_estimates.
    by rewrite He, He'.
  - destruct (state_level_watermark (TimeSeries.fetch_saipe_data get)
                (TimeSeries.poverty_of_row F py_float float_error)
                TimeSeries.SaipeTimeseries (fetch_saipe_first get)
                state current_year) as (Hreq & Hsaved & Hall).
    split; [exact Hreq|]. split; [exact Hsaved|]. split; [|exact Hall].
    intros y e e' He He'.
    unfold year_succeeds, TimeSeries.fetch_saipe_data.
    by rewrite He, He'.
  - intros years w.
    destruct (acs_years_loop_spec py_float float_error get years TimeSeries.start)
      as (Hreq & _ & Hsaved).
    subst w. unfold TimeSeries.process_acs. fold first_year. fold years.
    split; [|split; [|split; [|split; [|split; [|split]]]]].
    + intros y Hy. rewrite Hreq. simpl.
      eapply elem_of_concat_fmap; [exact Hy|]. apply acs_year_first_request.
    + intros y e He H404. by rewrite (acs_year_404 py_float float_error get y e).
    + by rewrite Hreq.
    + intros y. apply acs_year_through.
    + intros y before table after e Htables Hbefore He H404.
      rewrite acs_year_through, Htables. f_equal. f_equal.
      apply through_first_app; [exact Hbefore|].
      by rewrite (table_breaks_raise py_float float_error get y table e He).
    + intros y table e He. by apply table_breaks_raise.
    + intros Hall Hlt. unfold TimeSeries.last_year_processed.
      rewrite Hsaved by (by apply Forall_forall). simpl.
      unfold years. rewrite range_last by done. f_equal. lia.
Qed.

Lemma watermark_after_run_witness :
  TimeSeries.last_year_processed None
    (TimeSeries.process_population Decimal.decimal Decimal.float_of_decimal
       Decimal.float_error Examples.transport_all None 2022) = Some 2021
  /\ TimeSeries.last_year_processed None
       (TimeSeries.process_poverty Decimal.decimal Decimal.float_of_decimal
          Decimal.float_error Examples.transport_all None 2022) = Some 2021
  /\ TimeSeries.last_year_processed None
       (TimeSeries.process_acs Decimal.decimal Decimal.float_of_decimal
          Decimal.float_error Examples.transport_all None 2022) = Some 2020
  /\ TimeSeries.requests
       (acs_year_run Decimal.float_of_decimal Decimal.float_error
          Examples.transport_third_table_missing 2019)
     = [ TimeSeries.AcsGroup 2019 "B01003"; TimeSeries.AcsGroup 2019 "B25001";
         TimeSeries.AcsGroup 2019 "B19013" ].
Proof.
  destruct (watermark_after_run Decimal.decimal Decimal.float_of_decimal
              Decimal.float_error Examples.transport_all None 2022)
    as ((_ & _ & _ & Hpop) & (_ & _ & _ & Hpov) & (_ & _ & _ & _ & _ & _ & Hacs)).
  destruct (watermark_after_run Decimal.decimal Decimal.float_of_decimal
              Decimal.float_error Examples.transport_third_table_missing None 2022)
    as (_ & _ & (_ & _ & _ & _ & Hbreak & _)).
  split; [|split; [|split]]; [| | |
    apply (Hbreak 2019
             [("B01003", "Total Population"); ("B25001", "Housing Units")]
             ("B19013", "Median Household Income")
             [("B15003", "Educational Attainment"); ("B08303", "Travel Time to Work")]
             Examples.not_found);
    [reflexivity|repeat constructor|reflexivity|reflexivity] ].
  - apply Hpop; [|reflexivity].
    intros y Hy. apply elem_of_range in Hy. change (2019 <= y < 2022) in Hy.
    assert (y = 2019 \/ y = 2020 \/ y = 2021) as [-> | [-> | ->]] by lia; reflexivity.
  - apply Hpov; [|reflexivity].
    intros y Hy. apply elem_of_range in Hy. change (2019 <= y < 2022) in Hy.
    assert (y = 2019 \/ y = 2020 \/ y = 2021) as [-> | [-> | ->]] by lia; reflexivity.
  - apply Hacs; [|reflexivity].
    intros y Hy. apply elem_of_range in Hy. change (2019 <= y < 2021) in Hy.
    assert (y = 2019 \/ y = 2020) as [-> | ->] by lia; discriminate.
Defined.

(** C1, as stated, fails.  The year 2020 is answered 404 on every
    endpoint.  [process_population], run for 2019 to 2021, still requests
    2021 and leaves the watermark at 2021, not at 2019; [process_acs], run
    for 2019 to 2021, still requests 2021 and leaves the watermark at
    2021. *)
Lemma watermark_passes_missing_year :
  Examples.transport_gap (TimeSeries.PepPopulation 2020) = Raise Examples.not_found
  /\ Examples.transport_gap (TimeSeries.PepCharAgeGroups 2020) = Raise Examples.not_found
  /\ Examples.transport_gap (TimeSeries.AcsGroup 2020 "B01003") = Raise Examples.not_found
  /\ contains "404" (str Examples.not_found) = true
  /\ (let w := TimeSeries.process_population Decimal.decimal Decimal.float_of_decimal
                 Decimal.float_error Examples.transport_gap None 2022 in
      TimeSeries.saved w = [2019; 2021]
      /\ TimeSeries.last_year_processed None w = Some 2021
      /\ TimeSeries.PepPopulation 2021 ∈ TimeSeries.requests w)
  /\ (let w := TimeSeries.process_acs Decimal.decimal Decimal.float_of_decimal
                 Decimal.float_error Examples.transport_gap None 2023 in
      TimeSeries.last_year_processed None w = Some 2021
      /\ TimeSeries.AcsGroup 2021 "B01003" ∈ TimeSeries.requests w).
Proof.
  repeat split; try reflexivity.
  - vm_compute. do 3 right. left.
  - vm_compute. do 6 right. left.
Qed.

Section PovertyFacts.

Import TimeSeries.

Context {F : Type}.
Variable py_float : string -> option F.
Variable float_error : string -> string.
Variable get : request -> res body.

Lemma year_after_state (state : option Z) (current_year year : Z) :
  year ∈ range (load_last_year state + 1) current_year -> state <> Some year.
Proof.
  intros Hy%elem_of_range ->. unfold load_last_year in Hy. simpl in Hy. lia.
Qed.

End PovertyFacts.

(** C10.  A year of [process_poverty] is not processed atomically.  When
    the rows of the year's response normalize up to some row, and that row
    raises (as a cell ["-"] does: it is not the sentinel ["."], and
    [float] refuses it), the records of the rows before it are in the
    table returned, [save_state] never receives the year, and
    [last_year_processed] is not that year once the run is over. *)
Theorem poverty_year_not_atomic :
  forall (F : Type) (py_float : string -> option F) (float_error : string -> string)
         (get : TimeSeries.request -> res TimeSeries.body)
         (state : option Z) (current_year year : Z)
         (headers : list cell) (rows_before : list (list cell)) (bad : list cell)
         (rows_after : list (list cell)) (e : exn),
    year ∈ range (TimeSeries.load_last_year state + 1) current_year ->
    (TimeSeries.fetch_saipe_data get year).1
    = Some (headers :: rows_before ++ bad :: rows_after) ->
    normalizes (TimeSeries.poverty_of_row F py_float float_error) year headers rows_before
    = true ->
    length bad = length headers ->
    TimeSeries.poverty_of_row F py_float float_error year (dict_of (zip headers bad))
    = Raise e ->
    let w := TimeSeries.process_poverty F py_float float_error get state current_year in
    (forall row r,
       row ∈ rows_before -> length row = length headers ->
       TimeSeries.poverty_of_row F py_float float_error year (dict_of (zip headers row))
       = Ok r ->
       r ∈ TimeSeries.all_records w)
    /\ (year ∉ TimeSeries.saved w)
    /\ TimeSeries.last_year_processed state w <> Some year.
Proof.
  intros F py_float float_error get state current_year year headers rows_before bad
    rows_after e Hyear Hfetch Hbefore Hlen Hbad w.
  unfold w, TimeSeries.process_poverty. rewrite state_level_run_spec. simpl.
  assert (TimeSeries.usable (default [] (TimeSeries.fetch_saipe_data get year).1)
          = Some (headers, rows_before ++ bad :: rows_after)) as Husable.
  { rewrite Hfetch. simpl. by destruct rows_before. }
  assert (year ∉ filter
            (fun y => year_succeeds (TimeSeries.fetch_saipe_data get)
                        (TimeSeries.poverty_of_row F py_float float_error) y = true)
            (range (TimeSeries.load_last_year state + 1) current_year)) as Hsaved.
  { intros [Hok _]%list_elem_of_filter. unfold year_succeeds in Hok.
    rewrite Husable, normalizes_app, Hbefore in Hok. simpl in Hok.
    unfold record_of_row in Hok. rewrite decide_True in Hok by done.
    rewrite Hbad in Hok. discriminate. }
  split; [|split; [exact Hsaved|]].
  - intros row r Hrow Hrowlen Hr.
    eapply elem_of_concat_fmap; [exact Hyear|].
    unfold year_records. rewrite Husable.
    by apply (normalized_prefix _ year headers rows_before _ row r).
  - unfold TimeSeries.last_year_processed. simpl.
    destruct (last _) as [y|] eqn:Hlast.
    + intros [= ->]. apply Hsaved.
      apply list_elem_of_lookup. rewrite last_lookup in Hlast. eauto.
    + by eapply year_after_state.
Qed.

Lemma poverty_year_not_atomic_witness :
  let w := TimeSeries.process_poverty Decimal.decimal Decimal.float_of_decimal
             Decimal.float_error Examples.transport_dash None 2020 in
  TimeSeries.PovertyRecord Decimal.decimal 2019 "saipe" (Some "01") (Some "Alabama")
    (Some (Decimal.Dec 159 1)) (Some (Decimal.Dec 52000 0))
  ∈ TimeSeries.all_records w
  /\ (2019 ∉ TimeSeries.saved w)
  /\ TimeSeries.last_year_processed None w <> Some 2019.
Proof.
  destruct (poverty_year_not_atomic Decimal.decimal Decimal.float_of_decimal
              Decimal.float_error Examples.transport_dash None 2020 2019
              [Some "NAME"; Some "SAEPOVRTALL_PT"; Some "SAEMHI_PT"; Some "state"]
              [[Some "Alabama"; Some "15.9"; Some "52000"; Some "01"]]
              [Some "Alaska"; Some "-"; Some "77000"; Some "02"]
              [[Some "Arizona"; Some "13.5"; Some "62000"; Some "04"]]
              (Exn ValueError (Decimal.float_error "-")))
    as (Hrecords & Hsaved & Hlast).
  - apply elem_of_range. change (2019 <= 2019 < 2020). lia.
  - reflexivity.
  - reflexivity.
  - reflexivity.
  - reflexivity.
  - split; [|split; [exact Hsaved|exact Hlast]].
    apply (Hrecords [Some "Alabama"; Some "15.9"; Some "52000"; Some "01"]).
    + by left.
    + reflexivity.
    + reflexivity.
Defined.

(** * Further properties *)

(** ** [parse_api_response]: the index of the header row, the fields and
       the number of the records *)

(** X1.  The index built from the header row sends a header to the last
    column that carries it, and to nothing else: [header_idx[h] = i]
    exactly when column [i] carries [h] and no later column does. *)
Theorem header_index_last_column :
  forall (headers : list cell) (h : cell) (i : nat),
    DataFetcher.header_index headers !! h = Some i
    <-> headers !! i = Some h
        /\ forall j : nat, (i < j)%nat -> headers !! j <> Some h.
Proof.
  induction headers as [|x headers IH] using rev_ind; intros h i.
  - split; [done|]. by intros [? _].
  - rewrite header_index_snoc. destruct (decide (x = h)) as [->|Hne].
    + rewrite lookup_insert_eq. split.
      * intros [= <-]. split.
        -- rewrite lookup_app_r by done. by rewrite Nat.sub_diag.
        -- intros j Hj. rewrite lookup_ge_None_2; [done|].
           rewrite length_app. simpl. lia.
      * intros [Hi Hlast]. f_equal.
        pose proof (lookup_lt_Some _ _ _ Hi) as Hlt.
        rewrite length_app in Hlt. simpl in Hlt.
        destruct (decide (i = length headers)) as [->|Hi']; [done|].
        exfalso. apply (Hlast (length headers)); [lia|].
        rewrite lookup_app_r by done. by rewrite Nat.sub_diag.
    + rewrite lookup_insert_ne by done. rewrite IH. split.
      * intros [Hi Hlast]. pose proof (lookup_lt_Some _ _ _ Hi) as Hlt. split.
        -- by rewrite lookup_app_l.
        -- intros j Hj.
           destruct (decide (j < length headers)%nat) as [Hjl|Hjl].
           ++ rewrite lookup_app_l by done. by apply Hlast.
           ++ rewrite lookup_app_r by lia.
              destruct (j - length headers)%nat as [|k]; simpl; [congruence|].
              by rewrite lookup_nil.
      * intros [Hi Hlast].
        assert (i < length headers)%nat as Hlt.
        { pose proof (lookup_lt_Some _ _ _ Hi) as Hlt.
          rewrite length_app in Hlt. simpl in Hlt.
          destruct (decide (i = length headers)) as [->|Hi']; [|lia].
          rewrite lookup_app_r, Nat.sub_diag in Hi by done. simpl in Hi. congruence. }
        rewrite lookup_app_l in Hi by done. split; [done|].
        intros j Hj Hjh. apply (Hlast j Hj).
        rewrite lookup_app_l; [done|]. by eapply lookup_lt_Some.
Qed.

Section ParseMore.

Import DataFetcher.

Context {F : Type} (py_float : string -> option F).

Lemma identifier_of_Ok (headers row : list cell) (name : string) (field : option cell) :
  identifier_of (header_index headers) row name = Ok field ->
  identifier_from headers row name field.
Proof.
  unfold identifier_of, identifier_from.
  destruct (header_index headers !! Some name) as [i|].
  - destruct (index row i) as [c|] eqn:Hc; simpl; [|discriminate].
    intros [= <-]. apply index_Ok in Hc. eauto.
  - by intros [= <-].
Qed.

Lemma row_records_fields (headers : list cell) (dataset_info : dataset)
    (variable_map : list (string * variable_row)) (row : list cell)
    (records : list (observation F)) :
  row_records F py_float (header_index headers) dataset_info variable_map row = Ok records ->
  length records
  = length (filter (fun kv => is_Some (header_index headers !! Some kv.1)) variable_map)
  /\ Forall (fun r =>
               obs_dataset_type F r = dataset_type dataset_info
               /\ obs_vintage F r = vintage dataset_info
               /\ (exists info, (variable F r, info) ∈ variable_map
                                /\ label F r = var_label info)
               /\ identifier_from headers row "state" (state_fips F r)
               /\ identifier_from headers row "county" (county_fips F r)
               /\ identifier_from headers row "place" (place_fips F r))
            records.
Proof.
  unfold row_records.
  destruct (index row _) as [name|]; simpl; [|discriminate].
  destruct (identifier_of _ _ "state") as [state|] eqn:Hs; simpl; [|discriminate].
  destruct (identifier_of _ _ "county") as [county|] eqn:Hc; simpl; [|discriminate].
  destruct (identifier_of _ _ "place") as [place|] eqn:Hp; simpl; [|discriminate].
  apply identifier_of_Ok in Hs, Hc, Hp.
  intros H. split; [by eapply variable_records_length|].
  apply variable_records_spec in H.
  eapply Forall_impl; [exact H|].
  intros r (n & inf & i & v & Hin & _ & _ & ->). simpl. eauto 10.
Qed.

Lemma identifier_from_cell (headers row : list cell) (name : string)
    (field : option cell) :
  identifier_from headers row name field ->
  field = identifier_cell headers row name
  /\ forall i, header_index headers !! Some name = Some i -> is_Some (row !! i).
Proof.
  unfold identifier_from, identifier_cell, cell_at.
  destruct (header_index headers !! Some name) as [i|]; simpl.
  - intros (c & Hc & ->). rewrite Hc. split; [done|]. intros i' [= <-]. by eexists.
  - intros ->. split; [done|]. discriminate.
Qed.

(** The records of a row carry the identifiers of that row, one record
    for each map variable that is a header. *)
Lemma row_records_identifiers (headers : list cell) (dataset_info : dataset)
    (variable_map : list (string * variable_row)) (row : list cell)
    (records : list (observation F)) :
  row_records F py_float (header_index headers) dataset_info variable_map row = Ok records ->
  (forall name i, name ∈ ["state"; "county"; "place"] ->
                  header_index headers !! Some name = Some i -> is_Some (row !! i))
  /\ (fun r => (state_fips F r, county_fips F r, place_fips F r)) <$> records
     = replicate (length (present_variables headers variable_map))
         (identifier_cell headers row "state",
          identifier_cell headers row "county",
          identifier_cell headers row "place").
Proof.
  unfold row_records.
  destruct (index row _) as [name|]; simpl; [|discriminate].
  destruct (identifier_of _ _ "state") as [state|] eqn:Hs; simpl; [|discriminate].
  destruct (identifier_of _ _ "county") as [county|] eqn:Hc; simpl; [|discriminate].
  destruct (identifier_of _ _ "place") as [place|] eqn:Hp; simpl; [|discriminate].
  apply identifier_of_Ok, identifier_from_cell in Hs as [-> Hs].
  apply identifier_of_Ok, identifier_from_cell in Hc as [-> Hc].
  apply identifier_of_Ok, identifier_from_cell in Hp as [-> Hp].
  intros Hrun. split.
  - intros n i Hn.
    repeat (apply elem_of_cons in Hn as [->|Hn]; [by auto|]).
    by apply elem_of_nil in Hn.
  - rewrite present_variables_index, <- (variable_records_length _ _ _ _ _ _ Hrun).
    apply (fmap_constant (fun r => (state_fips F r, county_fips F r, place_fips F r))).
    apply variable_records_spec in Hrun.
    eapply Forall_impl; [exact Hrun|].
    by intros r (n & inf & i & v & _ & _ & _ & ->).
Qed.

End ParseMore.

(** X2.  Every record of a response carries the type and the vintage of
    the dataset it was fetched for and the label its variable has in the
    variable map.  Its [state_fips], [county_fips] and [place_fips] are the
    cells of its own row under the headers ["state"], ["county"] and
    ["place"]: row by row, in the order of the response, the records of a
    row (one for each variable of the map that is a header) all carry that
    row's three cells, each present exactly when the header row has that
    header. *)
Theorem observation_fields :
  forall (F : Type) (py_float : string -> option F) (headers : list cell)
         (rows : list (list cell)) (dataset_info : DataFetcher.dataset)
         (variable_map : list (string * DataFetcher.variable_row))
         (records : list (DataFetcher.observation F)),
    DataFetcher.parse_api_response F py_float (headers :: rows) dataset_info variable_map
    = Ok records ->
    Forall (fun r =>
              DataFetcher.obs_dataset_type F r = DataFetcher.dataset_type dataset_info
              /\ DataFetcher.obs_vintage F r = DataFetcher.vintage dataset_info
              /\ exists info, (DataFetcher.variable F r, info) ∈ variable_map
                              /\ DataFetcher.label F r = DataFetcher.var_label info)
      records
    /\ (fun r => (DataFetcher.state_fips F r, DataFetcher.county_fips F r,
                  DataFetcher.place_fips F r)) <$> records
       = concat ((fun row =>
                    replicate (length (present_variables headers variable_map))
                      (identifier_cell headers row "state",
                       identifier_cell headers row "county",
                       identifier_cell headers row "place")) <$> rows)
    /\ Forall (fun row =>
                 forall name i,
                   name ∈ ["state"; "county"; "place"] ->
                   DataFetcher.header_index headers !! Some name = Some i ->
                   is_Some (row !! i)) rows
    /\ (forall row name,
          is_Some (identifier_cell headers row name) <-> Some name ∈ headers).
Proof.
  intros F py_float headers rows dataset_info variable_map records Hrun.
  destruct (parse_api_response_rows py_float _ _ _ _ _ Hrun) as (per_row & -> & Hrows).
  split; [|split; [|split]].
  - apply Forall_concat. clear Hrun.
    induction Hrows as [|row rs rows per_row Hrow _ IH]; constructor; [|done].
    apply row_records_fields in Hrow as [_ Hrow].
    eapply Forall_impl; [exact Hrow|]. by intros r (Ht & Hv & Hl & _).
  - apply (fmap_concat_replicate
             (fun r => (DataFetcher.state_fips F r, DataFetcher.county_fips F r,
                        DataFetcher.place_fips F r))
             (fun row => (identifier_cell headers row "state",
                          identifier_cell headers row "county",
                          identifier_cell headers row "place"))).
    eapply Forall2_impl; [exact Hrows|].
    intros row rs Hrs. by apply (row_records_identifiers py_float) in Hrs as [_ Heq].
  - eapply Forall2_Forall_l.
    + eapply Forall2_impl; [exact Hrows|].
      intros row rs Hrs. apply (row_records_identifiers py_float) in Hrs as [Hin _].
      exact Hin.
    + apply Forall_forall. by intros rs _ row Hrow.
  - intros row name. unfold identifier_cell.
    destruct (header_index_lookup headers (Some name)) as [_ Hnone].
    destruct (DataFetcher.header_index headers !! Some name) as [i|] eqn:Hi; simpl.
    + split; [|by eexists]. intros _.
      destruct (decide (Some name ∈ headers)) as [|Hout]; [done|].
      apply Hnone in Hout. discriminate.
    + split; [by intros [? ?]|]. intros Hin. by apply Hnone in Hin.
Qed.

Lemma observation_fields_witness :
  (fun r => (DataFetcher.state_fips _ r, DataFetcher.county_fips _ r,
             DataFetcher.place_fips _ r))
  <$> [Examples.alabama_observation; Examples.georgia_observation]
  = [ (Some (Some "01"), None, None); (Some (Some "13"), None, None) ].
Proof.
  destruct (observation_fields Decimal.decimal Decimal.float_of_decimal
              [Some "NAME"; Some "state"; Some "B01003_001E"]
              [ [Some "Alabama"; Some "01"; Some "5030000"];
                [Some "Georgia"; Some "13"; Some "-"] ]
              Examples.acs_dataset Examples.acs_variable_map
              [Examples.alabama_observation; Examples.georgia_observation]
              eq_refl) as (_ & Hcells & _).
  rewrite Hcells. reflexivity.
Defined.

(** X3.  A response that is parsed gives, for every data row, one record
    per variable of the variable map that is a header of the response:
    the number of records is the number of data rows times the number of
    such variables. *)
Theorem observation_count :
  forall (F : Type) (py_float : string -> option F) (headers : list cell)
         (rows : list (list cell)) (dataset_info : DataFetcher.dataset)
         (variable_map : list (string * DataFetcher.variable_row))
         (records : list (DataFetcher.observation F)),
    DataFetcher.parse_api_response F py_float (headers :: rows) dataset_info variable_map
    = Ok records ->
    length records
    = (length rows * length (filter (fun kv => Some kv.1 ∈ headers) variable_map))%nat.
Proof.
  intros F py_float headers rows dataset_info variable_map records Hrun.
  destruct (parse_api_response_rows py_float _ _ _ _ _ Hrun) as (per_row & -> & Hrows).
  assert (filter (fun kv : string * DataFetcher.variable_row => Some kv.1 ∈ headers)
                 variable_map
          = filter (fun kv => is_Some (DataFetcher.header_index headers !! Some kv.1))
                   variable_map) as ->.
  { apply list_filter_iff. intros kv.
    destruct (header_index_lookup headers (Some kv.1)) as [_ Hnone].
    destruct (DataFetcher.header_index headers !! Some kv.1) as [i|] eqn:Hi.
    - split; [eauto|]. intros _.
      destruct (decide (Some kv.1 ∈ headers)) as [|Hout]; [done|].
      apply Hnone in Hout. discriminate.
    - split; [|by intros [? ?]]. intros Hin. by apply Hnone in Hin. }
  clear Hrun.
  induction Hrows as [|row rs rows per_row Hrow _ IH]; [done|].
  simpl. rewrite length_app, IH.
  apply row_records_fields in Hrow as [-> _]. done.
Qed.

Lemma observation_count_witness :
  length [Examples.alabama_observation; Examples.georgia_observation]
  = (length [ [Some "Alabama"; Some "01"; Some "5030000"];
              [Some "Georgia"; Some "13"; Some "-"] ]
     * length (filter (fun kv : string * DataFetcher.variable_row =>
                         Some kv.1 ∈ [Some "NAME"; Some "state"; Some "B01003_001E"])
                      Examples.acs_variable_map))%nat.
Proof.
  apply (observation_count Decimal.decimal Decimal.float_of_decimal
           [Some "NAME"; Some "state"; Some "B01003_001E"]
           [ [Some "Alabama"; Some "01"; Some "5030000"];
             [Some "Georgia"; Some "13"; Some "-"] ]
           Examples.acs_dataset Examples.acs_variable_map).
  reflexivity.
Defined.

(** ** The selection of [process_data_fetcher]: which dataset of a type *)

Section SelectionMore.

Import DataFetcher.

Lemma datasets_to_process_take (catalog_data : list dataset) :
  datasets_to_process catalog_data
  = take 10 (first_of_each_type (sort_by sort_key catalog_data)).
Proof.
  unfold datasets_to_process.
  rewrite select_loop_spec by (simpl; lia). simpl. do 2 f_equal.
  apply filter_all. intros d _. apply not_elem_of_empty.
Qed.

(** Every type of the list has its first dataset kept. *)
Lemma first_of_each_type_covers (l : list dataset) (d' : dataset) :
  d' ∈ l -> exists d, d ∈ first_of_each_type l /\ dataset_type d = dataset_type d'.
Proof.
  induction l as [|x l IH]; [by intros ?%elem_of_nil|].
  cbn [first_of_each_type]. intros [->|Hin]%elem_of_cons.
  - exists x. split; [by left|done].
  - destruct (IH Hin) as (d & Hd & Ht).
    destruct (decide (dataset_type d = dataset_type x)) as [Hx|Hx].
    + exists x. split; [by left|congruence].
    + exists d. split; [|done]. right. by apply list_elem_of_filter.
Qed.

End SelectionMore.

(** X4.  The dataset selected for a type is the best one of that type in
    the catalog: no dataset of the same type has a smaller priority
    number, and among those of its priority none has a higher vintage (a
    null vintage counted as 0). *)
Theorem selected_is_best_of_type :
  forall (catalog_data : list DataFetcher.dataset) (d d' : DataFetcher.dataset),
    d ∈ DataFetcher.datasets_to_process catalog_data ->
    d' ∈ catalog_data ->
    DataFetcher.dataset_type d' = DataFetcher.dataset_type d ->
    DataFetcher.priority d <= DataFetcher.priority d'
    /\ (DataFetcher.priority d = DataFetcher.priority d' ->
        vintage_or_zero d' <= vintage_or_zero d).
Proof.
  intros catalog_data d d' Hd Hd' Htype.
  rewrite datasets_to_process_take in Hd.
  apply elem_of_take in Hd as (i0 & Hi0 & _).
  apply list_elem_of_lookup_2, first_of_each_type_first in Hi0 as (i & Hi & Hfirst).
  assert (d' ∈ sort_by DataFetcher.sort_key catalog_data) as Hin
    by (by rewrite sort_by_perm).
  apply list_elem_of_lookup in Hin as [j Hj].
  assert (key_lt (DataFetcher.sort_key d') (DataFetcher.sort_key d) = false) as Hle.
  { destruct (decide (j < i)%nat) as [Hlt|Hge].
    { by destruct (Hfirst j d' Hlt Hj). }
    destruct (decide (i = j)) as [->|Hne].
    - rewrite Hi in Hj. injection Hj as ->. apply key_lt_false. lia.
    - apply (sorted_lookup_le DataFetcher.sort_key
               (sort_by DataFetcher.sort_key catalog_data) i j d d');
        [apply sort_by_sorted|done|done|lia]. }
  apply not_true_iff_false in Hle. rewrite sort_key_lt in Hle. lia.
Qed.

Lemma selected_is_best_of_type_witness :
  DataFetcher.priority Examples.row_acs_2021 <= DataFetcher.priority Examples.row_acs_2019
  /\ (DataFetcher.priority Examples.row_acs_2021 = DataFetcher.priority Examples.row_acs_2019 ->
      vintage_or_zero Examples.row_acs_2019 <= vintage_or_zero Examples.row_acs_2021).
Proof.
  apply (selected_is_best_of_type Examples.catalog_table).
  - change (Examples.row_acs_2021
            ∈ [Examples.row_acs_2021; Examples.row_cbp_2020; Examples.row_sahie_2015]).
    left.
  - do 1 right. left.
  - reflexivity.
Defined.

(** X5.  When fewer than 10 datasets are selected, no type of the catalog
    is left out: every dataset of the catalog has its type among the
    selected ones. *)
Theorem selection_covers_every_type :
  forall (catalog_data : list DataFetcher.dataset) (d' : DataFetcher.dataset),
    (length (DataFetcher.datasets_to_process catalog_data) < 10)%nat ->
    d' ∈ catalog_data ->
    exists d, d ∈ DataFetcher.datasets_to_process catalog_data
              /\ DataFetcher.dataset_type d = DataFetcher.dataset_type d'.
Proof.
  intros catalog_data d' Hlen Hd'.
  rewrite datasets_to_process_take in *.
  rewrite length_take in Hlen.
  rewrite take_ge by lia.
  apply first_of_each_type_covers. by rewrite sort_by_perm.
Qed.

Lemma selection_covers_every_type_witness :
  exists d, d ∈ DataFetcher.datasets_to_process Examples.catalog_table
            /\ DataFetcher.dataset_type d = DataFetcher.dataset_type Examples.row_acs_null.
Proof.
  apply (selection_covers_every_type Examples.catalog_table Examples.row_acs_null).
  - change (3 < 10)%nat. lia.
  - do 2 right. left.
Defined.

(** ** Catalog discovery: the first match, the rows, the state saved and
       the ways a run ends *)

Section CatalogMore.

Import Catalog.

Lemma first_pattern_split (table : list (string * priority_info)) (path pattern : string) :
  first_pattern table path = Some pattern ->
  exists before info after,
    table = before ++ (pattern, info) :: after
    /\ contains pattern (lower path) = true
    /\ forall q, q ∈ before.*1 -> contains q (lower path) = false.
Proof.
  induction table as [|[p info] table IH]; simpl; [discriminate|].
  destruct (contains p (lower path)) eqn:E.
  - intros [= <-]. exists [], info, table. split; [done|]. split; [done|].
    by intros q ?%elem_of_nil.
  - intros H. destruct (IH H) as (before & info' & after & -> & Hc & Hbefore).
    exists ((p, info) :: before), info', after. split; [done|]. split; [done|].
    intros q [->|Hq]%elem_of_cons; auto.
Qed.

(** Every key of the table has a priority, 1 or 2. *)
Lemma table_priorities (t : string) :
  In t (fst <$> PRIORITY_DATASETS) ->
  exists info, odict_get t PRIORITY_DATASETS = Some info
               /\ priority_of (Some t) = priority info
               /\ (priority info = 1 \/ priority info = 2).
Proof.
  cbn. intros H.
  repeat (destruct H as [<-|H]; [eexists; repeat split; (by left) || (by right)|]).
  destruct H.
Qed.

Lemma count_types_fold (t : option string) (l : list metadata) :
  forall acc : gmap (option string) nat,
    foldl (fun counts m =>
             <[dataset_type m := (default 0 (counts !! dataset_type m) + 1)%nat]> counts)
          acc l !! t
    = match count_of_type t l with
      | O => acc !! t
      | S n => Some (default 0 (acc !! t) + S n)%nat
      end.
Proof.
  unfold count_of_type.
  induction l as [|m l IH]; intros acc; [done|].
  cbn [foldl]. rewrite IH, filter_cons.
  destruct (decide (dataset_type m = t)) as [->|Hne].
  - rewrite lookup_insert_eq. simpl.
    destruct (length (filter _ l)); f_equal; lia.
  - by rewrite lookup_insert_ne.
Qed.

Lemma sort_key_Raise (x : metadata) (e : exn) :
  sort_key x = Raise e
  <-> e = neg_type_error /\ exists s, vintage x = JStr s /\ s <> "".
Proof.
  unfold sort_key, neg_vintage_or_zero.
  destruct (vintage x) as [|z|s]; simpl.
  - split; [discriminate|]. by intros [_ (s & ? & _)].
  - destruct (negb (z =? 0)); simpl; (split; [discriminate|]); by intros [_ (s & ? & _)].
  - destruct s as [|c s]; simpl.
    + split; [discriminate|]. by intros [_ (s' & [= <-] & ?)].
    + split; [intros [= <-]; eauto|]. by intros [-> _].
Qed.

Lemma sort_datasets_cases (l : list metadata) :
  ((exists x s, x ∈ l /\ vintage x = JStr s /\ s <> "")
   /\ sort_datasets l = Raise neg_type_error)
  \/ ((forall x s, x ∈ l -> vintage x = JStr s -> s = "")
      /\ sort_datasets l = Ok (sort_by key_of l)).
Proof.
  destruct (sort_datasets l) as [sorted|e] eqn:E.
  - right. apply sort_datasets_Ok in E as [-> Hkeys]. split; [|done].
    intros x s Hx Hs. destruct (decide (s = "")) as [|Hne]; [done|]. exfalso.
    rewrite Forall_forall in Hkeys. specialize (Hkeys x Hx).
    assert (sort_key x = Raise neg_type_error) as Hr.
    { apply sort_key_Raise. split; [done|]. by exists s. }
    congruence.
  - left. unfold sort_datasets in E.
    destruct (mapM _ l) as [d|e1] eqn:Hkeys; simpl in E; [discriminate|].
    injection E as ->. apply mapM_res_Raise in Hkeys as (x & Hx & Hkey).
    destruct (sort_key x) as [k|e2] eqn:Hk; simpl in Hkey; [discriminate|].
    injection Hkey as ->. apply sort_key_Raise in Hk as [-> (s & Hs & Hne)].
    split; [|done]. by exists x, s.
Qed.

Variable py_int : string -> option Z.

Lemma included_from (catalog : list entry) (m : metadata) :
  m ∈ included py_int catalog
  <-> exists e, e ∈ catalog /\ should_include_dataset py_int e = true
                /\ m = parse_dataset_metadata e.
Proof.
  unfold included. rewrite list_elem_of_fmap. split.
  - intros (e & -> & [? ?]%list_elem_of_filter). eauto.
  - intros (e & ? & ? & ->). exists e. split; [done|]. by apply list_elem_of_filter.
Qed.

Variable arrow_error : jval -> exn.

(** The three ways a run of [process_catalog] ends. *)
Lemma process_catalog_cases (catalog : list entry) :
  ((exists x s, x ∈ included py_int catalog /\ vintage x = JStr s /\ s <> "")
   /\ process_catalog py_int arrow_error catalog = (Raise neg_type_error, None))
  \/ ((forall x s, x ∈ included py_int catalog -> vintage x = JStr s -> s = "")
      /\ exists x st,
           x ∈ included py_int catalog /\ fits_int32 (vintage x) = false
           /\ process_catalog py_int arrow_error catalog
              = (Raise (arrow_error (vintage x)), Some st))
  \/ (Forall (fun x => fits_int32 (vintage x) = true) (included py_int catalog)
      /\ exists st,
           process_catalog py_int arrow_error catalog
           = (Ok (sort_by key_of (included py_int catalog)), Some st)).
Proof.
  rewrite process_catalog_saved.
  destruct (sort_datasets_cases (included py_int catalog)) as [[Hstr ->]|[Hstr ->]];
    [by left|right].
  destruct (from_pylist arrow_error (sort_by key_of (included py_int catalog)))
    as [table|e] eqn:Htable.
  - right. apply from_pylist_Ok in Htable as [-> Hfits]. split; [|by eexists].
    apply Forall_forall. intros x Hx. rewrite Forall_forall in Hfits.
    apply Hfits. by rewrite sort_by_perm.
  - left. split; [done|].
    apply from_pylist_Raise in Htable as (x & Hx & Hfit & ->).
    rewrite sort_by_perm in Hx. by eexists x, _.
Qed.

End CatalogMore.

(** X6.  The type of an entry is the first pattern of the table, in the
    table's order, that the lower-cased path contains: every pattern
    listed before it is absent from the path, whatever patterns listed
    after it the path contains too.  The path returned with it is the
    slash-joined [c_dataset]. *)
Theorem extract_dataset_type_first_match :
  forall (e : Catalog.entry) (pattern : string) (path : option string),
    Catalog.extract_dataset_type e = (Some pattern, path) ->
    exists parts before info after,
      Catalog.c_dataset e = Some parts
      /\ path = Some (String.concat "/" parts)
      /\ Catalog.PRIORITY_DATASETS = before ++ (pattern, info) :: after
      /\ contains pattern (lower (String.concat "/" parts)) = true
      /\ forall q, q ∈ before.*1 ->
                   contains q (lower (String.concat "/" parts)) = false.
Proof.
  intros e pattern path. unfold Catalog.extract_dataset_type.
  destruct (Catalog.c_dataset e) as [parts|]; [|discriminate].
  destruct (Catalog.first_pattern _ _) as [p|] eqn:E; [|discriminate].
  intros [= <- <-].
  destruct (first_pattern_split _ _ _ E) as (before & info & after & Ht & Hc & Hb).
  by exists parts, before, info, after.
Qed.

Lemma extract_dataset_type_first_match_witness :
  exists parts before info after,
    Catalog.c_dataset Cases.cbp_under_acs = Some parts
    /\ Some "cbp/acs-linked" = Some (String.concat "/" parts)
    /\ Catalog.PRIORITY_DATASETS = before ++ ("acs", info) :: after
    /\ contains "acs" (lower (String.concat "/" parts)) = true
    /\ forall q, q ∈ before.*1 ->
                 contains q (lower (String.concat "/" parts)) = false.
Proof.
  apply (extract_dataset_type_first_match Cases.cbp_under_acs "acs" (Some "cbp/acs-linked")).
  reflexivity.
Defined.

(** X7.  Every row of the table [process_catalog] returns comes from an
    entry of the catalog that the filter accepts; its type is a key of the
    pattern table, its priority is that pattern's priority (1 or 2, never
    the default 99), its path is the slash-joined [c_dataset] and its
    vintage is the entry's [c_vintage]. *)
Theorem catalog_rows_are_typed :
  forall (py_int : string -> option Z) (arrow_error : Catalog.jval -> exn)
         (catalog : list Catalog.entry)
         (table : list Catalog.metadata) (st : Catalog.catalog_state)
         (m : Catalog.metadata),
    Catalog.process_catalog py_int arrow_error catalog = (Ok table, Some st) ->
    m ∈ table ->
    exists e parts t info,
      e ∈ catalog
      /\ Catalog.should_include_dataset py_int e = true
      /\ m = Catalog.parse_dataset_metadata e
      /\ Catalog.c_dataset e = Some parts
      /\ Catalog.dataset_path m = Some (String.concat "/" parts)
      /\ Catalog.dataset_type m = Some t
      /\ odict_get t Catalog.PRIORITY_DATASETS = Some info
      /\ Catalog.m_priority m = Catalog.priority info
      /\ (Catalog.m_priority m = 1 \/ Catalog.m_priority m = 2)
      /\ Catalog.vintage m = Catalog.c_vintage e.
Proof.
  intros py_int arrow_error catalog table st m Hrun Hm.
  destruct (process_catalog_Ok py_int arrow_error catalog table st Hrun) as [-> _].
  rewrite sort_by_perm in Hm.
  apply included_from in Hm as (e & He & Hinc & ->).
  destruct ((Catalog.extract_dataset_type e).1) as [t|] eqn:Ht;
    [|by rewrite should_include_dataset_None in Hinc].
  destruct (extract_dataset_type_Some e t Ht) as (parts & Hparts & Hfirst).
  pose proof Hfirst as [Hin _]%first_pattern_Some.
  destruct (table_priorities t Hin) as (info & Hget & Hprio & Hrange).
  exists e, parts, t, info.
  rewrite dataset_type_metadata, priority_metadata, vintage_metadata, Ht, Hprio.
  repeat (split; [done|]).
  split; [|done].
  unfold Catalog.parse_dataset_metadata, Catalog.extract_dataset_type.
  by rewrite Hparts, Hfirst.
Qed.

Lemma catalog_rows_are_typed_witness :
  exists e parts t info,
    e ∈ Examples.catalog
    /\ Catalog.should_include_dataset Decimal.int_of_decimal e = true
    /\ Catalog.parse_dataset_metadata Examples.sahie_2015 = Catalog.parse_dataset_metadata e
    /\ Catalog.c_dataset e = Some parts
    /\ Catalog.dataset_path (Catalog.parse_dataset_metadata Examples.sahie_2015)
       = Some (String.concat "/" parts)
    /\ Catalog.dataset_type (Catalog.parse_dataset_metadata Examples.sahie_2015) = Some t
    /\ odict_get t Catalog.PRIORITY_DATASETS = Some info
    /\ Catalog.m_priority (Catalog.parse_dataset_metadata Examples.sahie_2015)
       = Catalog.priority info
    /\ (Catalog.m_priority (Catalog.parse_dataset_metadata Examples.sahie_2015) = 1
        \/ Catalog.m_priority (Catalog.parse_dataset_metadata Examples.sahie_2015) = 2)
    /\ Catalog.vintage (Catalog.parse_dataset_metadata Examples.sahie_2015)
       = Catalog.c_vintage e.
Proof.
  destruct (Catalog.process_catalog Decimal.int_of_decimal Decimal.arrow_error
              Examples.catalog)
    as [[table|e] [st|]] eqn:Hrun; try (vm_compute in Hrun; discriminate Hrun).
  apply (catalog_rows_are_typed Decimal.int_of_decimal Decimal.arrow_error
           Examples.catalog table st
           (Catalog.parse_dataset_metadata Examples.sahie_2015) Hrun).
  vm_compute in Hrun. injection Hrun as <- _.
  do 2 right. left.
Defined.

(** X8.  The description of a descriptor is the entry's description cut
    to its first 500 characters (code points): it is never longer than
    500, it is a prefix of the entry's description, as long as the shorter
    of the two, so the whole of a description of 500 characters or fewer,
    and it is empty when the entry has none. *)
Theorem description_is_bounded :
  forall e : Catalog.entry,
    (length (Catalog.m_description (Catalog.parse_dataset_metadata e)) <= 500)%nat
    /\ (forall s, Catalog.description e = Some s ->
                  Catalog.m_description (Catalog.parse_dataset_metadata e) `prefix_of` s
                  /\ length (Catalog.m_description (Catalog.parse_dataset_metadata e))
                     = Nat.min 500 (length s)
                  /\ ((length s <= 500)%nat ->
                      Catalog.m_description (Catalog.parse_dataset_metadata e) = s))
    /\ (Catalog.description e = None ->
        Catalog.m_description (Catalog.parse_dataset_metadata e) = []).
Proof.
  intros e.
  assert (Catalog.m_description (Catalog.parse_dataset_metadata e)
          = take 500 (default [] (Catalog.description e))) as ->.
  { unfold Catalog.parse_dataset_metadata.
    destruct (Catalog.extract_dataset_type e).
    cbn [Catalog.m_description]. by destruct (Catalog.description e) as [[|c s]|]. }
  split; [|split].
  - rewrite length_take. lia.
  - intros s ->. cbn [default from_option id]. split; [apply prefix_take|].
    split; [apply length_take|]. intros Hlen. by apply take_ge.
  - by intros ->.
Qed.

(** A description of 600 times the letter e with an acute accent, one
    code point each, is cut to 500 of them. *)
Lemma description_is_bounded_witness :
  Catalog.m_description
    (Catalog.parse_dataset_metadata (Cases.with_description (replicate 600 233%N)))
  = replicate 500 233%N.
Proof.
  destruct (description_is_bounded (Cases.with_description (replicate 600 233%N)))
    as (_ & Hcut & _).
  destruct (Hcut (replicate 600 233%N) eq_refl) as ([rest Hrest] & Hlen & _).
  rewrite length_replicate in Hlen. change (Nat.min 500 600) with 500%nat in Hlen.
  assert (take 500 (replicate 600 233%N)
          = take 500 (Catalog.m_description
                        (Catalog.parse_dataset_metadata
                           (Cases.with_description (replicate 600 233%N))) ++ rest))
    as Htake by (by rewrite <- Hrest).
  rewrite take_app_length' in Htake by exact Hlen.
  rewrite <- Htake. by rewrite take_replicate.
Defined.

(** X9.  The API address of a descriptor is the [accessURL] of the first
    distribution of the entry whose format is ["API"], even when that
    distribution has no address and a later one has; an entry with no
    such distribution has no API address. *)
Theorem api_endpoint_is_first_api :
  forall e : Catalog.entry,
    (forall before d after,
       Catalog.distribution e = Some (before ++ d :: after) ->
       (forall d', d' ∈ before -> Catalog.format d' <> Some "API") ->
       Catalog.format d = Some "API" ->
       Catalog.api_endpoint (Catalog.parse_dataset_metadata e) = Catalog.accessURL d)
    /\ ((forall d, d ∈ default [] (Catalog.distribution e) ->
                   Catalog.format d <> Some "API") ->
        Catalog.api_endpoint (Catalog.parse_dataset_metadata e) = None).
Proof.
  intros e.
  assert (Catalog.api_endpoint (Catalog.parse_dataset_metadata e)
          = Catalog.first_api (default [] (Catalog.distribution e))) as ->.
  { unfold Catalog.parse_dataset_metadata. by destruct (Catalog.extract_dataset_type e). }
  split.
  - intros before d after -> Hbefore Hd. simpl.
    induction before as [|d0 before IH]; simpl.
    + by rewrite decide_True.
    + rewrite decide_False by (apply Hbefore; left).
      apply IH. intros d' Hd'. apply Hbefore. by right.
  - induction (default [] (Catalog.distribution e)) as [|d0 dists IH]; [done|].
    intros Hnone. simpl. rewrite decide_False by (apply Hnone; left).
    apply IH. intros d' Hd'. apply Hnone. by right.
Qed.

Lemma api_endpoint_is_first_api_witness :
  Catalog.api_endpoint (Catalog.parse_dataset_metadata Cases.described) = None
  /\ Catalog.api_endpoint (Catalog.parse_dataset_metadata Examples.acs5_2021) = None.
Proof.
  split.
  - apply (proj1 (api_endpoint_is_first_api Cases.described)
             [Catalog.Distribution (Some "CSV") (Some "https://example.org/acs5.csv")]
             (Catalog.Distribution (Some "API") None)
             [Catalog.Distribution (Some "API")
                (Some "https://api.census.gov/data/2021/acs/acs5")]).
    + reflexivity.
    + intros d' Hd'. apply list_elem_of_singleton in Hd' as ->. discriminate.
    + reflexivity.
  - apply (proj2 (api_endpoint_is_first_api Examples.acs5_2021)).
    intros d Hd. by apply elem_of_nil in Hd.
Defined.

(** X10.  The state [process_catalog] saves counts what it returns:
    [total_datasets] is the size of the catalog, [filtered_datasets] the
    number of rows of the table, never more than the total, and
    [dataset_counts] gives for every type the number of rows of that type,
    and has no entry for a type without rows. *)
Theorem catalog_state_counts :
  forall (py_int : string -> option Z) (arrow_error : Catalog.jval -> exn)
         (catalog : list Catalog.entry)
         (table : list Catalog.metadata) (st : Catalog.catalog_state),
    Catalog.process_catalog py_int arrow_error catalog = (Ok table, Some st) ->
    Catalog.total_datasets st = length catalog
    /\ Catalog.filtered_datasets st = length table
    /\ (Catalog.filtered_datasets st <= Catalog.total_datasets st)%nat
    /\ forall t : option string,
         Catalog.dataset_counts st !! t
         = match count_of_type t table with
           | O => None
           | S n => Some (S n)
           end.
Proof.
  intros py_int arrow_error catalog table st Hrun.
  pose proof (process_catalog_Ok py_int arrow_error catalog table st Hrun) as [Htable _].
  rewrite process_catalog_saved in Hrun.
  destruct (Catalog.sort_datasets (included py_int catalog)) as [sorted|];
    [|discriminate].
  injection Hrun as Hsorted <-. apply from_pylist_Ok in Hsorted as [<- _]. simpl.
  split; [done|]. split; [done|]. split.
  - rewrite Htable, sort_by_perm. unfold included.
    rewrite length_fmap. apply length_filter.
  - intros t. unfold Catalog.count_types. rewrite count_types_fold, lookup_empty.
    unfold count_of_type. by rewrite Htable, sort_by_perm.
Qed.

Lemma catalog_state_counts_witness :
  exists table st,
    Catalog.process_catalog Decimal.int_of_decimal Decimal.arrow_error Examples.catalog
    = (Ok table, Some st)
    /\ Catalog.total_datasets st = length Examples.catalog
    /\ Catalog.filtered_datasets st = length table
    /\ (Catalog.filtered_datasets st <= Catalog.total_datasets st)%nat
    /\ forall t : option string,
         Catalog.dataset_counts st !! t
         = match count_of_type t table with
           | O => None
           | S n => Some (S n)
           end.
Proof.
  destruct (Catalog.process_catalog Decimal.int_of_decimal Decimal.arrow_error
              Examples.catalog)
    as [[table|e] [st|]] eqn:Hrun; try (vm_compute in Hrun; discriminate Hrun).
  exists table, st. split; [reflexivity|].
  exact (catalog_state_counts Decimal.int_of_decimal Decimal.arrow_error
           Examples.catalog table st Hrun).
Defined.

(** X11.  A run of [process_catalog] ends in one of three ways.  It
    raises the [TypeError] of the sort key, before any state is saved,
    exactly when the filter accepts an entry whose vintage is a non-empty
    string.  Otherwise it saves its state; building the table then raises
    the exception of pyarrow exactly when the filter accepts an entry
    whose vintage the [int32] column does not take (the empty string, or
    an integer outside 32 bits), and it returns the table exactly when
    every accepted vintage is null or an integer of 32 bits. *)
Theorem process_catalog_outcomes :
  forall (py_int : string -> option Z) (arrow_error : Catalog.jval -> exn)
         (catalog : list Catalog.entry),
    let accepted e :=
      e ∈ catalog /\ Catalog.should_include_dataset py_int e = true in
    let text_vintage :=
      exists e s, accepted e /\ Catalog.c_vintage e = Catalog.JStr s /\ s <> "" in
    let run := Catalog.process_catalog py_int arrow_error catalog in
    (text_vintage <-> run = (Raise Catalog.neg_type_error, None))
    /\ (~ text_vintage
        /\ (exists e, accepted e /\ Catalog.fits_int32 (Catalog.c_vintage e) = false)
        <-> exists e st,
              accepted e /\ Catalog.fits_int32 (Catalog.c_vintage e) = false
              /\ run = (Raise (arrow_error (Catalog.c_vintage e)),
                        Some st))
    /\ ((forall e, accepted e -> Catalog.fits_int32 (Catalog.c_vintage e) = true)
        <-> exists table st, run = (Ok table, Some st)).
Proof.
  intros py_int arrow_error catalog accepted text_vintage run.
  assert (forall x, x ∈ included py_int catalog
                    <-> exists e, accepted e /\ x = Catalog.parse_dataset_metadata e)
    as Hinc.
  { intros x. rewrite included_from. unfold accepted. split.
    - intros (e & He & Hin & ->). by exists e.
    - intros (e & [He Hin] & ->). by exists e. }
  assert (text_vintage
          <-> exists x s, x ∈ included py_int catalog
                          /\ Catalog.vintage x = Catalog.JStr s /\ s <> "") as Htext.
  { unfold text_vintage. split.
    - intros (e & s & He & Hv & Hne).
      exists (Catalog.parse_dataset_metadata e), s. rewrite vintage_metadata.
      split; [|done]. apply Hinc. by exists e.
    - intros (x & s & (e & He & ->)%Hinc & Hv & Hne).
      rewrite vintage_metadata in Hv. by exists e, s. }
  assert (forall e, accepted e -> Catalog.c_vintage e
                                  = Catalog.vintage (Catalog.parse_dataset_metadata e)
                                  /\ Catalog.parse_dataset_metadata e
                                     ∈ included py_int catalog) as Hacc.
  { intros e He. rewrite vintage_metadata. split; [done|]. apply Hinc. by exists e. }
  destruct (process_catalog_cases py_int arrow_error catalog)
    as [[Hstr Hrun]|[(Hnostr & x & st & Hx & Hfit & Hrun)|(Hfits & st & Hrun)]];
    fold run in Hrun.
  - (* the sort raises *)
    apply Htext in Hstr. split; [done|]. split.
    + split; [by intros [Hno _]|]. intros (e & st & _ & _ & H). congruence.
    + split; [|intros (table & st & H); congruence].
      intros Hall. exfalso. destruct Hstr as (e & s & He & Hv & _).
      specialize (Hall e He). by rewrite Hv in Hall.
  - (* building the table raises *)
    assert (~ text_vintage) as Hno.
    { intros (x' & s & Hx' & Hv & Hne)%Htext. by apply Hne, (Hnostr x' s). }
    apply Hinc in Hx as (e & He & ->). rewrite vintage_metadata in Hfit, Hrun.
    split; [split; [done|intros H; congruence]|]. split.
    + split; [|intros _; split; [done|by exists e]]. intros _. by exists e, st.
    + split; [|intros (table & st' & H); congruence].
      intros Hall. specialize (Hall e He). congruence.
  - (* the table is returned *)
    rewrite Forall_forall in Hfits.
    assert (forall e, accepted e -> Catalog.fits_int32 (Catalog.c_vintage e) = true)
      as Hall.
    { intros e He. destruct (Hacc e He) as [-> Hin]. by apply Hfits. }
    split; [|split].
    + split; [|intros H; congruence].
      intros (e & s & He & Hv & _). specialize (Hall e He). by rewrite Hv in Hall.
    + split.
      * intros [_ (e & He & Hfit)]. specialize (Hall e He). congruence.
      * intros (e & st' & _ & _ & H). congruence.
    + split; [intros _; by eexists _, st|done].
Qed.

Lemma process_catalog_outcomes_witness :
  Catalog.process_catalog Decimal.int_of_decimal Decimal.arrow_error
    [Cases.acs_quoted_vintage]
  = (Raise Catalog.neg_type_error, None)
  /\ (exists e st,
        Catalog.process_catalog Decimal.int_of_decimal Decimal.arrow_error
          [Examples.acs_vintage_too_large]
        = (Raise e, Some st) /\ kind e = ArrowInvalid)
  /\ (exists e st,
        Catalog.process_catalog Decimal.int_of_decimal Decimal.arrow_error
          [Examples.acs_empty_vintage]
        = (Raise e, Some st) /\ kind e = ArrowInvalid).
Proof.
  split; [|split].
  - destruct (process_catalog_outcomes Decimal.int_of_decimal Decimal.arrow_error
                [Cases.acs_quoted_vintage]) as [[Hraise _] _].
    apply Hraise. exists Cases.acs_quoted_vintage, "2021".
    split; [split; [by left|reflexivity]|]. split; [reflexivity|discriminate].
  - destruct (process_catalog_outcomes Decimal.int_of_decimal Decimal.arrow_error
                [Examples.acs_vintage_too_large]) as (_ & [Harrow _] & _).
    destruct Harrow as (e & st & _ & _ & Hrun).
    + split.
      * intros (e & s & [He _] & Hv & _).
        apply list_elem_of_singleton in He as ->. discriminate Hv.
      * exists Examples.acs_vintage_too_large.
        split; [split; [by left|reflexivity]|reflexivity].
    + by eexists _, st.
  - destruct (process_catalog_outcomes Decimal.int_of_decimal Decimal.arrow_error
                [Examples.acs_empty_vintage]) as (_ & [Harrow _] & _).
    destruct Harrow as (e & st & _ & _ & Hrun).
    + split.
      * intros (e & s & [He _] & Hv & Hne).
        apply list_elem_of_singleton in He as ->. injection Hv as <-. by apply Hne.
      * exists Examples.acs_empty_vintage.
        split; [split; [by left|reflexivity]|reflexivity].
    + by eexists _, st.
Defined.

(** ** Time-series fetchers: the years saved and the years requested *)

Section OrderFacts.

Lemma seqZ_sorted (n : nat) : forall m : Z, StronglySorted Z.lt (seqZ m (Z.of_nat n)).
Proof.
  induction n as [|n IH]; intros m; [constructor|].
  rewrite seqZ_cons by lia. constructor.
  - replace (Z.pred (Z.of_nat (S n))) with (Z.of_nat n) by lia. apply IH.
  - apply Forall_seqZ. lia.
Qed.

Lemma range_sorted (lo hi : Z) : StronglySorted Z.lt (range lo hi).
Proof.
  unfold range. destruct (decide (hi - lo <= 0)) as [Hle|Hgt].
  - rewrite seqZ_nil by done. constructor.
  - replace (hi - lo) with (Z.of_nat (Z.to_nat (hi - lo))) by lia. apply seqZ_sorted.
Qed.

Lemma sublist_sorted {A : Type} (R : relation A) (l k : list A) :
  l `sublist_of` k -> StronglySorted R k -> StronglySorted R l.
Proof.
  induction 1 as [|x l k Hlk IH|x l k Hlk IH]; intros Hk; [constructor| |].
  - apply StronglySorted_inv in Hk as [Hk Hx]. constructor; [by apply IH|].
    rewrite Forall_forall in *. intros y Hy. apply Hx.
    by eapply elem_of_sublist.
  - apply StronglySorted_inv in Hk as [Hk _]. by apply IH.
Qed.

Lemma sorted_last_max (l : list Z) (m y : Z) :
  StronglySorted Z.lt l -> last l = Some m -> y ∈ l -> y <= m.
Proof.
  induction 1 as [|a l Hs IH Ha]; intros Hlast Hy; [by apply elem_of_nil in Hy|].
  destruct l as [|b l].
  - injection Hlast as <-. apply list_elem_of_singleton in Hy. lia.
  - change (last (a :: b :: l)) with (last (b :: l)) in Hlast.
    apply elem_of_cons in Hy as [->|Hy]; [|by apply IH].
    apply last_Some_elem_of in Hlast. rewrite Forall_forall in Ha.
    apply Ha in Hlast. lia.
Qed.

Lemma elem_of_concat_fmap_inv {A B : Type} (f : A -> list B) (l : list A) (y : B) :
  y ∈ concat (f <$> l) -> exists x, x ∈ l /\ y ∈ f x.
Proof.
  induction l as [|a l IH]; [by intros ?%elem_of_nil|].
  rewrite fmap_cons. simpl. intros [Hy|Hy]%elem_of_app.
  - exists a. split; [by left|done].
  - destruct (IH Hy) as (x & Hx & Hfx). exists x. split; [by right|done].
Qed.

End OrderFacts.

Section SavedFacts.

Import TimeSeries.

Context {R : Type}.

(** What a run that saves years of its range, in order, leaves behind. *)
Lemma sublist_saved_in_order (state : option Z) (upper : Z) (w : world R) :
  saved w `sublist_of` range (load_last_year state + 1) upper ->
  saved_in_order state upper w.
Proof.
  intros Hsub. split; [done|]. intros s ->.
  unfold last_year_processed. destruct (last (saved w)) as [y|] eqn:Hlast.
  - exists y. split; [done|].
    assert (y ∈ range (load_last_year (Some s) + 1) upper) as Hy.
    { eapply elem_of_sublist; [|exact Hsub]. by apply last_Some_elem_of. }
    apply elem_of_range in Hy. simpl in Hy. lia.
  - exists s. split; [done|lia].
Qed.

Lemma saved_below_next_run (state : option Z) (upper hi : Z) (w : world R)
    {R' : Type} (w' : world R') :
  saved w `sublist_of` range (load_last_year state + 1) upper ->
  requests_within (load_last_year (last_year_processed state w) + 1) hi w' ->
  forall r y, r ∈ requests w' -> y ∈ saved w -> y < request_year r.
Proof.
  intros Hsub Hwithin r y Hr Hy. apply Hwithin in Hr.
  unfold last_year_processed in Hr.
  destruct (last (saved w)) as [m|] eqn:Hlast.
  - simpl in Hr.
    assert (y <= m); [|lia].
    eapply sorted_last_max; [|exact Hlast|exact Hy].
    eapply sublist_sorted; [exact Hsub|apply range_sorted].
  - apply last_None in Hlast. rewrite Hlast in Hy. by apply elem_of_nil in Hy.
Qed.

Variable fetch : Z -> option body * list request.
Variable make_record : Z -> gmap cell cell -> res R.

Lemma state_level_saved_sublist (state : option Z) (current_year : Z) :
  saved (state_level_run R fetch make_record state current_year)
  `sublist_of` range (load_last_year state + 1) current_year.
Proof. rewrite state_level_run_spec. simpl. apply sublist_filter. Qed.

Lemma state_level_requests_within (state : option Z) (current_year : Z) :
  (forall y r, r ∈ (fetch y).2 -> request_year r = y) ->
  requests_within (load_last_year state + 1) current_year
    (state_level_run R fetch make_record state current_year).
Proof.
  intros Hfetch r. rewrite state_level_run_spec. simpl.
  intros (y & Hy & Hr)%elem_of_concat_fmap_inv.
  apply Hfetch in Hr as ->. by apply elem_of_range.
Qed.

End SavedFacts.

Section RequestFacts.

Import TimeSeries.

Context {F : Type}.
Variable py_float : string -> option F.
Variable float_error : string -> string.
Variable get : request -> res body.

Lemma fetch_population_requests (y : Z) :
  (fetch_population_estimates get y).2
  = match get (PepPopulation y) with
    | Ok _ => [PepPopulation y]
    | Raise _ => [PepPopulation y; PepCharAgeGroups y]
    end.
Proof.
  unfold fetch_population_estimates.
  destruct (get (PepPopulation y)); [done|].
  by destruct (get (PepCharAgeGroups y)).
Qed.

Lemma fetch_saipe_requests (y : Z) :
  (fetch_saipe_data get y).2
  = match get (SaipeTimeseries y) with
    | Ok _ => [SaipeTimeseries y]
    | Raise _ => [SaipeTimeseries y; SaipeYear y]
    end.
Proof.
  unfold fetch_saipe_data.
  destruct (get (SaipeTimeseries y)); [done|].
  by destruct (get (SaipeYear y)).
Qed.

(** The tables requested in a year are the first tables of the list, in
    order, the first one among them. *)
Lemma tables_loop_requests (year : Z) (tables : list (string * string)) :
  forall w : world (acs_record F),
    exists ts,
      requests (tables_loop F py_float float_error get year tables w)
      = requests w ++ (AcsGroup year <$> ts)
      /\ ts `prefix_of` tables.*1
      /\ (tables <> [] -> ts <> []).
Proof.
  induction tables as [|table tables IH]; intros w.
  - exists []. simpl. rewrite app_nil_r. done.
  - cbn [tables_loop].
    pose proof (table_body_saved py_float float_error get year table w) as [_ Hr].
    destruct (table_body F py_float float_error get year table w) as [[u|e] w1];
      simpl in Hr.
    + destruct (IH w1) as (ts & Hts & Hpre & _).
      exists (table.1 :: ts). rewrite Hts, Hr, <- app_assoc. split; [done|].
      split; [|done]. rewrite fmap_cons. by apply (prefix_app [table.1]).
    + destruct (contains "404" (str e)).
      * exists [table.1]. rewrite Hr. split; [done|]. split; [|done].
        rewrite fmap_cons. apply (prefix_app [table.1]), prefix_nil.
      * destruct (IH w1) as (ts & Hts & Hpre & _).
        exists (table.1 :: ts). rewrite Hts, Hr, <- app_assoc. split; [done|].
        split; [|done]. rewrite fmap_cons. by apply (prefix_app [table.1]).
Qed.

Lemma acs_saved_sublist (years : list Z) :
  forall w : world (acs_record F),
    exists s,
      saved (foldl (acs_year_step F py_float float_error get) w years) = saved w ++ s
      /\ s `sublist_of` years.
Proof.
  induction years as [|y years IH]; intros w.
  - exists []. simpl. by rewrite app_nil_r.
  - cbn [foldl]. destruct (IH (acs_year_step F py_float float_error get w y))
      as (s & -> & Hs).
    rewrite acs_year_step_spec. unfold world_app. simpl.
    destruct (all_records w ++ _).
    + exists s. rewrite app_nil_r. split; [done|]. by apply sublist_cons.
    + exists (y :: s). rewrite <- app_assoc. split; [done|]. by apply sublist_skip.
Qed.

End RequestFacts.

Section FetcherFacts.

Import TimeSeries.

Context {F : Type}.
Variable py_float : string -> option F.
Variable float_error : string -> string.
Variable get : request -> res body.

Lemma fetch_population_year (y : Z) (r : request) :
  r ∈ (fetch_population_estimates get y).2 -> request_year r = y.
Proof.
  rewrite fetch_population_requests.
  destruct (get (PepPopulation y));
    intros Hr; repeat (apply elem_of_cons in Hr as [->|Hr]; [done|]);
    by apply elem_of_nil in Hr.
Qed.

Lemma fetch_saipe_year (y : Z) (r : request) :
  r ∈ (fetch_saipe_data get y).2 -> request_year r = y.
Proof.
  rewrite fetch_saipe_requests.
  destruct (get (SaipeTimeseries y));
    intros Hr; repeat (apply elem_of_cons in Hr as [->|Hr]; [done|]);
    by apply elem_of_nil in Hr.
Qed.

Lemma process_acs_saved_sublist (state : option Z) (current_year : Z) :
  saved (process_acs F py_float float_error get state current_year)
  `sublist_of` range (load_last_year state + 1) (current_year - 1).
Proof.
  unfold process_acs.
  by destruct (acs_saved_sublist py_float float_error get
                 (range (load_last_year state + 1) (current_year - 1)) start)
    as (s & -> & Hs).
Qed.

Lemma process_acs_requests (state : option Z) (current_year : Z) :
  requests (process_acs F py_float float_error get state current_year)
  = concat ((fun y => requests (acs_year_run py_float float_error get y))
            <$> range (load_last_year state + 1) (current_year - 1)).
Proof.
  unfold process_acs.
  by destruct (acs_years_loop_spec py_float float_error get
                 (range (load_last_year state + 1) (current_year - 1)) start)
    as (-> & _ & _).
Qed.

Lemma process_acs_records (state : option Z) (current_year : Z) :
  all_records (process_acs F py_float float_error get state current_year)
  = concat ((fun y => all_records (acs_year_run py_float float_error get y))
            <$> range (load_last_year state + 1) (current_year - 1)).
Proof.
  unfold process_acs.
  by destruct (acs_years_loop_spec py_float float_error get
                 (range (load_last_year state + 1) (current_year - 1)) start)
    as (_ & -> & _).
Qed.

Lemma acs_year_requests (y : Z) :
  exists ts,
    requests (acs_year_run py_float float_error get y) = AcsGroup y <$> ts
    /\ ts <> [] /\ ts `prefix_of` ACS_TABLES.*1.
Proof.
  destruct (tables_loop_requests py_float float_error get y ACS_TABLES start)
    as (ts & Hts & Hpre & Hne).
  exists ts. split; [exact Hts|]. split; [by apply Hne|done].
Qed.

Lemma process_acs_requests_within (state : option Z) (current_year : Z) :
  requests_within (load_last_year state + 1) (current_year - 1)
    (process_acs F py_float float_error get state current_year).
Proof.
  intros r. rewrite process_acs_requests.
  intros (y & Hy & Hr)%elem_of_concat_fmap_inv.
  destruct (acs_year_requests y) as (ts & Hts & _).
  rewrite Hts in Hr. apply list_elem_of_fmap in Hr as (t & -> & _).
  simpl. by apply elem_of_range.
Qed.

End FetcherFacts.

(** X12.  The years a run hands to [save_state] are years of its range,
    each at most once and in increasing order; so the watermark a run of
    [process_population], [process_poverty] or [process_acs] leaves is
    never below the watermark it loaded. *)
Theorem watermark_never_decreases :
  forall (F : Type) (py_float : string -> option F) (float_error : string -> string)
         (get : TimeSeries.request -> res TimeSeries.body)
         (state : option Z) (current_year : Z),
    saved_in_order state current_year
      (TimeSeries.process_population F py_float float_error get state current_year)
    /\ saved_in_order state current_year
         (TimeSeries.process_poverty F py_float float_error get state current_year)
    /\ saved_in_order state (current_year - 1)
         (TimeSeries.process_acs F py_float float_error get state current_year).
Proof.
  intros F py_float float_error get state current_year.
  split; [|split]; apply sublist_saved_in_order.
  - apply state_level_saved_sublist.
  - apply state_level_saved_sublist.
  - apply process_acs_saved_sublist.
Qed.

(** X13.  A run requests only years of its range: never a year at or
    below the watermark it loaded, never the current year or a later one
    (for [process_acs]: never the year before the current one or a later
    one). *)
Theorem requests_stay_in_range :
  forall (F : Type) (py_float : string -> option F) (float_error : string -> string)
         (get : TimeSeries.request -> res TimeSeries.body)
         (state : option Z) (current_year : Z),
    requests_within (TimeSeries.load_last_year state + 1) current_year
      (TimeSeries.process_population F py_float float_error get state current_year)
    /\ requests_within (TimeSeries.load_last_year state + 1) current_year
         (TimeSeries.process_poverty F py_float float_error get state current_year)
    /\ requests_within (TimeSeries.load_last_year state + 1) (current_year - 1)
         (TimeSeries.process_acs F py_float float_error get state current_year).
Proof.
  intros F py_float float_error get state current_year.
  split; [|split].
  - apply state_level_requests_within, fetch_population_year.
  - apply state_level_requests_within, fetch_saipe_year.
  - apply process_acs_requests_within.
Qed.

(** X14.  [process_population] and [process_poverty] send, for each year
    of the range in turn, one request to the first endpoint, and one to the
    alternate endpoint directly after it exactly when the first one raised;
    nothing else is requested. *)
Theorem alternate_endpoint_only_after_failure :
  forall (F : Type) (py_float : string -> option F) (float_error : string -> string)
         (get : TimeSeries.request -> res TimeSeries.body)
         (state : option Z) (current_year : Z),
    let years := range (TimeSeries.load_last_year state + 1) current_year in
    TimeSeries.requests
      (TimeSeries.process_population F py_float float_error get state current_year)
    = concat ((fun y => TimeSeries.PepPopulation y ::
                        match get (TimeSeries.PepPopulation y) with
                        | Ok _ => []
                        | Raise _ => [TimeSeries.PepCharAgeGroups y]
                        end) <$> years)
    /\ TimeSeries.requests
         (TimeSeries.process_poverty F py_float float_error get state current_year)
       = concat ((fun y => TimeSeries.SaipeTimeseries y ::
                           match get (TimeSeries.SaipeTimeseries y) with
                           | Ok _ => []
                           | Raise _ => [TimeSeries.SaipeYear y]
                           end) <$> years).
Proof.
  intros F py_float float_error get state current_year years.
  unfold TimeSeries.process_population, TimeSeries.process_poverty.
  rewrite !state_level_run_spec. fold years. simpl. split; f_equal.
  - apply list_fmap_ext. intros _ y _. rewrite fetch_population_requests.
    by destruct (get (TimeSeries.PepPopulation y)).
  - apply list_fmap_ext. intros _ y _. rewrite fetch_saipe_requests.
    by destruct (get (TimeSeries.SaipeTimeseries y)).
Qed.

(** X15.  The requests of [process_acs] are those of its years, one year
    after the other; in a year the tables requested are the first tables
    of [ACS_TABLES], in the order of the dictionary, each once, and the
    first table is always among them: the [break] ends a year's tables, it
    never skips one. *)
Theorem acs_requests_are_table_prefixes :
  forall (F : Type) (py_float : string -> option F) (float_error : string -> string)
         (get : TimeSeries.request -> res TimeSeries.body)
         (state : option Z) (current_year : Z),
    exists per_year : list (list TimeSeries.request),
      TimeSeries.requests
        (TimeSeries.process_acs F py_float float_error get state current_year)
      = concat per_year
      /\ Forall2 (fun y reqs =>
                    exists ts, reqs = TimeSeries.AcsGroup y <$> ts
                               /\ ts <> []
                               /\ ts `prefix_of` TimeSeries.ACS_TABLES.*1)
           (range (TimeSeries.load_last_year state + 1) (current_year - 1))
           per_year.
Proof.
  intros F py_float float_error get state current_year.
  eexists. split; [apply process_acs_requests|].
  apply Forall2_fmap_r, Forall_Forall2_diag, Forall_forall.
  intros y _. apply acs_year_requests.
Qed.

(** X16.  A run that starts from the watermark another run left requests
    no year that the first run saved, nor an earlier one, whatever the
    service answers in either run and whatever the year of the second
    run. *)
Theorem next_run_skips_saved_years :
  forall (F : Type) (py_float : string -> option F) (float_error : string -> string)
         (get get' : TimeSeries.request -> res TimeSeries.body)
         (state : option Z) (current_year current_year' : Z),
    let population :=
      TimeSeries.process_population F py_float float_error get state current_year in
    let poverty :=
      TimeSeries.process_poverty F py_float float_error get state current_year in
    let acs :=
      TimeSeries.process_acs F py_float float_error get state current_year in
    (forall r y,
        r ∈ TimeSeries.requests
              (TimeSeries.process_population F py_float float_error get'
                 (TimeSeries.last_year_processed state population) current_year') ->
        y ∈ TimeSeries.saved population -> y < request_year r)
    /\ (forall r y,
           r ∈ TimeSeries.requests
                 (TimeSeries.process_poverty F py_float float_error get'
                    (TimeSeries.last_year_processed state poverty) current_year') ->
           y ∈ TimeSeries.saved poverty -> y < request_year r)
    /\ (forall r y,
           r ∈ TimeSeries.requests
                 (TimeSeries.process_acs F py_float float_error get'
                    (TimeSeries.last_year_processed state acs) current_year') ->
           y ∈ TimeSeries.saved acs -> y < request_year r).
Proof.
  intros F py_float float_error get get' state current_year current_year'
         population poverty acs.
  split; [|split].
  - eapply saved_below_next_run.
    + apply state_level_saved_sublist.
    + apply state_level_requests_within, fetch_population_year.
  - eapply saved_below_next_run.
    + apply state_level_saved_sublist.
    + apply state_level_requests_within, fetch_saipe_year.
  - eapply saved_below_next_run.
    + apply process_acs_saved_sublist.
    + apply process_acs_requests_within.
Qed.

Lemma next_run_skips_saved_years_witness :
  2020 < request_year (TimeSeries.PepPopulation 2021)
  /\ 2020 < request_year (TimeSeries.SaipeTimeseries 2022)
  /\ 2019 < request_year (TimeSeries.AcsGroup 2020 "B01003").
Proof.
  destruct (next_run_skips_saved_years Decimal.decimal Decimal.float_of_decimal
              Decimal.float_error Examples.transport_all Examples.transport_gap
              None 2021 2023) as (Hpop & Hpov & Hacs).
  split; [|split].
  - apply Hpop; apply list_elem_of_lookup; [exists 0%nat|exists 1%nat]; reflexivity.
  - apply Hpov; apply list_elem_of_lookup; [exists 1%nat|exists 1%nat]; reflexivity.
  - apply Hacs; apply list_elem_of_lookup; [exists 0%nat|exists 0%nat]; reflexivity.
Defined.

(** ** Time-series fetchers: the records of the table *)

Section RecordFacts.

Import TimeSeries.

Lemma for_each_invariant {A S : Type} (P : S -> Prop) (body : A -> S -> res unit * S)
    (l : list A) :
  (forall x s, P s -> P (body x s).2) ->
  forall s, P s -> P (for_each body l s).2.
Proof.
  intros Hbody. induction l as [|x l IH]; intros s Hs; [done|].
  cbn [for_each]. specialize (Hbody x s Hs).
  destruct (body x s) as [[u|e] s']; simpl in *; [by apply IH|done].
Qed.

Lemma sorted_app_const (y : Z) (l1 l2 : list Z) :
  Forall (fun x => x = y) l1 -> Forall (fun x => y <= x) l2 ->
  StronglySorted Z.le l2 -> StronglySorted Z.le (l1 ++ l2).
Proof.
  intros H1 H2 Hs. induction H1 as [|x l1 -> H1 IH]; [done|].
  simpl. constructor; [done|]. apply Forall_app. split.
  - eapply Forall_impl; [exact H1|]. simpl. lia.
  - done.
Qed.

(** Records made year by year, for increasing years, are in the order of
    their years. *)
Lemma concat_years_sorted {R : Type} (year_of : R -> Z) (group : Z -> list R)
    (years : list Z) :
  StronglySorted Z.lt years ->
  (forall y, Forall (fun r => year_of r = y) (group y)) ->
  StronglySorted Z.le (year_of <$> concat (group <$> years)).
Proof.
  intros Hs Hgroup. induction Hs as [|y years Hs IH Hy]; [constructor|].
  rewrite fmap_cons. simpl. rewrite fmap_app. apply sorted_app_const with y.
  - apply Forall_fmap. eapply Forall_impl; [apply Hgroup|]. done.
  - apply Forall_fmap, Forall_forall. intros r Hr.
    apply elem_of_concat_fmap_inv in Hr as (y' & Hy' & Hr).
    rewrite Forall_forall in Hy. apply Hy in Hy'.
    pose proof (Hgroup y') as Hg. rewrite Forall_forall in Hg.
    simpl. rewrite (Hg r Hr). lia.
  - exact IH.
Qed.

Lemma Forall_concat_fmap {A B : Type} (P : B -> Prop) (f : A -> list B) (l : list A) :
  (forall x, x ∈ l -> Forall P (f x)) -> Forall P (concat (f <$> l)).
Proof.
  intros Hf. apply Forall_forall. intros y (x & Hx & Hy)%elem_of_concat_fmap_inv.
  specialize (Hf x Hx). rewrite Forall_forall in Hf. by apply Hf.
Qed.

Section StateLevelRecords.

Context {R : Type}.
Variable fetch : Z -> option body * list request.
Variable make_record : Z -> gmap cell cell -> res R.
Variable P : Z -> R -> Prop.
Hypothesis make_record_P : forall y d r, make_record y d = Ok r -> P y r.

Lemma normalized_Forall (y : Z) (headers : list cell) (rows : list (list cell)) :
  Forall (P y) (normalized make_record y headers rows).
Proof.
  induction rows as [|row rows IH]; [constructor|].
  cbn [normalized]. unfold record_of_row.
  destruct (decide (length row = length headers)); [|done].
  destruct (make_record y (dict_of (zip headers row))) as [r|err] eqn:E; [|constructor].
  constructor; [by eapply make_record_P|done].
Qed.

Lemma year_records_Forall (y : Z) : Forall (P y) (year_records fetch make_record y).
Proof.
  unfold year_records.
  destruct (usable (default [] (fetch y).1)) as [[headers rows]|]; [|constructor].
  apply normalized_Forall.
Qed.

End StateLevelRecords.

Section AcsRecords.

Context {F : Type}.
Variable py_float : string -> option F.
Variable float_error : string -> string.
Variable get : request -> res body.

Lemma acs_row_step_records (year : Z) (table : string * string) (headers row : list cell)
    (records : list (acs_record F)) :
  Forall (acs_record_of year table) records ->
  Forall (acs_record_of year table)
    (acs_row_step F py_float float_error year table headers row records).2.
Proof.
  unfold acs_row_step. destruct (decide (length row = length headers)); [|done].
  apply for_each_invariant. clear records. intros kv records Hrecords.
  unfold item_step. destruct kv.1 as [key|]; [|done].
  destruct (startswith key table.1) eqn:Hstart; [|done].
  destruct (endswith key "E") eqn:Hend; [|done]. simpl.
  destruct (measure F py_float float_error "-" kv.2) as [est|err]; [|done].
  simpl. apply Forall_app. split; [done|]. constructor; [|constructor].
  by repeat split.
Qed.

Lemma table_body_records (P : acs_record F -> Prop) (year : Z) (table : string * string)
    (w : world (acs_record F)) :
  (forall r, acs_record_of year table r -> P r) ->
  Forall P (all_records w) ->
  Forall P (all_records (table_body F py_float float_error get year table w).2).
Proof.
  intros HP Hw.
  rewrite (table_body_appends py_float float_error get year table w).
  cbn [snd]. unfold world_app. cbn [all_records]. apply Forall_app. split; [done|].
  unfold table_body, fetch_acs_data.
  destruct (get (AcsGroup year table.1)) as [data|e]; [|constructor].
  destruct (usable data) as [[headers rows]|]; [|constructor].
  pose proof (for_each_invariant (Forall (acs_record_of year table))
                (acs_row_step F py_float float_error year table headers) rows
                (fun row s => acs_row_step_records year table headers row s)
                [] (Forall_nil_2 _)) as Hrows.
  simpl. simpl in Hrows.
  destruct (for_each _ rows []) as [r records]. simpl in *.
  eapply Forall_impl; [exact Hrows|exact HP].
Qed.

Lemma tables_loop_records (P : acs_record F -> Prop) (year : Z)
    (tables : list (string * string)) :
  (forall table r, table ∈ tables -> acs_record_of year table r -> P r) ->
  forall w : world (acs_record F),
    Forall P (all_records w) ->
    Forall P (all_records (tables_loop F py_float float_error get year tables w)).
Proof.
  induction tables as [|table tables IH]; intros HP w Hw; [done|].
  cbn [tables_loop].
  pose proof (table_body_records P year table w
                (fun r => HP table r (list_elem_of_here _ _)) Hw) as Hbody.
  assert (forall t r, t ∈ tables -> acs_record_of year t r -> P r) as HP'.
  { intros t r Ht. apply HP. by right. }
  destruct (table_body F py_float float_error get year table w) as [[u|e] w1];
    simpl in Hbody.
  - by apply IH.
  - destruct (contains "404" (str e)); [done|by apply IH].
Qed.

Lemma acs_year_records (y : Z) :
  Forall (fun r => exists table, table ∈ ACS_TABLES /\ acs_record_of y table r)
    (all_records (acs_year_run py_float float_error get y)).
Proof.
  unfold acs_year_run. apply tables_loop_records; [|constructor].
  intros table r Ht Hr. by exists table.
Qed.

End AcsRecords.

End RecordFacts.

(** X17.  Every record of [process_acs] carries a year of the range, the
    dataset ["acs5"], the identifier and the name of one entry of
    [ACS_TABLES], and a variable that starts with that identifier and ends
    with ["E"]; the records are in the order of their years. *)
Theorem acs_records_are_table_estimates :
  forall (F : Type) (py_float : string -> option F) (float_error : string -> string)
         (get : TimeSeries.request -> res TimeSeries.body)
         (state : option Z) (current_year : Z),
    let records :=
      TimeSeries.all_records
        (TimeSeries.process_acs F py_float float_error get state current_year) in
    Forall (fun r =>
              TimeSeries.load_last_year state + 1 <= TimeSeries.acs_year F r
                < current_year - 1
              /\ exists table, table ∈ TimeSeries.ACS_TABLES
                               /\ acs_record_of (TimeSeries.acs_year F r) table r)
      records
    /\ StronglySorted Z.le (TimeSeries.acs_year F <$> records).
Proof.
  intros F py_float float_error get state current_year records.
  unfold records. rewrite process_acs_records. split.
  - apply Forall_concat_fmap. intros y Hy%elem_of_range.
    eapply Forall_impl; [apply (acs_year_records py_float float_error get y)|].
    intros r (table & Ht & Hr). simpl.
    assert (TimeSeries.acs_year F r = y) as -> by apply Hr.
    split; [done|]. by exists table.
  - apply concat_years_sorted; [apply range_sorted|].
    intros y.
    eapply Forall_impl; [apply (acs_year_records py_float float_error get y)|].
    intros r (table & _ & Hr). apply Hr.
Qed.

(** X18.  Every record of [process_population] and of [process_poverty]
    carries a year of the range and the name of its dataset, and the
    records are in the order of their years. *)
Theorem state_level_records_by_year :
  forall (F : Type) (py_float : string -> option F) (float_error : string -> string)
         (get : TimeSeries.request -> res TimeSeries.body)
         (state : option Z) (current_year : Z),
    let population :=
      TimeSeries.all_records
        (TimeSeries.process_population F py_float float_error get state current_year) in
    let poverty :=
      TimeSeries.all_records
        (TimeSeries.process_poverty F py_float float_error get state current_year) in
    (Forall (fun r =>
               TimeSeries.load_last_year state + 1 <= TimeSeries.pop_year F r
                 < current_year
               /\ TimeSeries.pop_dataset F r = "population_estimates") population
     /\ StronglySorted Z.le (TimeSeries.pop_year F <$> population))
    /\ (Forall (fun r =>
                  TimeSeries.load_last_year state + 1 <= TimeSeries.pov_year F r
                    < current_year
                  /\ TimeSeries.pov_dataset F r = "saipe") poverty
        /\ StronglySorted Z.le (TimeSeries.pov_year F <$> poverty)).
Proof.
  intros F py_float float_error get state current_year population poverty.
  assert (forall y d r,
             TimeSeries.population_of_row F py_float float_error y d = Ok r ->
             TimeSeries.pop_year F r = y
             /\ TimeSeries.pop_dataset F r = "population_estimates") as Hpop.
  { intros y d r. unfold TimeSeries.population_of_row.
    destruct (TimeSeries.measure F py_float float_error "-" (TimeSeries.dict_get d "POP"));
      cbn; [|done].
    destruct (TimeSeries.measure F py_float float_error "-" (TimeSeries.dict_get d "DENSITY"));
      cbn; [|done].
    by intros [= <-]. }
  assert (forall y d r,
             TimeSeries.poverty_of_row F py_float float_error y d = Ok r ->
             TimeSeries.pov_year F r = y
             /\ TimeSeries.pov_dataset F r = "saipe") as Hpov.
  { intros y d r. unfold TimeSeries.poverty_of_row.
    destruct (TimeSeries.measure F py_float float_error "." (TimeSeries.dict_get d "SAEPOVRTALL_PT"));
      cbn; [|done].
    destruct (TimeSeries.measure F py_float float_error "." (TimeSeries.dict_get d "SAEMHI_PT"));
      cbn; [|done].
    by intros [= <-]. }
  unfold population, poverty, TimeSeries.process_population, TimeSeries.process_poverty.
  rewrite !state_level_run_spec. simpl.
  split; split.
  - apply Forall_concat_fmap. intros y Hy%elem_of_range.
    eapply Forall_impl; [apply (year_records_Forall _ _ _ Hpop)|].
    simpl. intros r [-> Hd]. done.
  - apply concat_years_sorted; [apply range_sorted|]. intros y.
    eapply Forall_impl; [apply (year_records_Forall _ _ _ Hpop)|].
    simpl. by intros r [Hy _].
  - apply Forall_concat_fmap. intros y Hy%elem_of_range.
    eapply Forall_impl; [apply (year_records_Forall _ _ _ Hpov)|].
    simpl. intros r [-> Hd]. done.
  - apply concat_years_sorted; [apply range_sorted|]. intros y.
    eapply Forall_impl; [apply (year_records_Forall _ _ _ Hpov)|].
    simpl. by intros r [Hy _].
Qed.

Section MeasureFacts.

Import TimeSeries.

Context {F : Type}.
Variable py_float : string -> option F.
Variable float_error : string -> string.

(** [float] is called on a cell that is neither empty nor the sentinel,
    and its [ValueError] is the only exception of the expression. *)
Lemma measure_Raise (sentinel : string) (c : cell) (e : exn) :
  measure F py_float float_error sentinel c = Raise e
  <-> exists s, c = Some s /\ s <> "" /\ s <> sentinel /\ py_float s = None
                /\ e = Exn ValueError (float_error s).
Proof.
  unfold measure. destruct c as [s|]; [|split; [done|by intros (s & ? & _)]].
  destruct (String.eqb_spec s sentinel) as [->|Hne].
  - rewrite andb_false_r. split; [done|]. by intros (s & [= <-] & _ & ? & _).
  - rewrite andb_true_r. destruct s as [|a s]; simpl.
    + split; [done|]. by intros (s & [= <-] & ? & _).
    + destruct (py_float (String a s)) eqn:E.
      * split; [done|]. intros (s' & [= <-] & _ & _ & E' & _). congruence.
      * split.
        -- intros [= <-]. by exists (String a s).
        -- by intros (s' & [= <-] & _ & _ & _ & ->).
Qed.

Lemma measure_refused (sentinel : string) (c : cell) :
  (exists e, measure F py_float float_error sentinel c = Raise e)
  <-> refused py_float sentinel c.
Proof.
  unfold refused. split.
  - intros (e & (s & ? & ? & ? & ? & _)%measure_Raise). by exists s.
  - intros (s & ? & ? & ? & ?). exists (Exn ValueError (float_error s)).
    apply measure_Raise. by exists s.
Qed.

End MeasureFacts.

(** X19.  Making the record of a row raises exactly when one of its two
    measure cells is refused: a text that is not empty, is not the
    sentinel of the module (["-"] in [population.py], ["."] in
    [poverty.py]) and that [float] does not read.  A missing column, a
    null, an empty text and the sentinel never raise. *)
Theorem row_record_raises_on_refused_cell :
  forall (F : Type) (py_float : string -> option F) (float_error : string -> string)
         (year : Z) (row_dict : gmap cell cell),
    ((exists e, TimeSeries.population_of_row F py_float float_error year row_dict
                = Raise e)
     <-> refused py_float "-" (TimeSeries.dict_get row_dict "POP")
         \/ refused py_float "-" (TimeSeries.dict_get row_dict "DENSITY"))
    /\ ((exists e, TimeSeries.poverty_of_row F py_float float_error year row_dict
                   = Raise e)
        <-> refused py_float "." (TimeSeries.dict_get row_dict "SAEPOVRTALL_PT")
            \/ refused py_float "." (TimeSeries.dict_get row_dict "SAEMHI_PT")).
Proof.
  intros F py_float float_error year row_dict.
  split.
  - rewrite <- !(measure_refused py_float float_error).
    unfold TimeSeries.population_of_row.
    destruct (TimeSeries.measure F py_float float_error "-"
                (TimeSeries.dict_get row_dict "POP")) as [pop|e1]; cbn.
    + destruct (TimeSeries.measure F py_float float_error "-"
                  (TimeSeries.dict_get row_dict "DENSITY")) as [density|e2]; cbn.
      * split; [by intros [e ?]|]. by intros [[e ?]|[e ?]].
      * split; [|by exists e2]. intros _. right. by exists e2.
    + split; [|by exists e1]. intros _. left. by exists e1.
  - rewrite <- !(measure_refused py_float float_error).
    unfold TimeSeries.poverty_of_row.
    destruct (TimeSeries.measure F py_float float_error "."
                (TimeSeries.dict_get row_dict "SAEPOVRTALL_PT")) as [rate|e1]; cbn.
    + destruct (TimeSeries.measure F py_float float_error "."
                  (TimeSeries.dict_get row_dict "SAEMHI_PT")) as [income|e2]; cbn.
      * split; [by intros [e ?]|]. by intros [[e ?]|[e ?]].
      * split; [|by exists e2]. intros _. right. by exists e2.
    + split; [|by exists e1]. intros _. left. by exists e1.
Qed.

(** ** Variable discovery *)

Section DiscoveryFacts.

Import VariableDiscovery.

Context {J : Type}.
Variable text : string -> J.
Variable boolean : bool -> J.

Abbreviation parse_for row :=
  (fun kv : string * var_info J =>
     parse_variable_metadata J text boolean kv.1 kv.2
       (dataset_type row) (dataset_path row) (vintage row)).

(** The loop keeps the selected items and parses them in turn. *)
Lemma variables_loop_spec (row : dataset_row) (items : list (string * var_info J)) :
  forall variables,
    variables_loop J text boolean row items variables
    = new ← mapM (parse_for row) (selected_items row items); Ok (variables ++ new).
Proof.
  unfold selected_items.
  induction items as [|[var_name info] items IH]; intros variables.
  - simpl. by rewrite app_nil_r.
  - cbn [variables_loop]. rewrite filter_cons. cbn [fst].
    assert (selected row var_name
            = negb (in_list var_name ["for"; "in"; "ucgid"])
              && is_priority_variable (dataset_type row) var_name) as Hsel by done.
    destruct (in_list var_name ["for"; "in"; "ucgid"]); cbn [negb andb] in Hsel.
    { rewrite decide_False by (by rewrite Hsel). apply IH. }
    destruct (is_priority_variable (dataset_type row) var_name).
    2: { rewrite decide_False by (by rewrite Hsel). apply IH. }
    rewrite decide_True by done. cbn [mapM fst snd].
    unfold mbind at 1 3, res_bind.
    destruct (parse_variable_metadata J text boolean var_name info _ _ _) as [m|e];
      [|done].
    rewrite IH. unfold mbind, res_bind, mret, res_ret.
    destruct (mapM _ _) as [new|e]; [|done].
    by rewrite <- app_assoc.
Qed.

Lemma parse_variable_metadata_Ok (var_name : string) (info : var_info J)
    (ty path : option string) (vin : option Z) (m : variable_metadata J) :
  parse_variable_metadata J text boolean var_name info ty path vin = Ok m ->
  vm_dataset_type J m = ty /\ vm_dataset_path J m = path /\ vm_vintage J m = vin
  /\ variable_name J m = var_name /\ is_Some info.
Proof. destruct info; [|done]. by intros [= <-]. Qed.

Variable get : string -> res (response J).

(** What [fetch_dataset_variables] returns is what the loop returns on
    the items of a well-formed response, and nothing else. *)
Lemma fetch_dataset_variables_items (row : dataset_row) :
  (fetch_dataset_variables J text boolean get row).1 = []
  \/ exists link items,
       variables_link row = Some link
       /\ get link = Ok (ResponseDict J (Some (VariablesDict J items)))
       /\ mapM (parse_for row) (selected_items row items)
          = Ok (fetch_dataset_variables J text boolean get row).1.
Proof.
  unfold fetch_dataset_variables.
  destruct (variables_link row) as [link|]; [|by left].
  cbn [cell_truthy default from_option id].
  destruct (truthy link); [|left; reflexivity].
  unfold fetch_body.
  destruct (get link) as [[[[items|]|]|]|e] eqn:Hget; simpl;
    try (left; reflexivity).
  rewrite variables_loop_spec. unfold mbind, res_bind.
  destruct (mapM _ _) as [new|e] eqn:E; simpl; [|left; reflexivity].
  right. by exists link, items.
Qed.

Lemma fetch_dataset_variables_links (row : dataset_row) :
  (fetch_dataset_variables J text boolean get row).2
  = if cell_truthy (variables_link row) then [default "" (variables_link row)] else [].
Proof.
  unfold fetch_dataset_variables.
  destruct (cell_truthy (variables_link row)); [|done].
  by destruct (fetch_body _ _ _ _ _ _).
Qed.

End DiscoveryFacts.

(** X20.  Whatever the service answers, every variable
    [fetch_dataset_variables] returns carries the type, the path and the
    vintage of the dataset row, is none of the reserved tokens [for], [in]
    and [ucgid], and is a priority variable of the row's type. *)
Theorem fetched_variables_are_selected :
  forall (J : Type) (text : string -> J) (boolean : bool -> J)
         (get : string -> res (VariableDiscovery.response J))
         (row : VariableDiscovery.dataset_row),
    Forall (fun m =>
              VariableDiscovery.vm_dataset_type J m = VariableDiscovery.dataset_type row
              /\ VariableDiscovery.vm_dataset_path J m = VariableDiscovery.dataset_path row
              /\ VariableDiscovery.vm_vintage J m = VariableDiscovery.vintage row
              /\ ~ In (VariableDiscovery.variable_name J m) ["for"; "in"; "ucgid"]
              /\ VariableDiscovery.is_priority_variable
                   (VariableDiscovery.dataset_type row)
                   (VariableDiscovery.variable_name J m) = true)
      (VariableDiscovery.fetch_dataset_variables J text boolean get row).1.
Proof.
  intros J text boolean get row.
  destruct (fetch_dataset_variables_items text boolean get row)
    as [->|(link & items & _ & _ & Hrun)]; [constructor|].
  apply mapM_res_Ok in Hrun. apply Forall_forall. intros m Hm.
  apply list_elem_of_lookup in Hm as [i Hi].
  destruct (Forall2_lookup_r _ _ _ _ _ Hrun Hi) as ([var_name info] & Hkv & Hparse).
  apply list_elem_of_lookup_2 in Hkv.
  apply list_elem_of_filter in Hkv as [Hsel _]. simpl in Hsel, Hparse.
  apply parse_variable_metadata_Ok in Hparse as (-> & -> & -> & -> & _).
  unfold selected in Hsel. apply andb_true_iff in Hsel as [Hres Hprio].
  apply negb_true_iff, in_list_not_In in Hres. done.
Qed.

(** X21.  On a response whose ["variables"] is an object, the result is
    all or nothing: when the description of every selected variable is an
    object, the variables returned are the selected ones, in the order of
    the response, each with its parsed description; when the description of
    one selected variable is no object, nothing is returned, the variables
    before it included. *)
Theorem fetched_variables_all_or_nothing :
  forall (J : Type) (text : string -> J) (boolean : bool -> J)
         (get : string -> res (VariableDiscovery.response J))
         (row : VariableDiscovery.dataset_row) (link : string)
         (items : list (string * VariableDiscovery.var_info J)),
    VariableDiscovery.variables_link row = Some link ->
    link <> "" ->
    get link
    = Ok (VariableDiscovery.ResponseDict J
            (Some (VariableDiscovery.VariablesDict J items))) ->
    let variables :=
      (VariableDiscovery.fetch_dataset_variables J text boolean get row).1 in
    (Forall (fun kv => is_Some kv.2) (selected_items row items) ->
     Forall2 (fun kv m =>
                VariableDiscovery.parse_variable_metadata J text boolean kv.1 kv.2
                  (VariableDiscovery.dataset_type row)
                  (VariableDiscovery.dataset_path row)
                  (VariableDiscovery.vintage row) = Ok m)
       (selected_items row items) variables)
    /\ (Exists (fun kv => kv.2 = None) (selected_items row items) -> variables = []).
Proof.
  intros J text boolean get row link items Hlink Hne Hget variables.
  assert (variables
          = match mapM (fun kv =>
                          VariableDiscovery.parse_variable_metadata J text boolean
                            kv.1 kv.2 (VariableDiscovery.dataset_type row)
                            (VariableDiscovery.dataset_path row)
                            (VariableDiscovery.vintage row))
                    (selected_items row items) with
            | Ok new => new
            | Raise _ => []
            end) as ->.
  { unfold variables, VariableDiscovery.fetch_dataset_variables.
    rewrite Hlink. simpl. destruct link as [|a link]; [done|]. simpl.
    unfold VariableDiscovery.fetch_body. rewrite Hget. simpl.
    rewrite variables_loop_spec. unfold mbind, res_bind.
    by destruct (mapM _ _). }
  split.
  - intros Hall.
    destruct (mapM_res_total
                (fun kv =>
                   VariableDiscovery.parse_variable_metadata J text boolean
                     kv.1 kv.2 (VariableDiscovery.dataset_type row)
                     (VariableDiscovery.dataset_path row)
                     (VariableDiscovery.vintage row))
                (selected_items row items)) as [new Hnew].
    { eapply Forall_impl; [exact Hall|]. intros [var_name [info|]] [i Hi]; [|done].
      by eexists. }
    rewrite Hnew. by apply mapM_res_Ok.
  - intros Hex. destruct (mapM _ _) as [new|e] eqn:E; [|done].
    apply mapM_res_Ok in E. apply Exists_exists in Hex as ([var_name info] & Hin & Hnone).
    simpl in Hnone. subst info.
    apply list_elem_of_lookup in Hin as [i Hi].
    destruct (Forall2_lookup_l _ _ _ _ _ E Hi) as (m & _ & Hm). done.
Qed.

Lemma fetched_variables_all_or_nothing_witness :
  VariableDiscovery.variable_name Cases.json
  <$> (VariableDiscovery.fetch_dataset_variables Cases.json Cases.JText Cases.JBool
         Cases.links_all Cases.acs_row).1
  = ["B01001_001E"; "B19013_001E"]
  /\ (VariableDiscovery.fetch_dataset_variables Cases.json Cases.JText Cases.JBool
        Cases.links_broken Cases.acs_row).1 = [].
Proof.
  split.
  - destruct (fetched_variables_all_or_nothing Cases.json Cases.JText Cases.JBool
                Cases.links_all Cases.acs_row
                "https://api.census.gov/data/2021/acs/acs5/variables.json"
                Cases.acs_items eq_refl ltac:(discriminate) eq_refl) as [Hall _].
    assert (Forall (fun kv : string * VariableDiscovery.var_info Cases.json =>
                      is_Some kv.2) (selected_items Cases.acs_row Cases.acs_items))
      as Hobjects.
    { vm_compute. repeat constructor; by eexists. }
    specialize (Hall Hobjects). clear Hobjects.
    assert (forall sel vs,
               Forall2 (fun (kv : string * VariableDiscovery.var_info Cases.json) m =>
                          VariableDiscovery.parse_variable_metadata Cases.json
                            Cases.JText Cases.JBool kv.1 kv.2
                            (VariableDiscovery.dataset_type Cases.acs_row)
                            (VariableDiscovery.dataset_path Cases.acs_row)
                            (VariableDiscovery.vintage Cases.acs_row) = Ok m) sel vs ->
               VariableDiscovery.variable_name Cases.json <$> vs = sel.*1) as Hnames.
    { induction 1 as [|[var_name info] m sel vs Hm _ IH]; [done|].
      rewrite !fmap_cons, IH. f_equal.
      apply (parse_variable_metadata_Ok Cases.JText Cases.JBool) in Hm.
      apply Hm. }
    rewrite (Hnames _ _ Hall). reflexivity.
  - destruct (fetched_variables_all_or_nothing Cases.json Cases.JText Cases.JBool
                Cases.links_broken Cases.acs_row
                "https://api.census.gov/data/2021/acs/acs5/variables.json"
                Cases.acs_items_broken eq_refl ltac:(discriminate) eq_refl) as [_ Hnone].
    apply Hnone. vm_compute. apply Exists_cons_tl, Exists_cons_hd. reflexivity.
Defined.

Section PauseFacts.

Lemma pause_count (k n : nat) :
  (0 < k)%nat ->
  ((if pause_before k n then 1 else 0) + (n - 1) / k = n / k)%nat.
Proof.
  intros Hk. unfold pause_before.
  destruct (Nat.ltb_spec 0 n) as [Hn|Hn]; simpl.
  - pose proof (Nat.div_mod_eq n k) as Hd.
    pose proof (Nat.mod_upper_bound n k ltac:(lia)) as Hr.
    destruct (Nat.eqb_spec (n mod k) 0) as [Hz|Hz].
    + symmetry. rewrite Hz, Nat.add_0_r in Hd.
      assert (1 <= n / k)%nat by (destruct (n / k)%nat; lia).
      assert ((n - 1) / k = n / k - 1)%nat as ->; [|lia].
      symmetry. apply Nat.div_unique with (k - 1)%nat; [lia|]. nia.
    + simpl. symmetry. apply Nat.div_unique with (n mod k - 1)%nat; [lia|]. lia.
  - assert (n = 0)%nat as -> by lia. simpl. by rewrite Nat.Div0.div_0_l.
Qed.

Lemma filter_none {A : Type} (P : A -> Prop) `{!forall x, Decision (P x)} (l : list A) :
  Forall (fun x => ~ P x) l -> filter P l = [].
Proof.
  induction 1 as [|x l Hx _ IH]; [done|]. by rewrite filter_cons, decide_False.
Qed.

(** A loop that pauses before every [k]-th item, the first one apart,
    pauses [(n - 1) / k] times on [n] items. *)
Lemma pauses_in_loop {A E : Type} (is_sleep : E -> Prop)
    `{!forall e, Decision (is_sleep e)} (sleep : E) (k : nat)
    (rest : nat -> A -> list E) (l : list A) :
  (0 < k)%nat ->
  is_sleep sleep ->
  (forall i x, Forall (fun e => ~ is_sleep e) (rest i x)) ->
  length (filter is_sleep
            (concat (imap (fun i x => (if pause_before k i then [sleep] else [])
                                      ++ rest i x) l)))
  = ((length l - 1) / k)%nat.
Proof.
  intros Hk Hsleep Hrest. induction l as [|x l IH] using rev_ind.
  - cbn [imap concat filter length list_filter Nat.sub]. by rewrite Nat.Div0.div_0_l.
  - rewrite imap_app, concat_app, filter_app, length_app, IH.
    cbn [imap concat]. rewrite app_nil_r, Nat.add_0_r, filter_app, length_app.
    assert (length (filter is_sleep (rest (length l) x)) = 0%nat) as ->.
    { by rewrite filter_none. }
    assert (length (filter is_sleep (if pause_before k (length l) then [sleep] else []))
            = if pause_before k (length l) then 1%nat else 0%nat) as ->.
    { destruct (pause_before k (length l)); [|done].
      rewrite filter_cons, decide_True by done. done. }
    rewrite length_app. cbn [length].
    replace (length l + 1 - 1)%nat with (length l) by lia.
    pose proof (pause_count k (length l) Hk) as Hp.
    remember ((length l - 1) / k)%nat as a eqn:Ha.
    remember (length l / k)%nat as b eqn:Hb. clear Ha Hb IH.
    destruct (pause_before k (length l)); lia.
Qed.

End PauseFacts.

Section ProcessVariablesFacts.

Import VariableDiscovery.

Context {J : Type}.
Variable text : string -> J.
Variable boolean : bool -> J.
Variable get : string -> res (response J).

Abbreviation fetched d := (fetch_dataset_variables J text boolean get d).

(** The loop of [process_variables], in closed form. *)
Lemma process_variables_loop (datasets : list dataset_row) :
  foldl (dataset_step J text boolean get) ([], [], ∅) (enumerate datasets)
  = (concat (imap (discovery_events text boolean get) datasets),
     concat ((fun d => (fetched d).1) <$> datasets),
     dict_of (counted text boolean get
              <$> filter (fun d => length (fetched d).1 <> 0%nat) datasets)).
Proof.
  induction datasets as [|d datasets IH] using rev_ind; [done|].
  unfold enumerate in *. rewrite imap_app, foldl_app, IH. cbn [imap foldl].
  rewrite Nat.add_0_r, imap_app, !concat_app, fmap_app, concat_app, filter_app, fmap_app.
  cbn [imap concat fmap list_fmap]. rewrite !app_nil_r, Nat.add_0_r.
  unfold dataset_step, discovery_events, pause_before.
  rewrite filter_cons, filter_nil.
  destruct (fetched d) as [vars links] eqn:Hd. cbn [fst snd].
  assert (forall (a b c : list event), (if (0 <? length datasets)%nat
                                              && (length datasets mod 10 =? 0)%nat
                                           then a ++ [Sleep] else a) ++ b
                                       = a ++ (if (0 <? length datasets)%nat
                                                  && (length datasets mod 10 =? 0)%nat
                                               then [Sleep] else []) ++ b) as Hev.
  { intros a b _. destruct (_ && _); by rewrite <- ?app_assoc. }
  rewrite Hev by exact []. clear Hev.
  destruct vars as [|v vars].
  - rewrite decide_False by (cbn; lia). rewrite !app_nil_r. done.
  - rewrite decide_True by (cbn; lia). cbn [fmap list_fmap].
    unfold dict_of. rewrite foldl_app. cbn [foldl].
    unfold counted at 2 3. rewrite Hd. done.
Qed.

End ProcessVariablesFacts.

(** X22.  [process_variables] visits the rows of the catalog in order.
    The table it returns is the variables of the first row, then those of
    the second, and so on; what it does on the way is, row after row, a
    pause before the rows at positions 10, 20, ..., then one request for
    the row's link when it has one, and no request when the link is null or
    empty. *)
Theorem process_variables_in_catalog_order :
  forall (J : Type) (text : string -> J) (boolean : bool -> J)
         (get : string -> res (VariableDiscovery.response J))
         (catalog_data : list VariableDiscovery.dataset_row),
    let fetch := VariableDiscovery.fetch_dataset_variables J text boolean get in
    let '(table, _, events) :=
      VariableDiscovery.process_variables J text boolean get catalog_data in
    table = concat ((fun d => (fetch d).1) <$> catalog_data)
    /\ events
       = concat (imap (fun i d =>
                         (if pause_before 10 i then [VariableDiscovery.Sleep] else [])
                         ++ match VariableDiscovery.variables_link d with
                            | Some link =>
                                if truthy link then [VariableDiscovery.Request link]
                                else []
                            | None => []
                            end) catalog_data).
Proof.
  intros J text boolean get catalog_data fetch.
  unfold VariableDiscovery.process_variables. rewrite process_variables_loop.
  split; [done|]. f_equal. apply imap_ext. intros i d _.
  unfold discovery_events. f_equal. rewrite fetch_dataset_variables_links.
  by destruct (VariableDiscovery.variables_link d) as [link|]; [simpl; destruct (truthy link)|].
Qed.

(** X23.  On [n] rows [process_variables] pauses [(n - 1) / 10] times (no
    pause on ten rows or fewer), and it sends one request for each row
    whose link is neither null nor empty. *)
Theorem process_variables_pauses :
  forall (J : Type) (text : string -> J) (boolean : bool -> J)
         (get : string -> res (VariableDiscovery.response J))
         (catalog_data : list VariableDiscovery.dataset_row),
    let events :=
      (VariableDiscovery.process_variables J text boolean get catalog_data).2 in
    length (filter (fun e => e = VariableDiscovery.Sleep) events)
    = ((length catalog_data - 1) / 10)%nat
    /\ length (filter (fun e => e <> VariableDiscovery.Sleep) events)
       = length (filter (fun d => cell_truthy (VariableDiscovery.variables_link d) = true)
                   catalog_data).
Proof.
  intros J text boolean get catalog_data events.
  assert (events = concat (imap (discovery_events text boolean get) catalog_data)) as ->.
  { unfold events, VariableDiscovery.process_variables.
    by rewrite process_variables_loop. }
  split.
  - unfold discovery_events.
    apply (pauses_in_loop (fun e => e = VariableDiscovery.Sleep) VariableDiscovery.Sleep 10
             (fun _ d => VariableDiscovery.Request
                         <$> (VariableDiscovery.fetch_dataset_variables J text boolean
                                get d).2)); [lia|done|].
    intros _ d. apply Forall_fmap, Forall_forall. done.
  - induction catalog_data as [|d l IH] using rev_ind; [done|].
    rewrite imap_app, concat_app, !filter_app, !length_app, IH. f_equal.
    cbn [imap concat]. rewrite app_nil_r. unfold discovery_events.
    rewrite filter_app, length_app, fetch_dataset_variables_links.
    destruct (pause_before 10 (length l + 0)).
    + rewrite filter_cons, decide_False by (by intros H; apply H).
      rewrite filter_cons, filter_nil.
      destruct (cell_truthy (VariableDiscovery.variables_link d)) eqn:Hd.
      * rewrite decide_True by done. done.
      * rewrite decide_False by done. done.
    + rewrite filter_nil, filter_cons, filter_nil.
      destruct (cell_truthy (VariableDiscovery.variables_link d)) eqn:Hd.
      * rewrite decide_True by done. done.
      * rewrite decide_False by done. done.
Qed.

(** X24.  The state [process_variables] saves counts the rows of the
    table it returns, and its [dataset_variable_counts] is the dict of the
    pairs (["type/vintage"], number of variables) of the rows that have
    variables, in catalog order, a later pair replacing an earlier one of
    the same key.  So when the last two rows of the catalog have the same
    type and vintage and the last one has variables, their key holds the
    count of the last one alone. *)
Theorem process_variables_state :
  forall (J : Type) (text : string -> J) (boolean : bool -> J)
         (get : string -> res (VariableDiscovery.response J))
         (catalog_data : list VariableDiscovery.dataset_row),
    let fetch := VariableDiscovery.fetch_dataset_variables J text boolean get in
    let '(table, state, _) :=
      VariableDiscovery.process_variables J text boolean get catalog_data in
    VariableDiscovery.total_variables state = length table
    /\ VariableDiscovery.dataset_variable_counts state
       = dict_of ((fun d => (Format.key (VariableDiscovery.dataset_type d) "/"
                               (VariableDiscovery.vintage d),
                             length (fetch d).1))
                  <$> filter (fun d => length (fetch d).1 <> 0%nat) catalog_data)
    /\ (forall d1 d2 rest,
           catalog_data = rest ++ [d1; d2] ->
           VariableDiscovery.dataset_type d1 = VariableDiscovery.dataset_type d2 ->
           VariableDiscovery.vintage d1 = VariableDiscovery.vintage d2 ->
           (fetch d2).1 <> [] ->
           VariableDiscovery.dataset_variable_counts state
           !! Format.key (VariableDiscovery.dataset_type d1) "/"
                (VariableDiscovery.vintage d1)
           = Some (length (fetch d2).1)).
Proof.
  intros J text boolean get catalog_data fetch.
  unfold VariableDiscovery.process_variables. rewrite process_variables_loop.
  split; [done|]. split; [done|].
  intros d1 d2 rest -> Hty Hvin Hvars. cbn [VariableDiscovery.dataset_variable_counts].
  replace (rest ++ [d1; d2]) with ((rest ++ [d1]) ++ [d2]) by by rewrite <- app_assoc.
  rewrite filter_app, fmap_app, filter_cons, filter_nil.
  rewrite decide_True by (intros Hz%length_zero_iff_nil; by apply Hvars).
  unfold dict_of. rewrite foldl_app. cbn [foldl fmap list_fmap].
  unfold counted at 1 2. cbn [fst snd]. rewrite Hty, Hvin. apply lookup_insert_eq.
Qed.

Lemma process_variables_state_witness :
  VariableDiscovery.dataset_variable_counts
    (VariableDiscovery.process_variables Cases.json Cases.JText Cases.JBool
       Cases.links_two [Cases.acs_row; Cases.acs1_row]).1.2
  !! "acs/2021" = Some 1%nat.
Proof.
  pose proof (process_variables_state Cases.json Cases.JText Cases.JBool
                Cases.links_two [Cases.acs_row; Cases.acs1_row]) as H.
  cbv zeta in H.
  destruct (VariableDiscovery.process_variables Cases.json Cases.JText Cases.JBool
              Cases.links_two [Cases.acs_row; Cases.acs1_row])
    as [[table state] events].
  destruct H as (_ & _ & H).
  exact (H Cases.acs_row Cases.acs1_row [] eq_refl eq_refl eq_refl
           ltac:(vm_compute; discriminate)).
Defined.

(** A run on a row with a link and a row without one: one request, and
    the two selected variables of the first row. *)
Example process_variables_run :
  (VariableDiscovery.process_variables Cases.json Cases.JText Cases.JBool
     Cases.links_all [Cases.acs_row; Cases.no_link_row]).2
  = [VariableDiscovery.Request "https://api.census.gov/data/2021/acs/acs5/variables.json"]
  /\ VariableDiscovery.variable_name Cases.json
     <$> (VariableDiscovery.process_variables Cases.json Cases.JText Cases.JBool
            Cases.links_all [Cases.acs_row; Cases.no_link_row]).1.1
     = ["B01001_001E"; "B19013_001E"].
Proof. split; reflexivity. Qed.

(** ** Incremental fetcher: the requests *)

Section LoopFacts.

Import TimeSeries.

(** A loop whose body adds to a log a prefix of what is planned for its
    item, all of it when the body does not raise, adds a prefix of what is
    planned for the list, all of it when the loop does not raise. *)
Lemma for_each_log {A S E : Type} (log : S -> list E)
    (body : A -> S -> res unit * S) (plan : A -> list E) (l : list A) :
  (forall x s, x ∈ l ->
     exists c, log (body x s).2 = log s ++ c
               /\ c `prefix_of` plan x
               /\ ((exists u, (body x s).1 = Ok u) -> c = plan x)) ->
  forall s,
    exists c, log (for_each body l s).2 = log s ++ c
              /\ c `prefix_of` concat (plan <$> l)
              /\ ((exists u, (for_each body l s).1 = Ok u) -> c = concat (plan <$> l)).
Proof.
  induction l as [|x l IH]; intros Hbody s.
  - exists []. simpl. rewrite app_nil_r. done.
  - cbn [for_each]. destruct (Hbody x s (list_elem_of_here _ _)) as (c & Hc & Hpre & Hok).
    destruct (body x s) as [[u|e] s1]; simpl in *.
    + destruct (IH (fun y t Hy => Hbody y t (list_elem_of_further _ _ _ Hy)) s1)
        as (c' & Hc' & Hpre' & Hok').
      rewrite (Hok (ex_intro _ u eq_refl)) in Hc.
      exists (plan x ++ c'). rewrite Hc', Hc, <- app_assoc. split; [done|].
      split; [by apply prefix_app|]. intros Hu. by rewrite Hok'.
    + exists c. split; [done|]. split; [by apply prefix_app_r|].
      by intros [u [=]].
Qed.

End LoopFacts.

Section FetchFacts.

Import DataFetcher DataFetcherRun.

Context {F : Type}.
Variable py_float : string -> option F.
Variable get : request -> res (list (list cell)).

Lemma fetch_census_data_requests (url geography : string) (group : list string) :
  url <> "" -> group <> [] ->
  (fetch_census_data get (Some url) group geography).2
  = [request_for url geography group].
Proof.
  intros Hurl Hgroup. unfold fetch_census_data.
  destruct group as [|v group]; [done|]. destruct url as [|a url]; [done|].
  cbn [truthy]. fold (request_for (String a url) geography (v :: group)).
  destruct (get _) as [data|e]; [|done]. by destruct (1 <? length data)%nat.
Qed.

(** The groups of [build_variable_groups] are never empty. *)
Lemma build_variable_groups_nonempty (variables : list variable_row) :
  Forall (fun g => g <> []) (build_variable_groups variables).
Proof.
  destruct (build_variable_groups_spec variables) as [_ Hlen].
  assert (Forall (fun n => n <> 0%nat) (batch_sizes (length variables))) as Hsizes.
  { unfold batch_sizes. apply Forall_app. split.
    - apply Forall_replicate. unfold MAX_VARS_PER_REQUEST. lia.
    - destruct (length variables mod MAX_VARS_PER_REQUEST)%nat; repeat constructor. lia. }
  rewrite <- Hlen in Hsizes. rewrite Forall_forall in Hsizes.
  apply Forall_forall. intros g Hg ->. apply (Hsizes 0%nat); [|done].
  apply list_elem_of_fmap. by exists [].
Qed.

Lemma group_step_log (dataset_info : dataset) (variable_map : list (string * variable_row))
    (url geography : string) (ig : nat * list string)
    (st : list (observation F) * list (event F)) :
  api_endpoint dataset_info = Some url -> url <> "" -> ig.2 <> [] ->
  (group_step F py_float get dataset_info variable_map geography ig st).2.2
  = st.2 ++ group_events F url geography ig.
Proof.
  intros Hend Hurl Hgroup. destruct ig as [i group], st as [all_records events].
  unfold group_step, group_events. rewrite Hend. cbn [fst snd] in *.
  pose proof (fetch_census_data_requests url geography group Hurl Hgroup) as Hreq.
  destruct (fetch_census_data get (Some url) group geography) as [data requests].
  cbn [snd] in Hreq. subst requests. fold (pause_before 5 i).
  assert (forall b : list (event F),
             (if pause_before 5 i then events ++ [Sleep F] else events) ++ b
             = events ++ (if pause_before 5 i then [Sleep F] else []) ++ b) as ->.
  { intros b. destruct (pause_before 5 i); by rewrite <- ?app_assoc. }
  destruct data as [data|]; [|done].
  by destruct (parse_api_response F py_float data dataset_info variable_map).
Qed.

(** The events of [process_dataset_data] are the first ones of the plan,
    all of it when the function returns. *)
Lemma process_dataset_data_log (dataset_info : dataset) (variables : list variable_row)
    (url : string) :
  api_endpoint dataset_info = Some url -> url <> "" ->
  let run := process_dataset_data F py_float get dataset_info variables in
  run.2 `prefix_of` planned_events F url (build_variable_groups variables)
  /\ ((exists records, run.1 = Ok records) ->
      run.2 = planned_events F url (build_variable_groups variables)).
Proof.
  intros Hend Hurl run. unfold run, process_dataset_data. rewrite Hend.
  destruct url as [|a url]; [done|]. cbn [cell_truthy truthy].
  set (url' := String a url) in *.
  destruct (for_each_log snd
              (geography_step F py_float get dataset_info (variable_map_of variables)
                 (build_variable_groups variables))
              (fun geo => concat (group_events F url' geo.2
                                  <$> enumerate (build_variable_groups variables)))
              GEOGRAPHY_LEVELS) with (s := ([], []) : list (observation F) * list (event F))
    as (c & Hc & Hpre & Hok).
  { intros geo st _. unfold geography_step.
    apply (for_each_log snd
             (group_step F py_float get dataset_info (variable_map_of variables) geo.2)
             (group_events F url' geo.2)).
    intros ig s Hig. exists (group_events F url' geo.2 ig).
    assert (ig.2 <> []) as Hne.
    { unfold enumerate in Hig. apply list_elem_of_lookup in Hig as [i Hi].
      rewrite list_lookup_imap in Hi.
      destruct (build_variable_groups variables !! i) as [g|] eqn:Hg; [|done].
      injection Hi as <-. simpl.
      pose proof (build_variable_groups_nonempty variables) as Hall.
      rewrite Forall_forall in Hall. apply Hall. by eapply list_elem_of_lookup_2. }
    split; [by apply group_step_log|]. done. }
  destruct (TimeSeries.for_each _ GEOGRAPHY_LEVELS _) as [r [all_records events]].
  cbn [fst snd] in *. subst events. fold (planned_events F url' (build_variable_groups variables)) in *.
  split; [done|]. intros [records Hr]. apply Hok.
  destruct r as [u|e]; [by exists u|done].
Qed.

End FetchFacts.

(** X25.  [fetch_census_data] sends no request when the endpoint is null
    or empty or when it is given no variable, and one request otherwise,
    for the endpoint, [NAME] and the variables joined by commas, and the
    geography.  It returns a body only when the request returned it and
    the body has at least two rows. *)
Theorem fetch_census_data_guarded :
  forall (get : DataFetcherRun.request -> res (list (list cell)))
         (api_endpoint : option string) (variables : list string) (geography : string),
    let '(data, requests) :=
      DataFetcherRun.fetch_census_data get api_endpoint variables geography in
    (cell_truthy api_endpoint = false \/ variables = [] -> data = None /\ requests = [])
    /\ (forall url, api_endpoint = Some url -> url <> "" -> variables <> [] ->
        requests = [request_for url geography variables])
    /\ (forall body, data = Some body ->
        (2 <= length body)%nat /\ exists r, requests = [r] /\ get r = Ok body).
Proof.
  intros get api_endpoint variables geography.
  pose proof (fetch_census_data_requests get) as Hreq.
  unfold DataFetcherRun.fetch_census_data in *.
  destruct api_endpoint as [url|]; [|by repeat split; intros; try done].
  destruct variables as [|v variables].
  { repeat split; intros; try done. }
  cbn [cell_truthy]. destruct (truthy url) eqn:Hurl.
  2: { split; [done|]. split; [|done]. intros url' [= <-] Hne. by destruct url. }
  destruct (get _) as [body|e] eqn:Hget.
  - destruct (Nat.ltb_spec 1 (length body)) as [Hlen|Hlen].
    + split; [by intros [|]|]. split; [by intros url' [= <-] _ _|].
      intros body' [= <-]. split; [lia|]. by eexists.
    + split; [by intros [|]|]. split; [by intros url' [= <-] _ _|]. done.
  - split; [by intros [|]|]. split; [by intros url' [= <-] _ _|]. done.
Qed.

(** X26.  For a dataset with an endpoint, [process_dataset_data] goes
    through the geographies [state:*] and [county:*] in this order and at
    each one through the groups of [build_variable_groups] in order: a
    pause before the groups at positions 5, 10, ..., then one request for
    the group.  When it returns, it has done all of that; when parsing a
    response raises, it has done the first part of it. *)
Theorem process_dataset_data_plan :
  forall (F : Type) (py_float : string -> option F)
         (get : DataFetcherRun.request -> res (list (list cell)))
         (dataset_info : DataFetcher.dataset) (variables : list DataFetcher.variable_row)
         (url : string),
    DataFetcher.api_endpoint dataset_info = Some url ->
    url <> "" ->
    let run := DataFetcherRun.process_dataset_data F py_float get dataset_info variables in
    let plan := planned_events F url (DataFetcher.build_variable_groups variables) in
    run.2 `prefix_of` plan
    /\ ((exists records, run.1 = Ok records) -> run.2 = plan).
Proof.
  intros F py_float get dataset_info variables url Hend Hurl.
  by apply process_dataset_data_log.
Qed.

Lemma process_dataset_data_plan_witness :
  (DataFetcherRun.process_dataset_data Decimal.decimal Decimal.float_of_decimal
     Cases.data_states Examples.acs_dataset Cases.acs_variables).2
  = [ DataFetcherRun.Send Decimal.decimal
        (request_for "https://api.census.gov/data/2021/acs/acs5" "state:*"
           ["B01003_001E"]);
      DataFetcherRun.Send Decimal.decimal
        (request_for "https://api.census.gov/data/2021/acs/acs5" "county:*"
           ["B01003_001E"]) ].
Proof.
  destruct (process_dataset_data_plan Decimal.decimal Decimal.float_of_decimal
              Cases.data_states Examples.acs_dataset Cases.acs_variables
              "https://api.census.gov/data/2021/acs/acs5" eq_refl ltac:(discriminate))
    as [_ Hplan].
  rewrite Hplan; [reflexivity|]. eexists. reflexivity.
Defined.

Section CountFacts.

Import DataFetcher DataFetcherRun.

Context {F : Type}.

Lemma requests_sent_app (a b : list (event F)) :
  requests_sent (a ++ b) = requests_sent a ++ requests_sent b.
Proof. apply omap_app. Qed.

Lemma requests_sent_groups (url geography : string) (groups : list (list string)) :
  requests_sent (concat (group_events F url geography <$> enumerate groups))
  = request_for url geography <$> groups.
Proof.
  unfold enumerate. induction groups as [|g groups IH] using rev_ind; [done|].
  rewrite imap_app, !fmap_app, concat_app, requests_sent_app, IH. f_equal.
  cbn [imap fmap list_fmap concat]. unfold group_events. cbn [fst snd].
  rewrite app_nil_r. by destruct (pause_before 5 (length groups + 0)).
Qed.

Lemma paused_groups (url geography : string) (groups : list (list string)) :
  length (filter paused (concat (group_events F url geography <$> enumerate groups)))
  = ((length groups - 1) / 5)%nat.
Proof.
  unfold enumerate. rewrite fmap_imap.
  apply (pauses_in_loop paused (Sleep F) 5
           (fun _ g => [Send F (request_for url geography g)])); [lia|done|].
  intros _ g. repeat constructor. by intros [].
Qed.

Lemma length_batch_sizes (n : nat) :
  length (batch_sizes n)
  = (n / 50 + match (n mod 50)%nat with O => 0 | S _ => 1 end)%nat.
Proof.
  unfold batch_sizes, MAX_VARS_PER_REQUEST. rewrite length_app, length_replicate.
  by destruct (n mod 50)%nat.
Qed.

Lemma length_build_variable_groups (variables : list variable_row) :
  length (build_variable_groups variables)
  = (length variables / 50
     + match (length variables mod 50)%nat with O => 0 | S _ => 1 end)%nat.
Proof.
  rewrite <- length_batch_sizes.
  destruct (build_variable_groups_spec variables) as [_ <-].
  by rewrite length_fmap.
Qed.

End CountFacts.

(** X27.  When [process_dataset_data] returns for a dataset with an
    endpoint and [n] variables, it has sent one request for each group at
    [state:*], then one for each group at [county:*]: twice the number of
    groups, [n / 50] and one more when 50 does not divide [n]; and it has
    paused [(g - 1) / 5] times at each geography, [g] the number of
    groups. *)
Theorem process_dataset_data_requests :
  forall (F : Type) (py_float : string -> option F)
         (get : DataFetcherRun.request -> res (list (list cell)))
         (dataset_info : DataFetcher.dataset) (variables : list DataFetcher.variable_row)
         (url : string) (records : list (DataFetcher.observation F)),
    DataFetcher.api_endpoint dataset_info = Some url ->
    url <> "" ->
    (DataFetcherRun.process_dataset_data F py_float get dataset_info variables).1
    = Ok records ->
    let events :=
      (DataFetcherRun.process_dataset_data F py_float get dataset_info variables).2 in
    let groups := DataFetcher.build_variable_groups variables in
    let g := (length variables / 50
              + match (length variables mod 50)%nat with O => 0 | S _ => 1 end)%nat in
    requests_sent events
    = (request_for url "state:*" <$> groups) ++ (request_for url "county:*" <$> groups)
    /\ length (requests_sent events) = (2 * g)%nat
    /\ length (filter paused events) = (2 * ((g - 1) / 5))%nat.
Proof.
  intros F py_float get dataset_info variables url records Hend Hurl Hrun events groups g.
  destruct (process_dataset_data_log py_float get dataset_info variables url Hend Hurl)
    as [_ Hplan].
  assert (events = planned_events F url groups) as ->.
  { apply Hplan. by exists records. }
  assert (length groups = g) as Hg by apply length_build_variable_groups.
  unfold planned_events, DataFetcherRun.GEOGRAPHY_LEVELS.
  cbn [fmap list_fmap concat snd]. rewrite app_nil_r.
  rewrite requests_sent_app, !requests_sent_groups.
  split; [done|]. split.
  - rewrite length_app, !length_fmap, Hg. lia.
  - rewrite filter_app, length_app, !paused_groups, Hg. lia.
Qed.

Lemma process_dataset_data_requests_witness :
  length (requests_sent
            (DataFetcherRun.process_dataset_data Decimal.decimal Decimal.float_of_decimal
               Cases.data_states Examples.acs_dataset Cases.acs_variables).2)
  = 2%nat.
Proof.
  destruct (process_dataset_data_requests Decimal.decimal Decimal.float_of_decimal
              Cases.data_states Examples.acs_dataset Cases.acs_variables
              "https://api.census.gov/data/2021/acs/acs5"
              [Examples.alabama_observation; Examples.georgia_observation]
              eq_refl ltac:(discriminate) eq_refl) as (_ & Hcount & _).
  exact Hcount.
Defined.

Section TaggedFacts.

Import DataFetcher DataFetcherRun.

Lemma odict_set_elem {V : Type} (k : string) (v : V) (d : list (string * V))
    (x : string * V) :
  x ∈ odict_set k v d -> x = (k, v) \/ x ∈ d.
Proof.
  induction d as [|[k' v'] d IH]; simpl.
  - intros ->%list_elem_of_singleton. by left.
  - destruct (decide (k = k')) as [->|Hne].
    + intros [->|Hx]%elem_of_cons; [by left|]. right. by right.
    + intros [->|Hx]%elem_of_cons; [right; by left|].
      destruct (IH Hx) as [->|Hd]; [by left|]. right. by right.
Qed.

Lemma odict_of_elem {V : Type} (pairs : list (string * V)) (x : string * V) :
  x ∈ odict_of pairs -> x ∈ pairs.
Proof.
  unfold odict_of.
  assert (forall d, x ∈ foldl (fun d kv => odict_set kv.1 kv.2 d) d pairs ->
                    x ∈ d \/ x ∈ pairs) as Hgen.
  { induction pairs as [|[k v] pairs IH]; intros d; simpl; [by left|].
    intros [Hx|Hx]%IH; [|right; by right].
    apply odict_set_elem in Hx as [->|Hx]; [right; by left|by left]. }
  intros [Hx|Hx]%Hgen; [by apply elem_of_nil in Hx|done].
Qed.

Context {F : Type}.
Variable py_float : string -> option F.
Variable get : request -> res (list (list cell)).

Lemma parse_api_response_tagged (data : list (list cell)) (dataset_info : dataset)
    (variables : list variable_row) (records : list (observation F)) :
  parse_api_response F py_float data dataset_info (variable_map_of variables) = Ok records ->
  Forall (observation_of dataset_info variables) records.
Proof.
  destruct data as [|headers rows]; [by intros [= <-]|].
  intros (per_row & -> & Hrows)%parse_api_response_rows.
  apply Forall_concat. induction Hrows as [|row rs rows per_row Hrow _ IH]; [done|].
  constructor; [|done].
  apply row_records_fields in Hrow as [_ Hrow].
  eapply Forall_impl; [exact Hrow|].
  intros r (Hty & Hvin & (info & Hin & Hlabel) & _). split; [done|]. split; [done|].
  apply odict_of_elem, list_elem_of_fmap in Hin as (v & [= Hname ->] & Hv).
  by exists v.
Qed.

Lemma group_step_tagged (dataset_info : dataset) (variables : list variable_row)
    (geography : string) (ig : nat * list string)
    (st : list (observation F) * list (event F)) :
  Forall (observation_of dataset_info variables) st.1 ->
  Forall (observation_of dataset_info variables)
    (group_step F py_float get dataset_info (variable_map_of variables) geography ig st).2.1.
Proof.
  destruct ig as [i group], st as [all_records events]. intros Hst. unfold group_step.
  destruct (fetch_census_data get (api_endpoint dataset_info) group geography)
    as [[data|] requests]; [|done].
  destruct (parse_api_response F py_float data dataset_info (variable_map_of variables))
    as [records|e] eqn:Hparse; [|done].
  cbn [fst snd] in *. apply Forall_app. split; [done|].
  by eapply parse_api_response_tagged.
Qed.

Lemma geography_step_tagged (dataset_info : dataset) (variables : list variable_row)
    (geo : string * string) (st : list (observation F) * list (event F)) :
  Forall (observation_of dataset_info variables) st.1 ->
  Forall (observation_of dataset_info variables)
    (geography_step F py_float get dataset_info (variable_map_of variables)
       (build_variable_groups variables) geo st).2.1.
Proof.
  unfold geography_step.
  apply (for_each_invariant
           (fun st : list (observation F) * list (event F) =>
              Forall (observation_of dataset_info variables) st.1)).
  intros ig s. apply group_step_tagged.
Qed.

Lemma process_dataset_data_tagged (dataset_info : dataset) (variables : list variable_row)
    (records : list (observation F)) :
  (process_dataset_data F py_float get dataset_info variables).1 = Ok records ->
  Forall (observation_of dataset_info variables) records.
Proof.
  unfold process_dataset_data.
  destruct (cell_truthy (api_endpoint dataset_info)); [|by intros [= <-]].
  pose proof (for_each_invariant
                (fun st : list (observation F) * list (event F) =>
                   Forall (observation_of dataset_info variables) st.1)
                (geography_step F py_float get dataset_info (variable_map_of variables)
                   (build_variable_groups variables))
                GEOGRAPHY_LEVELS
                (fun geo st => geography_step_tagged dataset_info variables geo st)
                ([], []) (Forall_nil_2 _)) as Hinv.
  destruct (TimeSeries.for_each _ GEOGRAPHY_LEVELS ([], [])) as [r [all_records events]].
  cbn [fst snd] in *. destruct r as [u|e]; [|done]. by intros [= <-].
Qed.

End TaggedFacts.

(** X28.  Every record [process_dataset_data] returns carries the type
    and the vintage of the dataset it was called for, and the name and the
    label of one of the variables it was called with. *)
Theorem process_dataset_data_records :
  forall (F : Type) (py_float : string -> option F)
         (get : DataFetcherRun.request -> res (list (list cell)))
         (dataset_info : DataFetcher.dataset) (variables : list DataFetcher.variable_row)
         (records : list (DataFetcher.observation F)),
    (DataFetcherRun.process_dataset_data F py_float get dataset_info variables).1
    = Ok records ->
    Forall (observation_of dataset_info variables) records.
Proof.
  intros F py_float get dataset_info variables records.
  apply process_dataset_data_tagged.
Qed.

Lemma process_dataset_data_records_witness :
  Forall (observation_of Examples.acs_dataset Cases.acs_variables)
    [Examples.alabama_observation; Examples.georgia_observation].
Proof.
  apply (process_dataset_data_records Decimal.decimal Decimal.float_of_decimal
           Cases.data_states Examples.acs_dataset Cases.acs_variables).
  reflexivity.
Defined.

(** ** Incremental fetcher: uploads and state *)

Section MainLoopFacts.

Import DataFetcher DataFetcherRun.

Context {F : Type}.
Variable py_float : string -> option F.
Variable get : request -> res (list (list cell)).

Lemma uploads_app (a b : list (event F)) : uploads (a ++ b) = uploads a ++ uploads b.
Proof. apply omap_app. Qed.

Lemma states_saved_app (a b : list (event F)) :
  states_saved (a ++ b) = states_saved a ++ states_saved b.
Proof. apply omap_app. Qed.

(** A prefix of the plan of a dataset holds no upload and no state. *)
Lemma planned_events_local (url : string) (groups : list (list string))
    (events : list (event F)) :
  events `prefix_of` planned_events F url groups ->
  uploads events = [] /\ states_saved events = [].
Proof.
  intros [rest Hplan].
  assert (Forall (fun e => match e with Sleep _ | Send _ _ => True | _ => False end)
            (planned_events F url groups)) as Hlocal.
  { unfold planned_events. apply Forall_concat, Forall_fmap, Forall_forall.
    intros geo _. apply Forall_concat, Forall_fmap, Forall_forall. intros ig _.
    unfold group_events. simpl. apply Forall_app. split.
    - by destruct (pause_before 5 ig.1); repeat constructor.
    - by repeat constructor. }
  rewrite Hplan in Hlocal. apply Forall_app in Hlocal as [Hlocal _].
  clear Hplan. induction Hlocal as [|e events He _ [IH1 IH2]]; [done|].
  destruct e; try done.
Qed.

Lemma process_dataset_data_local (dataset_info : dataset) (variables : list variable_row) :
  uploads (process_dataset_data F py_float get dataset_info variables).2 = []
  /\ states_saved (process_dataset_data F py_float get dataset_info variables).2 = [].
Proof.
  destruct (api_endpoint dataset_info) as [url|] eqn:Hend.
  - destruct (decide (url = "")) as [->|Hurl].
    + unfold process_dataset_data. by rewrite Hend.
    + destruct (process_dataset_data_log py_float get dataset_info variables url Hend Hurl)
        as [Hpre _].
      by eapply planned_events_local.
  - unfold process_dataset_data. by rewrite Hend.
Qed.

(** What one dataset adds: nothing, or the records fetched for it, all of
    them uploaded as one table. *)
Lemma dataset_step_spec (variables_data : list variable_row) (d : dataset)
    (st : list (observation F) * list (event F)) :
  let step := dataset_step F py_float get (variables_by_dataset variables_data) d st in
  exists ups : list (list (observation F)),
    (ups = []
     \/ exists records,
          ups = [records] /\ records <> []
          /\ (process_dataset_data F py_float get d (variables_of variables_data d)).1
             = Ok records)
    /\ uploads step.2.2 = uploads st.2 ++ ((fun t => upload_of (d, t)) <$> ups)
    /\ states_saved step.2.2 = states_saved st.2
    /\ step.2.1 = st.1 ++ concat ups.
Proof.
  destruct st as [all_records events]. unfold dataset_step.
  fold (variables_of variables_data d).
  destruct (variables_of variables_data d) as [|v vs] eqn:Hvars.
  { exists []. cbn [fst snd fmap list_fmap concat]. rewrite !app_nil_r. auto. }
  rewrite <- Hvars.
  pose proof (process_dataset_data_local d (variables_of variables_data d)) as [Hup Hst].
  pose proof (process_dataset_data_tagged py_float get d (variables_of variables_data d))
    as Htag.
  destruct (process_dataset_data F py_float get d (variables_of variables_data d))
    as [[records|e] sent]; cbn [fst snd] in *.
  - destruct records as [|r records].
    + exists []. cbn [fst snd fmap list_fmap concat].
      rewrite uploads_app, states_saved_app, Hup, Hst, !app_nil_r. auto.
    + specialize (Htag _ eq_refl).
      assert (filter (fun r0 => obs_dataset_type F r0 = dataset_type d) (r :: records)
              = r :: records) as ->.
      { apply filter_all. intros x Hx. rewrite Forall_forall in Htag. by apply Htag. }
      exists [r :: records]. cbn [fst snd fmap list_fmap concat].
      rewrite !uploads_app, !states_saved_app, Hup, Hst, !app_nil_r.
      split; [right; by exists (r :: records)|]. done.
  - exists []. cbn [fst snd fmap list_fmap concat].
      rewrite uploads_app, states_saved_app, Hup, Hst, !app_nil_r. auto.
Qed.

(** The loop over the datasets. *)
Lemma datasets_loop_spec (variables_data : list variable_row) (l : list dataset) :
  forall st : list (observation F) * list (event F),
    let run :=
      TimeSeries.for_each
        (dataset_step F py_float get (variables_by_dataset variables_data)) l st in
    exists ups : list (dataset * list (observation F)),
      uploads run.2.2 = uploads st.2 ++ (upload_of <$> ups)
      /\ states_saved run.2.2 = states_saved st.2
      /\ ups.*1 `sublist_of` l
      /\ Forall (fun du =>
                   du.2 <> []
                   /\ (process_dataset_data F py_float get du.1
                         (variables_of variables_data du.1)).1 = Ok du.2) ups
      /\ run.2.1 = st.1 ++ concat ups.*2.
Proof.
  induction l as [|d l IH]; intros st run.
  - exists []. unfold run. cbn [TimeSeries.for_each fst snd fmap list_fmap concat].
    rewrite !app_nil_r. repeat split; constructor.
  - unfold run. cbn [TimeSeries.for_each].
    destruct (dataset_step_spec variables_data d st) as (ups & Hups & Hu & Hs & Hr).
    destruct (dataset_step F py_float get (variables_by_dataset variables_data) d st)
      as [[u|e] st1]; cbn [fst snd] in *.
    + destruct (IH st1) as (rest & Hu' & Hs' & Hsub & Hall & Hr').
      destruct Hups as [->|(records & -> & Hne & Hrun)].
      * exists rest. cbn [fmap list_fmap concat] in *. rewrite app_nil_r in Hu, Hr.
        rewrite Hu', Hs', Hr', Hu, Hs, Hr. repeat split; try done.
        by apply sublist_cons.
      * exists ((d, records) :: rest). cbn [fmap list_fmap concat] in *.
        rewrite app_nil_r in Hr.
        rewrite Hu', Hs', Hr', Hu, Hs, Hr, <- !app_assoc. repeat split; try done.
        -- by apply sublist_skip.
        -- by constructor.
    + destruct Hups as [->|(records & -> & Hne & Hrun)].
      * exists []. cbn [fmap list_fmap concat] in *. rewrite Hu, Hs, Hr.
        repeat split; try done. apply sublist_nil_l.
      * exists [(d, records)]. cbn [fmap list_fmap concat] in *.
        rewrite Hu, Hs, Hr. repeat split; try done.
        -- apply sublist_skip, sublist_nil_l.
        -- by repeat constructor.
Qed.

End MainLoopFacts.

(** X29.  Every table [process_data_fetcher] uploads is the whole list
    of records [process_dataset_data] returned for one of the datasets
    selected, under the name made of its type and its vintage: the filter
    on the dataset type drops no record.  The uploads follow the order of
    the datasets selected, at most one for each, so at most ten. *)
Theorem uploads_are_whole_datasets :
  forall (F : Type) (py_float : string -> option F)
         (get : DataFetcherRun.request -> res (list (list cell)))
         (catalog_data : list DataFetcher.dataset)
         (variables_data : list DataFetcher.variable_row),
    let events :=
      (DataFetcherRun.process_data_fetcher F py_float get catalog_data variables_data).2 in
    exists ups : list (DataFetcher.dataset * list (DataFetcher.observation F)),
      uploads events = upload_of <$> ups
      /\ ups.*1 `sublist_of` DataFetcher.datasets_to_process catalog_data
      /\ Forall (fun du =>
                   du.2 <> []
                   /\ (DataFetcherRun.process_dataset_data F py_float get du.1
                         (variables_of variables_data du.1)).1 = Ok du.2) ups
      /\ (length (uploads events) <= 10)%nat.
Proof.
  intros F py_float get catalog_data variables_data events.
  unfold events, DataFetcherRun.process_data_fetcher.
  destruct (datasets_loop_spec py_float get variables_data
              (DataFetcher.datasets_to_process catalog_data) ([], []))
    as (ups & Hu & Hs & Hsub & Hall & Hr).
  destruct (TimeSeries.for_each _ _ _) as [[u|e] [all_records evs]]; cbn [fst snd] in *.
  - exists ups. rewrite uploads_app, Hu. cbn. rewrite app_nil_r.
    repeat split; try done.
    rewrite length_fmap, <- (length_fmap fst).
    apply sublist_length in Hsub. rewrite datasets_to_process_take in Hsub.
    rewrite length_take in Hsub. lia.
  - exists ups. rewrite Hu. cbn. repeat split; try done.
    rewrite length_fmap, <- (length_fmap fst).
    apply sublist_length in Hsub. rewrite datasets_to_process_take in Hsub.
    rewrite length_take in Hsub. lia.
Qed.

(** X30.  [process_data_fetcher] saves its state once, as the last thing
    it does, and only when no dataset raised: the state counts the
    datasets selected and, as total, the records of the tables uploaded.
    The table it returns is empty.  When a dataset raises, the run ends
    with that exception and no state is saved. *)
Theorem state_saved_at_the_end :
  forall (F : Type) (py_float : string -> option F)
         (get : DataFetcherRun.request -> res (list (list cell)))
         (catalog_data : list DataFetcher.dataset)
         (variables_data : list DataFetcher.variable_row),
    let '(result, events) :=
      DataFetcherRun.process_data_fetcher F py_float get catalog_data variables_data in
    match result with
    | Ok table =>
        table = []
        /\ exists before,
             events
             = before
               ++ [DataFetcherRun.SaveState F
                     (length (DataFetcher.datasets_to_process catalog_data))
                     (length (concat (uploads before).*2))]
             /\ states_saved before = []
    | Raise _ => states_saved events = []
    end.
Proof.
  intros F py_float get catalog_data variables_data.
  unfold DataFetcherRun.process_data_fetcher.
  destruct (datasets_loop_spec py_float get variables_data
              (DataFetcher.datasets_to_process catalog_data) ([], []))
    as (ups & Hu & Hs & Hsub & Hall & Hr).
  destruct (TimeSeries.for_each _ _ _) as [[u|e] [all_records evs]]; cbn [fst snd] in *.
  - split; [done|]. exists evs. split; [|done].
    rewrite Hu, Hr. cbn. do 4 f_equal.
    rewrite <- list_fmap_compose. done.
  - done.
Qed.

(** A run on one dataset with one variable: two requests, one upload of
    the two records of the states, and the state. *)
Example process_data_fetcher_run :
  DataFetcherRun.process_data_fetcher Decimal.decimal Decimal.float_of_decimal
    Cases.data_states [Examples.acs_dataset] Cases.acs_variables
  = (Ok [],
     [ DataFetcherRun.Send Decimal.decimal
         (request_for "https://api.census.gov/data/2021/acs/acs5" "state:*"
            ["B01003_001E"]);
       DataFetcherRun.Send Decimal.decimal
         (request_for "https://api.census.gov/data/2021/acs/acs5" "county:*"
            ["B01003_001E"]);
       DataFetcherRun.Upload Decimal.decimal "acs_2021"
         [Examples.alabama_observation; Examples.georgia_observation];
       DataFetcherRun.SaveState Decimal.decimal 1 2 ]).
Proof. reflexivity. Qed.
